(** * Product card component (product.component.tsx)

    A shallow embedding of the product card of the search-result container:
    the page-URL and image-URL state driven by swatch selection, the small
    sub-renderers of the card, and the add-to-cart assembly.

    Strings are byte strings ([String.string]); a JavaScript string is
    identified with its UTF-8 encoding.  Numbers are binary64 floats
    ([PrimFloat.float]), record identifiers are integers ([Z]).  A value
    that may be [undefined] or [null] is an [option]. *)

From Stdlib Require Import Bool List Ascii String NArith ZArith Lia PrimFloat DecimalString.
Import ListNotations.

Open Scope bool_scope.
Open Scope string_scope.

(** ** Exceptions *)

Inductive JSError : Type :=
| TypeError (message : string).

Inductive Result (A : Type) : Type :=
| Ok (value : A)
| Throw (error : JSError).

Arguments Ok {A} value.
Arguments Throw {A} error.

Definition bind {A B : Type} (c : Result A) (k : A -> Result B) : Result B :=
  match c with
  | Ok a => k a
  | Throw e => Throw e
  end.

Notation "x <- c ;; k" := (bind c (fun x => k))
  (at level 61, c at next level, right associativity).

(** ** Text *)

Module Text.

Definition code (c : ascii) : N := N_of_ascii c.

Fixpoint all_chars (p : ascii -> bool) (s : string) : bool :=
  match s with
  | EmptyString => true
  | String c r => p c && all_chars p r
  end.

Fixpoint mem (c : ascii) (s : string) : bool :=
  match s with
  | EmptyString => false
  | String d r => Ascii.eqb d c || mem c r
  end.

Fixpoint map_chars (f : ascii -> ascii) (s : string) : string :=
  match s with
  | EmptyString => EmptyString
  | String c r => String (f c) (map_chars f r)
  end.

Fixpoint remove_chars (p : ascii -> bool) (s : string) : string :=
  match s with
  | EmptyString => EmptyString
  | String c r => if p c then remove_chars p r else String c (remove_chars p r)
  end.

Fixpoint trim_start (p : ascii -> bool) (s : string) : string :=
  match s with
  | EmptyString => EmptyString
  | String c r => if p c then trim_start p r else s
  end.

Fixpoint trim_end (p : ascii -> bool) (s : string) : string :=
  match s with
  | EmptyString => EmptyString
  | String c r =>
      match trim_end p r with
      | EmptyString => if p c then EmptyString else String c EmptyString
      | r' => String c r'
      end
  end.

(** [String.prototype.startsWith]. *)
Fixpoint startsWith (s p : string) {struct p} : bool :=
  match p, s with
  | EmptyString, _ => true
  | String a p', String b s' => Ascii.eqb a b && startsWith s' p'
  | String _ _, EmptyString => false
  end.

(** [String.prototype.includes]. *)
Fixpoint includes (s sub : string) : bool :=
  startsWith s sub ||
  match s with
  | EmptyString => false
  | String _ r => includes r sub
  end.

(** The text before the first [sep], and the text after it when there is one. *)
Fixpoint split_first (sep : ascii) (s : string) : string * option string :=
  match s with
  | EmptyString => (EmptyString, None)
  | String c r =>
      if Ascii.eqb c sep then (EmptyString, Some r)
      else let (a, b) := split_first sep r in (String c a, b)
  end.

(** [String.prototype.split] on a one-character separator. *)
Fixpoint split_on (sep : ascii) (s : string) : list string :=
  match s with
  | EmptyString => [EmptyString]
  | String c r =>
      if Ascii.eqb c sep then EmptyString :: split_on sep r
      else match split_on sep r with
           | [] => [String c EmptyString]
           | h :: t => String c h :: t
           end
  end.

(** [Array.prototype.join]. *)
Fixpoint join (sep : string) (l : list string) : string :=
  match l with
  | [] => EmptyString
  | [x] => x
  | x :: r => x ++ sep ++ join sep r
  end.

Definition is_upper (c : ascii) : bool := (65 <=? code c)%N && (code c <=? 90)%N.
Definition is_lower (c : ascii) : bool := (97 <=? code c)%N && (code c <=? 122)%N.
Definition is_digit (c : ascii) : bool := (48 <=? code c)%N && (code c <=? 57)%N.
Definition is_alnum (c : ascii) : bool := is_upper c || is_lower c || is_digit c.

Definition lower_char (c : ascii) : ascii :=
  if is_upper c then ascii_of_N (code c + 32) else c.

(** [String.prototype.toLocaleLowerCase], on the ASCII letters (bytes of
    other characters are kept).  This is what the method gives for the
    texts of [Fragment.plain_key]. *)
Fixpoint toLocaleLowerCase (s : string) : string :=
  match s with
  | EmptyString => EmptyString
  | String c r => String (lower_char c) (toLocaleLowerCase r)
  end.

(** Decimal text of an integer ([Number.prototype.toString] on an integral
    value inside the safe-integer range, [Fragment.safe_integer]). *)
Definition Z_toString (z : Z) : string := NilZero.string_of_int (Z.to_int z).

End Text.

(** ** Percent encoding (URL Standard, section 1.3) *)

Module Percent.
Import Text.

Definition hex_digit (n : N) : ascii :=
  match n with
  | 0%N => "0" | 1%N => "1" | 2%N => "2" | 3%N => "3"
  | 4%N => "4" | 5%N => "5" | 6%N => "6" | 7%N => "7"
  | 8%N => "8" | 9%N => "9" | 10%N => "A" | 11%N => "B"
  | 12%N => "C" | 13%N => "D" | 14%N => "E" | _ => "F"
  end%char.

Definition hex_value (c : ascii) : option N :=
  if is_digit c then Some (code c - 48)%N
  else if (65 <=? code c)%N && (code c <=? 70)%N then Some (code c - 55)%N
  else if (97 <=? code c)%N && (code c <=? 102)%N then Some (code c - 87)%N
  else None.

Definition encode_byte (c : ascii) (rest : string) : string :=
  String "%" (String (hex_digit (code c / 16)) (String (hex_digit (code c mod 16)) rest)).

(** Percent-encode every byte of [s] that lies in the set [inset]. *)
Fixpoint encode (inset : ascii -> bool) (s : string) : string :=
  match s with
  | EmptyString => EmptyString
  | String c r => if inset c then encode_byte c (encode inset r) else String c (encode inset r)
  end.

(** Percent-decode: a [%] followed by two hex digits becomes one byte. *)
Fixpoint decode (s : string) : string :=
  match s with
  | EmptyString => EmptyString
  | String c r =>
      if Ascii.eqb c "%" then
        match r with
        | String h1 (String h2 r') =>
            match hex_value h1, hex_value h2 with
            | Some a, Some b => String (ascii_of_N (16 * a + b)) (decode r')
            | _, _ => String c (decode r)
            end
        | _ => String c (decode r)
        end
      else String c (decode r)
  end.

Definition one_of (s : string) (c : ascii) : bool := mem c s.

(** The double quote, U+0022. *)
Definition dquote : ascii := ascii_of_N 34.

(** The percent-encode sets. *)
Definition c0_control_set (c : ascii) : bool := (code c <=? 31)%N || (126 <? code c)%N.
Definition fragment_set (c : ascii) : bool :=
  c0_control_set c || Ascii.eqb c " " || Ascii.eqb c dquote || one_of "<>`" c.
Definition query_set (c : ascii) : bool :=
  c0_control_set c || Ascii.eqb c " " || Ascii.eqb c dquote || one_of "#<>" c.
Definition special_query_set (c : ascii) : bool := query_set c || Ascii.eqb c "'".
Definition path_set (c : ascii) : bool := query_set c || one_of "?^`{}" c.
(** application/x-www-form-urlencoded: everything but the ASCII
    alphanumerics and [*], [-], [.], [_]. *)
Definition urlencoded_set (c : ascii) : bool := negb (is_alnum c || one_of "*-._" c).

End Percent.

(** ** application/x-www-form-urlencoded (URL Standard, section 5) *)

Module FormUrlEncoded.
Import Text Percent.

Definition plus_to_space (c : ascii) : ascii := if Ascii.eqb c "+" then " "%char else c.

(** Names and values are kept as the decoded bytes (the UTF-8 decoding of
    ill-formed sequences to U+FFFD is not modelled). *)
Definition decode_component (s : string) : string := decode (map_chars plus_to_space s).

Definition parse_sequence (seq : string) : list (string * string) :=
  match seq with
  | EmptyString => []
  | _ =>
      let (name, value) := split_first "=" seq in
      [(decode_component name,
        decode_component (match value with Some v => v | None => EmptyString end))]
  end.

(** The urlencoded parser. *)
Definition parse (input : string) : list (string * string) :=
  flat_map parse_sequence (split_on "&" input).

(** Percent-encode after encoding with the urlencoded set, space as plus. *)
Fixpoint encode_component (s : string) : string :=
  match s with
  | EmptyString => EmptyString
  | String c r =>
      if Ascii.eqb c " " then String "+" (encode_component r)
      else if urlencoded_set c then encode_byte c (encode_component r)
      else String c (encode_component r)
  end.

Definition serialize_tuple (t : string * string) : string :=
  encode_component (fst t) ++ "=" ++ encode_component (snd t).

(** The urlencoded serializer. *)
Definition serialize (tuples : list (string * string)) : string :=
  join "&" (map serialize_tuple tuples).

End FormUrlEncoded.

(** ** The [URL] class (URL Standard, sections 4 and 6)

    The record holds what the accessors used by the component read.  The
    parser covers absolute [http]/[https] URLs written with [://] and
    references relative to such a base, scheme-relative ones included; the
    query and the fragment are treated as the standard does.  Left out:
    credentials, ports, and the normalisation and validation of hosts (the
    authority text is kept as written and only an empty one is refused),
    the removal of dot segments from paths, other schemes, and [http] or
    [https] URLs written without [//].  [Fragment.supported], further down,
    delimits the texts on which the parser gives what the URL class gives;
    the properties that read a URL back are stated for these. *)

Module Url.
Import Text Percent.

Inductive Scheme : Type := Http | Https.

Definition scheme_text (s : Scheme) : string :=
  match s with Http => "http" | Https => "https" end.

Record URL : Type := mkURL {
  scheme : Scheme;
  host : string;
  pathname : string;
  query : option string;
  fragment : option string
}.

Definition is_c0_or_space (c : ascii) : bool := (code c <=? 32)%N.
Definition is_tab_or_newline (c : ascii) : bool :=
  (code c =? 9)%N || (code c =? 10)%N || (code c =? 13)%N.

(** Leading and trailing C0 controls and spaces are stripped, then every
    tab and newline is removed. *)
Definition clean_input (s : string) : string :=
  remove_chars is_tab_or_newline (trim_end is_c0_or_space (trim_start is_c0_or_space s)).

Record Reference : Type := mkReference {
  ref_path : string;
  ref_query : option string;
  ref_fragment : option string
}.

Definition split_reference (s : string) : Reference :=
  let (s1, f) := split_first "#" s in
  let (p, q) := split_first "?" s1 in
  mkReference p q f.

(** [drop_prefix_ci p s]: [s] without the prefix [p], compared without
    regard to ASCII case. *)
Fixpoint drop_prefix_ci (p s : string) {struct p} : option string :=
  match p, s with
  | EmptyString, _ => Some s
  | String a p', String b s' =>
      if Ascii.eqb a (lower_char b) then drop_prefix_ci p' s' else None
  | String _ _, EmptyString => None
  end.

Definition take_scheme (p : string) : option (Scheme * string) :=
  match drop_prefix_ci "https://" p with
  | Some r => Some (Https, r)
  | None =>
      match drop_prefix_ci "http://" p with
      | Some r => Some (Http, r)
      | None => None
      end
  end.

Definition encode_query (q : option string) : option string :=
  option_map (encode special_query_set) q.
Definition encode_fragment (f : option string) : option string :=
  option_map (encode fragment_set) f.

Inductive Parsed : Type :=
| Absolute (u : URL)
| Relative (r : Reference)
| Failure.

(** In an [http] or [https] URL a backslash stands for a slash. *)
Definition backslash_to_slash (c : ascii) : ascii :=
  if Ascii.eqb c "\" then "/"%char else c.

Definition is_slash (c : ascii) : bool := Ascii.eqb c "/".

(** The authority and the path behind the two slashes: further slashes in
    front of the authority are skipped, and an empty authority is refused. *)
Definition authority_and_path (rest : string) : option (string * string) :=
  let (authority, path) := split_first "/" (trim_start is_slash rest) in
  match authority with
  | EmptyString => None
  | _ =>
      Some (authority,
            String "/" (encode path_set
                          (match path with Some p => p | None => EmptyString end)))
  end.

Definition parse_reference (input : string) : Parsed :=
  let r := split_reference (clean_input input) in
  let path := map_chars backslash_to_slash (ref_path r) in
  match take_scheme path with
  | Some (sch, rest) =>
      match authority_and_path rest with
      | Some (authority, p) =>
          Absolute (mkURL sch authority p (encode_query (ref_query r))
                      (encode_fragment (ref_fragment r)))
      | None => Failure
      end
  | None => Relative (mkReference path (ref_query r) (ref_fragment r))
  end.

(** The path up to and including its last slash. *)
Fixpoint dirname (path : string) : string :=
  match path with
  | EmptyString => EmptyString
  | String c r =>
      if mem "/" r then String c (dirname r)
      else if Ascii.eqb c "/" then String c EmptyString
      else EmptyString
  end.

(** A relative reference against its base: an empty path keeps the path of
    the base (and its query when the reference has none), two leading
    slashes start an authority, one leading slash a path, and any other
    path replaces the last segment of the path of the base. *)
Definition resolve (base : URL) (r : Reference) : option URL :=
  let q := encode_query (ref_query r) in
  let f := encode_fragment (ref_fragment r) in
  match ref_path r with
  | EmptyString =>
      Some (mkURL (scheme base) (host base) (pathname base)
              (match ref_query r with
               | Some _ => q
               | None => query base
               end) f)
  | String c rest =>
      if Ascii.eqb c "/" then
        if startsWith rest "/" then
          match authority_and_path rest with
          | Some (authority, p) => Some (mkURL (scheme base) authority p q f)
          | None => None
          end
        else Some (mkURL (scheme base) (host base) (encode path_set (ref_path r)) q f)
      else
        Some (mkURL (scheme base) (host base)
                (dirname (pathname base) ++ encode path_set (ref_path r)) q f)
  end.

Definition invalid_url : JSError := TypeError "Invalid URL".

(** [new URL(input)] and [new URL(input, base)]. *)
Definition newURL (input : string) (base : option string) : Result URL :=
  match base with
  | None =>
      match parse_reference input with
      | Absolute u => Ok u
      | _ => Throw invalid_url
      end
  | Some b =>
      match parse_reference b with
      | Absolute bu =>
          match parse_reference input with
          | Absolute u => Ok u
          | Relative r =>
              match resolve bu r with
              | Some u => Ok u
              | None => Throw invalid_url
              end
          | Failure => Throw invalid_url
          end
      | _ => Throw invalid_url
      end
  end.

(** The [search] getter. *)
Definition search (u : URL) : string :=
  match query u with
  | None => EmptyString
  | Some EmptyString => EmptyString
  | Some q => String "?" q
  end.

Definition with_query (u : URL) (q : option string) : URL :=
  mkURL (scheme u) (host u) (pathname u) q (fragment u).

(** A text as the query of an [http] or [https] URL holds it: tabs and
    newlines are removed, and the rest is encoded with the special-query
    set. *)
Definition stored_query (input : string) : string :=
  encode special_query_set (remove_chars is_tab_or_newline input).

(** What the [search] setter stores for a non-empty value: one leading [?]
    is dropped first. *)
Definition query_text (value : string) : string :=
  stored_query
    (match value with
     | String c r => if Ascii.eqb c "?" then r else value
     | EmptyString => value
     end).

(** The [search] setter. *)
Definition set_search (u : URL) (value : string) : URL :=
  match value with
  | EmptyString => with_query u None
  | _ => with_query u (Some (query_text value))
  end.

(** The list of the [searchParams] object. *)
Definition searchParams (u : URL) : list (string * string) :=
  FormUrlEncoded.parse (match query u with Some q => q | None => EmptyString end).

(** [searchParams.delete(name)]: the tuples of that name are removed and
    the query is rewritten from the list. *)
Definition searchParams_delete (u : URL) (name : string) : URL :=
  let tuples := filter (fun t => negb (String.eqb (fst t) name)) (searchParams u) in
  match FormUrlEncoded.serialize tuples with
  | EmptyString => with_query u None
  | s => with_query u (Some s)
  end.

(** [searchParams.getAll(name)]. *)
Definition getAll (name : string) (tuples : list (string * string)) : list string :=
  map snd (filter (fun t => String.eqb (fst t) name) tuples).

(** The [href] getter, also [toString()]. *)
Definition href (u : URL) : string :=
  scheme_text (scheme u) ++ "://" ++ host u ++ pathname u
    ++ (match query u with Some q => String "?" q | None => EmptyString end)
    ++ (match fragment u with Some f => String "#" f | None => EmptyString end).

End Url.

(** ** JavaScript truthiness and the array and string helpers *)

Module JS.

Definition truthy_string (s : option string) : bool :=
  match s with
  | Some (String _ _) => true
  | _ => false
  end.

(** A number is falsy when it is [0], [-0] or [NaN]. *)
Definition truthy_float (x : float) : bool := negb (is_zero x || is_nan x).

Definition truthy_number (n : option float) : bool :=
  match n with
  | Some x => truthy_float x
  | None => false
  end.

Definition truthy_bool (b : option bool) : bool :=
  match b with
  | Some true => true
  | _ => false
  end.

(** [a ?? b]. *)
Definition nullish {A : Type} (a : option A) (b : A) : A :=
  match a with
  | Some x => x
  | None => b
  end.

(** [Array.prototype.find]. *)
Definition find {A : Type} (f : A -> bool) (l : list A) : option A := List.find f l.

(** [Array.prototype.some]. *)
Definition some {A : Type} (f : A -> bool) (l : list A) : bool := existsb f l.

(** [ArrayExtensions.hasElements]: neither null nor undefined, and of
    positive length. *)
Definition hasElements {A : Type} (value : option (list A)) : bool :=
  match value with
  | Some (_ :: _) => true
  | _ => false
  end.

(** [ArrayExtensions.validValues]: the entries that are neither null nor
    undefined; the empty array for an absent one. *)
Definition validValues {A : Type} (values : option (list (option A))) : list A :=
  match values with
  | Some l => flat_map (fun v => match v with Some x => [x] | None => [] end) l
  | None => []
  end.

(** One white space or line terminator at the head of the text, in UTF-8:
    U+0009 to U+000D, U+0020, U+00A0, U+1680, U+2000 to U+200A, U+2028,
    U+2029, U+202F, U+205F, U+3000 and U+FEFF. *)
Definition ascii_space (c : ascii) : bool :=
  ((9 <=? Text.code c)%N && (Text.code c <=? 13)%N) || (Text.code c =? 32)%N.

Definition space3 (a b c : N) : bool :=
  ((a =? 225) && (b =? 154) && (c =? 128))%N
  || ((a =? 226) && (b =? 128) && ((128 <=? c) && (c <=? 138) || (c =? 168) || (c =? 169) || (c =? 175)))%N
  || ((a =? 226) && (b =? 129) && (c =? 159))%N
  || ((a =? 227) && (b =? 128) && (c =? 128))%N
  || ((a =? 239) && (b =? 187) && (c =? 191))%N.

(** The text is made of white space only ([value.trim() === '']). *)
Fixpoint blank (s : string) : bool :=
  match s with
  | EmptyString => true
  | String a r =>
      if ascii_space a then blank r
      else
        match r with
        | String b r' =>
            if ((Text.code a =? 194) && (Text.code b =? 160))%N then blank r'
            else
              match r' with
              | String c r'' =>
                  if space3 (Text.code a) (Text.code b) (Text.code c) then blank r'' else false
              | EmptyString => false
              end
        | EmptyString => false
        end
  end.

(** [StringExtensions.isNullOrWhitespace]. *)
Definition isNullOrWhitespace (value : option string) : bool :=
  match value with
  | Some s => blank s
  | None => true
  end.

End JS.

(** ** The retail data model *)

(** [DimensionTypes]: a string enumeration. *)
Module DimensionTypes.
Definition none : string := "none".
Definition color : string := "color".
Definition configuration : string := "configuration".
Definition size : string := "size".
Definition style : string := "style".
End DimensionTypes.

Module AttributeSwatch.
Record t : Type := mk {
  SwatchValue : option string;
  SwatchColorHexCode : option string;
  SwatchImageUrl : option string;
  ProductImageUrls : option (list string);
  IsDefault : option bool
}.
End AttributeSwatch.

Module AttributeValue.
Record t : Type := mk {
  RecordId : option Z;
  KeyName : option string;
  Swatches : option (list AttributeSwatch.t)
}.
End AttributeValue.

Module ProductSearchResult.
Record t : Type := mk {
  RecordId : Z;
  ItemId : option string;
  Name : option string;
  Description : option string;
  BasePrice : option float;
  Price : float;
  MaxVariantPrice : option float;
  MinVariantPrice : option float;
  PrimaryImageUrl : option string;
  AverageRating : option float;
  TotalRatings : option float;
  DefaultUnitOfMeasure : option string;
  MasterProductId : option Z;
  AttributeValues : option (list AttributeValue.t);
  ExtensionProperties : option (list (string * string))
}.
End ProductSearchResult.

(** [SimpleProduct], as far as the add-to-cart assembly fills it. *)
Module SimpleProduct.
Record t : Type := mk {
  RecordId : Z;
  ItemId : option string;
  Name : option string;
  Description : option string;
  ProductTypeValue : Z;
  DefaultUnitOfMeasure : option string;
  BasePrice : option float;
  Price : float;
  AdjustedPrice : float;
  MasterProductId : option Z;
  PrimaryImageUrl : option string;
  ExtensionProperties : option (list (string * string))
}.
End SimpleProduct.

Module ProductPrice.
Record t : Type := mk {
  BasePrice : option float;
  AdjustedPrice : option float;
  CustomerContextualPrice : option float;
  MaxVariantPrice : option float;
  MinVariantPrice : option float
}.
End ProductPrice.

Module ProductDimension.
Record t : Type := mk {
  DimensionTypeValue : Z;
  DimensionValue_RecordId : Z;
  DimensionValue_Value : string
}.
End ProductDimension.

(** [IProductsDimensionsAvailabilities], as far as the card reads it. *)
Module DimensionAvailability.
Record t : Type := mk {
  value : string;
  isDisabled : bool;
  masterProductId : option Z
}.
End DimensionAvailability.

(** [ISwatchItem]. *)
Module SwatchItem.
Record t : Type := mk {
  itemId : string;
  value : string;
  dimensionType : string;
  colorHexCode : option string;
  imageUrl : option string;
  productImageUrls : option (list string);
  isDefault : option bool;
  swatchItemAriaLabel : string;
  isDisabled : option bool
}.

Definition with_isDefault (s : t) (d : option bool) : t :=
  mk (itemId s) (value s) (dimensionType s) (colorHexCode s) (imageUrl s)
     (productImageUrls s) d (swatchItemAriaLabel s) (isDisabled s).
End SwatchItem.

(** ** The context of the module *)

Record ApiSettings : Type := mkApiSettings {
  baseUrl : string;
  baseImageUrl : string
}.

Record AppConfig : Type := mkAppConfig {
  dimensionToPreSelectInProductCard : string;
  enableStockCheck : option bool;
  unitOfMeasureDisplayType : option string;
  hideRating : option bool
}.

Definition IGridSettings : Type := list (string * Z).

Record ICoreContext : Type := mkContext {
  apiSettings : ApiSettings;
  gridSettings : option IGridSettings;
  config : AppConfig
}.

Record IImageSettings : Type := mkImageSettings {
  quality : option Z;
  lazyload : option bool;
  cropFocalRegion : option bool
}.

Record ITelemetryContent : Type := mkTelemetryContent {
  pageName : string;
  moduleName : string
}.

Definition IPriceComponentResources : Type := list (string * string).

(** ** Rendered markup *)

Module ImageProps.
Record t : Type := mk {
  src : string;
  altText : string;
  fallBackSrc : option string;
  gridSettings : IGridSettings;
  imageSettings : IImageSettings;
  loadFailureBehavior : string
}.
End ImageProps.

Module PriceProps.
Record t : Type := mk {
  id : string;
  typeName : string;
  price : ProductPrice.t;
  savingsText : option string;
  freePriceText : option string;
  originalPriceText : option string;
  currentPriceText : option string;
  isPriceMinMaxEnabled : option bool;
  priceResources : option IPriceComponentResources
}.
End PriceProps.

Module RatingProps.
Record t : Type := mk {
  id : string;
  typeName : string;
  avgRating : float;
  ratingCount : option string;
  readOnly : bool;
  ariaLabel : string;
  ratingCountAriaLabel : string
}.
End RatingProps.

Module AddToCartProps.
Record t : Type := mk {
  addToCartText : string;
  outOfStockText : string;
  hasAvailableProducts : option bool;
  availableQuantity : Z;
  product : SimpleProduct.t;
  id : string;
  typeName : string
}.
End AddToCartProps.

(** A child that is [null], [undefined] or [false] renders nothing: [None]. *)
#[local] Unset Elimination Schemes.
Inductive JSX : Type :=
| Tag (name className : string) (children : list (option JSX))
| Text (content : string)
| Anchor (href ariaLabel className : string) (attributes : list (string * string))
    (children : list (option JSX))
| Image (props : ImageProps.t)
| PriceComponent (props : PriceProps.t)
| RatingComponent (props : RatingProps.t)
| ProductComponentSwatchComponent (key : option Z) (swatches : list SwatchItem.t)
| AddToCartComponent (props : AddToCartProps.t)
| Node (className : string) (children : list (option JSX))
| Fragment (children : list (option JSX))
| CloneElement (element : JSX) (selectedProductId : option Z)
    (selectedDimensions : list ProductDimension.t).
#[local] Set Elimination Schemes.

Record IProductComponentProps : Type := mkProps {
  data_product : option ProductSearchResult.t;
  context : ICoreContext;
  imageSettings : option IImageSettings;
  savingsText : option string;
  freePriceText : option string;
  originalPriceText : option string;
  currentPriceText : option string;
  ratingAriaLabel : option string;
  ratingCountAriaLabel : option string;
  allowBack : option bool;
  typeName : string;
  id : string;
  telemetryContent : option ITelemetryContent;
  quickViewButton : option JSX;
  inventoryLabel : option string;
  isPriceMinMaxEnabled : option bool;
  priceResources : option IPriceComponentResources;
  dimensionAvailabilities : option (list DimensionAvailability.t);
  swatchItemAriaLabel : option string
}.

(** ** Component state *)

(** [Dictionary<DimensionTypes, ISwatchItem>]: the entries in the order the
    keys were first set. *)
Module Dictionary.
Definition t : Type := list (string * SwatchItem.t).

Fixpoint setValue (key : string) (value : SwatchItem.t) (d : t) : t :=
  match d with
  | [] => [(key, value)]
  | (k, v) :: r => if String.eqb k key then (k, value) :: r else (k, v) :: setValue key value r
  end.

Definition getValues (d : t) : list SwatchItem.t := map snd d.
End Dictionary.

(** The three [useState] cells of the card. *)
Record State : Type := mkState {
  productPageUrl : string;
  productImageUrl : option string;
  selectedSwatchItems : Dictionary.t
}.

(** What a call of the swatch callback leaves behind: the state, and the
    error when one was thrown. *)
Inductive Outcome : Type :=
| Done (s : State)
| Raised (e : JSError) (s : State).

Definition state_of (o : Outcome) : State :=
  match o with
  | Done s => s
  | Raised _ s => s
  end.

Record SwatchGroup : Type := mkSwatchGroup {
  recordId : option Z;
  swatches : list SwatchItem.t
}.

(** ** The component *)

Section ProductCard.

Import Text Url JS.

(** Functions of the platform and of the commerce libraries that the card
    calls and this repository does not define. *)
Variable Payload : Type.
Variable getProductPageUrlSync : string -> Z -> string.
Variable generateImageUrl : option string -> ApiSettings -> option string.
Variable checkIfShouldDisplayAsSwatch : string -> ICoreContext -> bool.
Variable convertDimensionTypeToProductDimensionType : string -> Z.
Variable format : string -> list string -> string.
Variable toFixed : float -> Z -> string.
Variable numberToString : float -> string.
Variable stringToNumber : string -> float.
Variable formatCurrency : float -> string.
Variable getPayloadObject : string -> option ITelemetryContent -> string -> string -> Payload.
Variable getTelemetryAttributes : option ITelemetryContent -> Payload -> list (string * string).

(** Updates the product url link to product details page. *)
Definition updateProductUrl (productDetailsPageUrl : string) (coreContext : ICoreContext)
    (queryString : string) : Result string :=
  sourceUrl <- newURL productDetailsPageUrl (Some (baseUrl (apiSettings coreContext))) ;;
  let sourceUrl :=
    match search sourceUrl with
    | String _ _ => set_search sourceUrl (search sourceUrl ++ "&" ++ queryString)
    | EmptyString => set_search sourceUrl (search sourceUrl ++ queryString)
    end in
  updatedUrl <- newURL (href sourceUrl) None ;;
  Ok (pathname updatedUrl ++ search sourceUrl).

(** [attributeValue.KeyName?.toLocaleLowerCase() === DimensionTypes.color]. *)
Definition isColorAttribute (attributeValue : AttributeValue.t) : bool :=
  match AttributeValue.KeyName attributeValue with
  | Some k => String.eqb (toLocaleLowerCase k) DimensionTypes.color
  | None => false
  end.

(** [item.IsDefault === true]. *)
Definition isDefaultSwatch (item : AttributeSwatch.t) : bool :=
  match AttributeSwatch.IsDefault item with
  | Some true => true
  | _ => false
  end.

(** Gets the default color swatch selected, if any. *)
Definition getDefaultColorSwatchSelected (productData : option ProductSearchResult.t)
    : option AttributeSwatch.t :=
  match productData with
  | None => None
  | Some productData =>
      match ProductSearchResult.AttributeValues productData with
      | None => None
      | Some attributeValues =>
          let colorAttribute := find isColorAttribute attributeValues in
          match colorAttribute with
          | Some colorAttribute =>
              match AttributeValue.Swatches colorAttribute with
              | Some (first :: rest) =>
                  Some (nullish (find isDefaultSwatch (first :: rest)) first)
              | _ => None
              end
          | None => None
          end
      end
  end.

Definition PrimaryImageUrl_of (productData : option ProductSearchResult.t) : option string :=
  match productData with
  | Some p => ProductSearchResult.PrimaryImageUrl p
  | None => None
  end.

(** Gets the product image from the default swatch selected. *)
Definition getProductImageUrlFromDefaultColorSwatch (coreContext : ICoreContext)
    (productData : option ProductSearchResult.t) : option string :=
  if String.eqb (dimensionToPreSelectInProductCard (config coreContext)) DimensionTypes.none
  then PrimaryImageUrl_of productData
  else
    match getDefaultColorSwatchSelected productData with
    | Some defaultSwatch =>
        match AttributeSwatch.ProductImageUrls defaultSwatch with
        | Some (first :: _) => generateImageUrl (Some first) (apiSettings coreContext)
        | _ => PrimaryImageUrl_of productData
        end
    | None => PrimaryImageUrl_of productData
    end.

(** Gets the product page url from the default swatch selected. *)
Definition getProductPageUrlFromDefaultSwatch (coreContext : ICoreContext) (productUrl : string)
    (productData : option ProductSearchResult.t) : Result (option string) :=
  if String.eqb (dimensionToPreSelectInProductCard (config coreContext)) DimensionTypes.none
  then Ok (Some productUrl)
  else
    match getDefaultColorSwatchSelected productData with
    | Some defaultSwatch =>
        match AttributeSwatch.SwatchValue defaultSwatch with
        | Some (String c v) =>
            let queryString := "color=" ++ String c v in
            url <- updateProductUrl productUrl coreContext queryString ;;
            Ok (Some url)
        | _ => Ok (Some productUrl)
        end
    | None => Ok (Some productUrl)
    end.

(** The props of the card; the functions below close over them. *)
Variable props : IProductComponentProps.

(** The image the card starts with. *)
Definition productImageUrlFromSwatch : option string :=
  match getProductImageUrlFromDefaultColorSwatch (context props) (data_product props) with
  | Some url => Some url
  | None => PrimaryImageUrl_of (data_product props)
  end.

(** The values the three state cells are created with. *)
Definition initialState : Result State :=
  let product := data_product props in
  let productUrl :=
    match product with
    | Some p =>
        getProductPageUrlSync (nullish (ProductSearchResult.Name p) EmptyString)
          (ProductSearchResult.RecordId p)
    | None => EmptyString
    end in
  productUrl <-
    (if truthy_bool (allowBack props) && truthy_string (Some productUrl)
     then updateProductUrl productUrl (context props) "back=true"
     else Ok productUrl) ;;
  fromSwatch <- getProductPageUrlFromDefaultSwatch (context props) productUrl product ;;
  let productPageUrlFromSwatch := nullish fromSwatch productUrl in
  Ok (mkState productPageUrlFromSwatch productImageUrlFromSwatch []).

(** The page URL for a selected swatch whose value is not blank: the
    parameter of its dimension is deleted from the current page URL when
    the name of the dimension occurs in it, and the parameter is appended. *)
Definition productPageUrlWithSwatch (st : State) (coreContext : ICoreContext)
    (swatchItem : SwatchItem.t) : Result string :=
  let dimensionType := SwatchItem.dimensionType swatchItem in
  let queryString := dimensionType ++ "=" ++ SwatchItem.value swatchItem in
  if includes (productPageUrl st) dimensionType then
    newUrl <- newURL (productPageUrl st) (Some (baseUrl (apiSettings coreContext))) ;;
    let newUrl := searchParams_delete newUrl dimensionType in
    updateProductUrl (href newUrl) (context props) queryString
  else updateProductUrl (productPageUrl st) (context props) queryString.

(** Updates the product page and image url based on the swatch selected. *)
Definition updatePageAndImageUrl (st : State) (coreContext : ICoreContext)
    (swatchItem : SwatchItem.t) : Outcome :=
  let dimensionType := SwatchItem.dimensionType swatchItem in
  let st :=
    mkState (productPageUrl st) (productImageUrl st)
      (Dictionary.setValue dimensionType swatchItem (selectedSwatchItems st)) in
  if isNullOrWhitespace (Some (SwatchItem.value swatchItem)) then Done st
  else
    match productPageUrlWithSwatch st coreContext swatchItem with
    | Throw e => Raised e st
    | Ok url =>
        let st := mkState url (productImageUrl st) (selectedSwatchItems st) in
        if String.eqb dimensionType DimensionTypes.color then
          let swatchProductImageUrl :=
            match SwatchItem.productImageUrls swatchItem with
            | Some (first :: _) => Some first
            | _ => None
            end in
          let newImageUrl := generateImageUrl swatchProductImageUrl (apiSettings coreContext) in
          Done (mkState (productPageUrl st) newImageUrl (selectedSwatchItems st))
        else Done st
    end.

Definition mark_first_default (swatches : list SwatchItem.t) : list SwatchItem.t :=
  match swatches with
  | first :: rest => SwatchItem.with_isDefault first (Some true) :: rest
  | [] => []
  end.

(** The swatch item made of one swatch of an attribute. *)
Definition toSwatchItem (item : AttributeValue.t) (dimensionTypeValue : string)
    (swatchItem : AttributeSwatch.t) : SwatchItem.t :=
  let dimensionType := dimensionTypeValue in
  let swatchValue := nullish (AttributeSwatch.SwatchValue swatchItem) EmptyString in
  SwatchItem.mk
    (match AttributeValue.RecordId item with
     | Some r => Z_toString r
     | None => EmptyString
     end ++ "-" ++ dimensionTypeValue ++ "-" ++ swatchValue)
    swatchValue
    dimensionType
    (AttributeSwatch.SwatchColorHexCode swatchItem)
    (AttributeSwatch.SwatchImageUrl swatchItem)
    (AttributeSwatch.ProductImageUrls swatchItem)
    (AttributeSwatch.IsDefault swatchItem)
    (match swatchItemAriaLabel props with
     | Some (String c l) => format (String c l) [dimensionType]
     | _ => EmptyString
     end)
    (match enableStockCheck (config (context props)) with
     | Some true =>
         match dimensionAvailabilities props with
         | Some availabilities =>
             option_map DimensionAvailability.isDisabled
               (find (fun dimensionAvailability =>
                        String.eqb (DimensionAvailability.value dimensionAvailability)
                          swatchValue) availabilities)
         | None => None
         end
     | falsy => falsy
     end).

(** The swatch group of one attribute; [None] when the attribute is not
    displayed as swatches. *)
Definition swatchGroup (item : AttributeValue.t) : option SwatchGroup :=
  let dimensionTypeValue :=
    match AttributeValue.KeyName item with
    | Some k => toLocaleLowerCase k
    | None => EmptyString
    end in
  let shouldDisplayAsSwatch :=
    checkIfShouldDisplayAsSwatch dimensionTypeValue (context props) in
  if negb shouldDisplayAsSwatch then None
  else
    let dimensionToPreSelect := dimensionToPreSelectInProductCard (config (context props)) in
    let dimensionType := dimensionTypeValue in
    let swatches :=
      match AttributeValue.Swatches item with
      | Some l => map (toSwatchItem item dimensionTypeValue) l
      | None => []
      end in
    let swatches :=
      if negb (String.eqb dimensionToPreSelect DimensionTypes.none)
         && hasElements (Some swatches)
         && negb (some (fun swatch => truthy_bool (SwatchItem.isDefault swatch)) swatches)
         && String.eqb dimensionType DimensionTypes.color
      then mark_first_default swatches
      else swatches in
    Some (mkSwatchGroup (AttributeValue.RecordId item) swatches).

(** The swatch groups shown on the card, one per attribute displayed as
    swatches. *)
Definition swatchItems (product : ProductSearchResult.t) : list SwatchGroup :=
  validValues (option_map (map swatchGroup) (ProductSearchResult.AttributeValues product)).

Definition isUnitOfMeasureEnabled : bool :=
  match unitOfMeasureDisplayType (config (context props)) with
  | Some t => String.eqb t "buyboxAndBrowse"
  | None => false
  end.

(** Gets the react node for product unit of measure display. *)
Definition renderProductUnitOfMeasure (unitOfMeasure : option string) : option JSX :=
  match unitOfMeasure with
  | Some (String c r) =>
      Some (Tag "div" "msc-product__unit-of-measure"
              [Some (Tag "span" EmptyString [Some (Text (String c r))])])
  | _ => None
  end.

(** Gets the react node for product availability. *)
Definition renderProductAvailability (inventoryAvailabilityLabel : option string) : option JSX :=
  match inventoryAvailabilityLabel with
  | Some (String c r) =>
      Some (Tag "div" "msc-product__availability"
              [Some (Tag "span" EmptyString [Some (Text (String c r))])])
  | _ => None
  end.

(** Gets the react node for product dimension as swatch. *)
Definition renderProductDimensions (groups : list SwatchGroup) : option JSX :=
  if negb (hasElements (Some groups)) then None
  else
    Some (Tag "div" "msc-product__dimensions"
            (map (fun item =>
                    Some (ProductComponentSwatchComponent (recordId item) (swatches item)))
                 groups)).

(** Gets the quick view node; [quickview = None] stands for [null]. *)
Definition renderQuickView (st : State) (quickview : option JSX) (item : option Z) : option JSX :=
  match quickview with
  | None => None
  | Some element =>
      let selectedDimensions :=
        map (fun swatches =>
               ProductDimension.mk
                 (convertDimensionTypeToProductDimensionType (SwatchItem.dimensionType swatches))
                 0%Z
                 (SwatchItem.value swatches))
            (Dictionary.getValues (selectedSwatchItems st)) in
      Some (CloneElement element item selectedDimensions)
  end.

(** Gets the aria label for rating. *)
Definition getRatingAriaLabel (rating : option float) (ratingAriaLabelText : option string)
    : string :=
  match rating, ratingAriaLabelText with
  | Some r, Some text =>
      if truthy_float r && truthy_string (Some text) then
        let roundedRating := toFixed r 2 in
        format text [roundedRating; "5"]
      else EmptyString
  | _, _ => EmptyString
  end.

(** Gets the aria label for review count. *)
Definition getReviewAriaLabel (reviewCount : option float)
    (ratingCountAriaLabelText : option string) : string :=
  match reviewCount, ratingCountAriaLabelText with
  | Some n, Some text =>
      if truthy_float n && truthy_string (Some text) then format text [numberToString n]
      else EmptyString
  | _, _ => EmptyString
  end.

(** Gets the aria label string for the product: name, price and rating. *)
Definition renderLabel (name price : option string) (rating : option float)
    (ratingAriaLabelText : option string) (reviewCount : option float)
    (ratingCountAriaLabelText : option string) : string :=
  let reviewCountArialableText :=
    getReviewAriaLabel reviewCount (Some (nullish ratingCountAriaLabelText EmptyString)) in
  nullish name EmptyString ++ " " ++ nullish price EmptyString ++ " "
    ++ getRatingAriaLabel rating ratingAriaLabelText
    ++ (match reviewCountArialableText with
        | String _ _ => " " ++ reviewCountArialableText
        | EmptyString => EmptyString
        end).

(** Gets the react component for the product image.  The image settings
    handed in are the ones the component is created with, the crop flag
    set on them. *)
Definition renderProductPlacementImage (productCardimageSettings : option IImageSettings)
    (grid : option IGridSettings) (imageUrl fallbackImageUrl altText : option string)
    : option JSX :=
  match imageUrl, grid, productCardimageSettings with
  | Some (String c r), Some grid, Some settings =>
      Some (Image
              (ImageProps.mk (String c r)
                 (match altText with
                  | Some (String a t) => String a t
                  | _ => EmptyString
                  end)
                 fallbackImageUrl grid
                 (mkImageSettings (quality settings) (lazyload settings) (Some true))
                 "empty"))
  | _, _, _ => None
  end.

(** Gets the react component for the product price. *)
Definition renderPrice (coreContext : ICoreContext) (moduleTypeName moduleId : string)
    (basePrice adjustedPrice maxVariantPrice minVariantPrice : option float)
    (savingsPriceResourceText freePriceResourceText originalPriceResourceText
       currentPriceResourceText : option string) : option JSX :=
  let price :=
    ProductPrice.mk basePrice adjustedPrice adjustedPrice
      (if truthy_number maxVariantPrice then maxVariantPrice else adjustedPrice)
      (if truthy_number minVariantPrice then minVariantPrice else adjustedPrice) in
  Some (PriceComponent
          (PriceProps.mk moduleId moduleTypeName price savingsPriceResourceText
             freePriceResourceText originalPriceResourceText currentPriceResourceText
             (isPriceMinMaxEnabled props) (priceResources props))).

(** Gets the react node for product description. *)
Definition renderDescription (description : option string) : option JSX :=
  Some (Tag "p" "msc-product__text" [option_map Text description]).

(** Gets the react component for product rating. *)
Definition renderRating (coreContext : ICoreContext) (moduleTypeName moduleId : string)
    (avgRating totalRatings : option float) (ariaLabel : option string) : option JSX :=
  match avgRating with
  | None => None
  | Some rating =>
      if negb (truthy_float rating) then None
      else
        let numberRatings :=
          match totalRatings with
          | Some n =>
              match numberToString n with
              | String c r => Some (String c r)
              | EmptyString => None
              end
          | None => None
          end in
        let ratingAriaLabelText := getRatingAriaLabel avgRating ariaLabel in
        let ratingCountAriaLabelText :=
          getReviewAriaLabel
            (Some (match numberRatings with
                   | Some s => stringToNumber s
                   | None => nan
                   end))
            (ratingCountAriaLabel props) in
        Some (RatingComponent
                (RatingProps.mk moduleId moduleTypeName rating numberRatings true
                   ratingAriaLabelText ratingCountAriaLabelText))
  end.

(** The entry of the availability list the add-to-cart button goes by. *)
Definition productDimensionAvailabilities (product : ProductSearchResult.t)
    : option DimensionAvailability.t :=
  match dimensionAvailabilities props with
  | None => None
  | Some das =>
      find (fun dimensionAvailability =>
              hasElements (dimensionAvailabilities props)
              && match DimensionAvailability.masterProductId dimensionAvailability with
                 | Some m =>
                     negb (Z.eqb m 0)
                     && match ProductSearchResult.MasterProductId product with
                        | Some pm => Z.eqb m pm
                        | None => false
                        end
                 | None => false
                 end) das
  end.

Definition _renderCartButton (product : ProductSearchResult.t) : JSX :=
  let product1 :=
    SimpleProduct.mk
      (ProductSearchResult.RecordId product)
      (ProductSearchResult.ItemId product)
      (ProductSearchResult.Name product)
      (ProductSearchResult.Description product)
      (ProductSearchResult.RecordId product)
      (ProductSearchResult.DefaultUnitOfMeasure product)
      (ProductSearchResult.BasePrice product)
      (ProductSearchResult.Price product)
      (ProductSearchResult.Price product)
      (ProductSearchResult.MasterProductId product)
      (ProductSearchResult.PrimaryImageUrl product)
      (ProductSearchResult.ExtensionProperties product) in
  Node "ms-search-result-container__add-to-cart-container"
    [Some (AddToCartComponent
             (AddToCartProps.mk "Add to cart" "Out of stock"
                (option_map DimensionAvailability.isDisabled
                   (productDimensionAvailabilities product))
                1%Z product1 (id props) (typeName props)))].

(** The card.  [hooks] holds the state cells of an instance that is already
    mounted; on the first render they are created from [initialState].  The
    result is the state the render ran with and the markup, [None] for a
    [null] render. *)
Definition ProductCard (hooks : option State) : Result (State * option JSX) :=
  init <- initialState ;;
  let st := match hooks with Some s => s | None => init end in
  match data_product props with
  | None => Ok (st, None)
  | Some product =>
      let groups := swatchItems product in
      let payLoad :=
        getPayloadObject "click" (telemetryContent props) EmptyString
          (Z_toString (ProductSearchResult.RecordId product)) in
      let attribute := getTelemetryAttributes (telemetryContent props) payLoad in
      Ok (st,
          Some (Fragment
            [ Some (Anchor (productPageUrl st)
                      (renderLabel (ProductSearchResult.Name product)
                         (Some (formatCurrency (ProductSearchResult.Price product)))
                         (ProductSearchResult.AverageRating product)
                         (ratingAriaLabel props)
                         (ProductSearchResult.TotalRatings product)
                         (ratingCountAriaLabel props))
                      "msc-product" attribute
                      [ Some (Tag "div" "msc-product__image"
                                [renderProductPlacementImage (imageSettings props)
                                   (gridSettings (context props))
                                   (productImageUrl st)
                                   (ProductSearchResult.PrimaryImageUrl product)
                                   (ProductSearchResult.Name product)]);
                        Some (Tag "h4" "msc-product__title"
                                [option_map Text (ProductSearchResult.Name product)]) ]);
              renderProductDimensions groups;
              Some (Tag "div" "msc-product__details"
                      [ renderPrice (context props) (typeName props) (id props)
                          (ProductSearchResult.BasePrice product)
                          (Some (ProductSearchResult.Price product))
                          (ProductSearchResult.MaxVariantPrice product)
                          (ProductSearchResult.MinVariantPrice product)
                          (savingsText props) (freePriceText props)
                          (originalPriceText props) (currentPriceText props);
                        (if isUnitOfMeasureEnabled
                         then renderProductUnitOfMeasure
                                (ProductSearchResult.DefaultUnitOfMeasure product)
                         else None);
                        renderDescription (ProductSearchResult.Description product);
                        (if negb (truthy_bool (hideRating (config (context props))))
                         then renderRating (context props) (typeName props) (id props)
                                (ProductSearchResult.AverageRating product)
                                (ProductSearchResult.TotalRatings product)
                                (ratingAriaLabel props)
                         else None);
                        renderProductAvailability (inventoryLabel props) ]);
              Some (_renderCartButton product);
              (match quickViewButton props with
               | Some q => renderQuickView st (Some q)
                             (Some (ProductSearchResult.RecordId product))
               | None => None
               end) ]))
  end.

End ProductCard.

(** The values of one query parameter of a page URL, as
    [searchParams.getAll] gives them once the URL is read against the base. *)
Definition urlParameter (base url name : string) : Result (list string) :=
  u <- Url.newURL url (Some base) ;;
  Ok (Url.getAll name (Url.searchParams u)).

(** ** Predicates used in the statements *)

Module Wf.
Import Text Percent Url.

(** The escapes written for the bytes of [f] are themselves outside [f]. *)
Definition escapes_outside (f : ascii -> bool) : Prop :=
  forall c, f c = true -> all_chars (fun d => negb (f d)) (encode_byte c EmptyString) = true.

(** The bytes the urlencoded serializer writes for a name or a value. *)
Definition form_char (c : ascii) : bool :=
  negb (urlencoded_set c) || Ascii.eqb c "+" || Ascii.eqb c "%".

(** The bytes of a serialized list. *)
Definition form_text_char (c : ascii) : bool :=
  form_char c || Ascii.eqb c "=" || Ascii.eqb c "&".

Definition outside (f : ascii -> bool) (s : string) : bool :=
  all_chars (fun c => negb (f c)) s.

(** The bytes that end or cannot stand in the path of a reference. *)
Definition delimiter (c : ascii) : bool :=
  Ascii.eqb c "?" || Ascii.eqb c "#" || Ascii.eqb c "\" || is_tab_or_newline c.

Definition separator (c : ascii) : bool := Ascii.eqb c "/" || delimiter c.

(** The query and the fragment as the serializer writes them. *)
Definition query_part (q : option string) : string :=
  match q with Some x => String "?" x | None => EmptyString end.
Definition fragment_part (f : option string) : string :=
  match f with Some y => String "#" y | None => EmptyString end.

(** What every parsed URL satisfies. *)
Record wf_url (u : URL) : Prop := mk_wf {
  wf_host_nonempty : host u <> EmptyString;
  wf_host : outside separator (host u) = true;
  wf_path_slash : exists t, pathname u = String "/" t;
  wf_path : outside path_set (pathname u) = true;
  wf_path_backslash : mem "\" (pathname u) = false;
  wf_query : match query u with
             | Some q => outside special_query_set q = true
             | None => True
             end;
  wf_fragment : match fragment u with
                | Some f => outside fragment_set f = true
                | None => True
                end
}.

(** A swatch value that the query string carries unchanged: no [&], [+],
    [%], tab or newline. *)
Definition value_char (c : ascii) : bool :=
  negb (Ascii.eqb c "&" || Ascii.eqb c "+" || Ascii.eqb c "%" || is_tab_or_newline c).
Definition plain_value (s : string) : bool := all_chars value_char s.

(** A parameter name that the query string carries unchanged: as a value,
    and without [=] and [?]. *)
Definition name_char (c : ascii) : bool :=
  value_char c && negb (Ascii.eqb c "=" || Ascii.eqb c "?").
Definition plain_name (s : string) : bool := all_chars name_char s.

(** What [updateProductUrl] adds to the query of the URL for a query
    string: the text as the query stores it, one leading [?] dropped when
    the URL has no query to join it onto. *)
Definition appended_query (u : URL) (queryString : string) : string :=
  match search u with
  | EmptyString => query_text queryString
  | String _ _ => stored_query queryString
  end.

End Wf.

(** ** The texts the URL model covers

    [Url.newURL] is written for [http] and [https] URLs with plain hosts
    and for references to them.  [supported input base] delimits the texts
    on which it gives what the URL class gives: each of the two texts is
    either written with [http://] or [https://] or has no scheme at all,
    and every URL read from them has a host made of lower-case ASCII
    letters, digits, hyphens and dots whose last label begins with a letter
    and none of whose labels begins with [xn--] (so no credentials, port,
    address literal or internationalised name), and a path without the
    segments [.] and [..] or their escaped spellings.  Outside of it the
    functions of [Url] are not meant to say what the URL class does. *)

Module Fragment.
Import Text Percent Url.

(** A letter of a scheme, and a character behind it. *)
Definition is_letter (c : ascii) : bool := is_upper c || is_lower c.
Definition scheme_char (c : ascii) : bool := is_alnum c || one_of "+-." c.

(** The text begins with a scheme: a letter, then letters, digits, [+], [-]
    and [.], then a colon. *)
Fixpoint scheme_rest (s : string) : bool :=
  match s with
  | EmptyString => false
  | String c r => Ascii.eqb c ":" || (scheme_char c && scheme_rest r)
  end.

Definition has_scheme (s : string) : bool :=
  match s with
  | String c r => is_letter c && scheme_rest r
  | EmptyString => false
  end.

(** A path segment that the URL parser takes out: [.], [..] and their
    escaped spellings. *)
Definition dot_segment (s : string) : bool :=
  let l := toLocaleLowerCase s in
  String.eqb l "." || String.eqb l ".." || String.eqb l "%2e"
  || String.eqb l ".%2e" || String.eqb l "%2e." || String.eqb l "%2e%2e".

Definition no_dot_segments (path : string) : bool :=
  forallb (fun s => negb (dot_segment s)) (split_on "/" path).

(** A host that the URL parser keeps as it is written. *)
Definition host_char (c : ascii) : bool := is_lower c || is_digit c || one_of "-." c.

Definition last_label (h : string) : string := last (split_on "." h) EmptyString.

Definition plain_host (h : string) : bool :=
  all_chars host_char h
  && match last_label h with
     | String c _ => is_lower c
     | EmptyString => false
     end
  && negb (startsWith h "xn--") && negb (includes h ".xn--").

Definition simple (u : URL) : bool := plain_host (host u) && no_dot_segments (pathname u).

(** The text is written with [http://] or [https://], or has no scheme. *)
Definition recognised (s : string) : bool :=
  let c := clean_input s in
  match take_scheme (map_chars backslash_to_slash (ref_path (split_reference c))) with
  | Some _ => true
  | None => negb (has_scheme c)
  end.

(** The text, and the base when one is given, are read as the URL class
    reads them. *)
Definition supported (input : string) (base : option string) : bool :=
  recognised input
  && match base with
     | Some b =>
         recognised b
         && match parse_reference b with
            | Absolute bu => simple bu
            | _ => true
            end
     | None => true
     end
  && match newURL input base with
     | Ok u => simple u
     | Throw _ => true
     end.

(** A key name that lower-casing treats as the text model does: made of
    ASCII bytes, and without the capital [I], which a Turkic locale
    lower-cases to a dotless letter. *)
Definition plain_key (k : string) : bool :=
  all_chars (fun c => (N_of_ascii c <? 128)%N && negb (Ascii.eqb c "I")) k.

(** A record identifier that a number holds exactly and prints in decimal
    digits. *)
Definition safe_integer (z : Z) : bool := (Z.abs z <=? 9007199254740991)%Z.

End Fragment.

(** ** Selections in a row *)

(** The state after the swatches of [selections] were selected one after
    the other, each call of the callback starting from the state the call
    before it left. *)
Definition selectSwatches (generateImageUrl : option string -> ApiSettings -> option string)
    (props : IProductComponentProps) (coreContext : ICoreContext) (st : State)
    (selections : list SwatchItem.t) : State :=
  fold_left
    (fun st swatchItem =>
       state_of (updatePageAndImageUrl generateImageUrl props st coreContext swatchItem))
    selections st.

(** A swatch whose selection the page URL can follow: its dimension name
    is made of ASCII letters and digits, its value is not blank and is
    carried unchanged by a query string, and a parameter named like the
    dimension, if the page URL [url] with the parameters [params] has one,
    is written with the name spelled out. *)
Definition followed (url : string) (params : list (string * string))
    (swatchItem : SwatchItem.t) : Prop :=
  Text.all_chars Text.is_alnum (SwatchItem.dimensionType swatchItem) = true /\
  JS.isNullOrWhitespace (Some (SwatchItem.value swatchItem)) = false /\
  Wf.plain_value (SwatchItem.value swatchItem) = true /\
  (Text.includes url (SwatchItem.dimensionType swatchItem) = true \/
   Url.getAll (SwatchItem.dimensionType swatchItem) params = []).

(** What holds of the state of the card between two selections, [u0] and
    [url0] being the page URL the selections started from and [seen] the
    dimension names selected so far.  The page URL is one that the URL model
    covers. *)
Definition agrees (props : IProductComponentProps) (u0 : Url.URL) (url0 : string)
    (seen : list string) (st : State) : Prop :=
  exists u,
    Url.newURL (productPageUrl st) (Some (baseUrl (apiSettings (context props)))) = Ok u /\
    Fragment.supported (productPageUrl st) (Some (baseUrl (apiSettings (context props))))
    = true /\
    productPageUrl st = Url.pathname u ++ Url.search u /\
    Text.startsWith (Url.pathname u) "//" = false /\
    NoDup (map fst (selectedSwatchItems st)) /\
    (forall key swatch,
       In (key, swatch) (selectedSwatchItems st) ->
       Url.getAll key (Url.searchParams u) = [SwatchItem.value swatch]) /\
    (forall name, ~ In name seen ->
       Url.getAll name (Url.searchParams u) = Url.getAll name (Url.searchParams u0)) /\
    (forall name,
       Text.all_chars Text.is_alnum name = true ->
       Text.includes url0 name = true \/ Url.getAll name (Url.searchParams u0) = [] ->
       Text.includes (productPageUrl st) name = true \/
       Url.getAll name (Url.searchParams u) = []).

(** ** Sample data for the examples *)

Module Sample.

Definition api : ApiSettings := mkApiSettings "https://shop.example/" "https://images.example/".

(** A context that pre-selects the color dimension. *)
Definition coreContext : ICoreContext :=
  mkContext api None (mkAppConfig DimensionTypes.color None None None).

Definition props (product : option ProductSearchResult.t)
    (availabilities : option (list DimensionAvailability.t)) : IProductComponentProps :=
  mkProps product coreContext None None None None None None None None
    "product" "card-1" None None None None None availabilities None.

(** An image-URL generator for the examples: the path is put behind the
    base image URL; nothing for an absent or empty path. *)
Definition generateImageUrl (imageUrl : option string) (settings : ApiSettings) : option string :=
  match imageUrl with
  | Some (String c r) => Some (baseImageUrl settings ++ String c r)
  | _ => None
  end.

(** Stand-ins for the other platform functions. *)
Definition getProductPageUrlSync (name : string) (recordId : Z) : string :=
  "/" ++ name ++ "/" ++ Text.Z_toString recordId ++ ".p".
Definition checkIfShouldDisplayAsSwatch (dimensionType : string) (c : ICoreContext) : bool :=
  true.
Definition convertDimensionTypeToProductDimensionType (dimensionType : string) : Z := 1%Z.
Definition format (template : string) (parameters : list string) : string :=
  String.concat " " (template :: parameters).
Definition toFixed (x : float) (digits : Z) : string := "4.50".
Definition numberToString (x : float) : string := "12".
Definition stringToNumber (s : string) : float := 12%float.
Definition formatCurrency (x : float) : string := "$20.00".
Definition getPayloadObject (eventType : string) (content : option ITelemetryContent)
    (etext recid : string) : string := recid.
Definition getTelemetryAttributes (content : option ITelemetryContent) (payLoad : string)
    : list (string * string) := [("data-m", payLoad)].

Definition swatch (dimensionType value : string) (images : option (list string)) : SwatchItem.t :=
  SwatchItem.mk ("1-" ++ dimensionType ++ "-" ++ value) value dimensionType None None images
    None EmptyString None.

Definition state (url : string) : State := mkState url (Some "/images/shirt.png") [].

(** A product with one color attribute whose only swatch is marked default
    and carries no product images. *)
Definition shirt : ProductSearchResult.t :=
  ProductSearchResult.mk 123 (Some "0042") (Some "Shirt") None None 20%float None None
    (Some "/images/shirt.png") None None None (Some 7%Z)
    (Some [AttributeValue.mk (Some 5%Z) (Some "Color")
             (Some [AttributeSwatch.mk (Some "Red") (Some "#ff0000") None None (Some true)])])
    None.

End Sample.

(** * Properties *)

(** Case analysis on the 256 bytes. *)
Ltac by_byte c :=
  destruct c as [[] [] [] [] [] [] [] []];
  try reflexivity; try discriminate.

(** ** Text *)

Module TextFacts.
Import Text.

Lemma append_nil_r (s : string) : s ++ EmptyString = s.
Proof. induction s as [|c r IH]; simpl; [reflexivity | now rewrite IH]. Qed.

Lemma append_assoc (a b c : string) : (a ++ b) ++ c = a ++ (b ++ c).
Proof. induction a as [|x a IH]; simpl; [reflexivity | now rewrite IH]. Qed.

Lemma all_chars_app (p : ascii -> bool) (a b : string) :
  all_chars p (a ++ b) = all_chars p a && all_chars p b.
Proof.
  induction a as [|c a IH]; simpl; [reflexivity|].
  now rewrite IH, andb_assoc.
Qed.

Lemma all_chars_impl (p q : ascii -> bool) (s : string) :
  (forall c, p c = true -> q c = true) -> all_chars p s = true -> all_chars q s = true.
Proof.
  intros Hpq. induction s as [|c r IH]; simpl; [reflexivity|].
  intros H. apply andb_true_iff in H as [Hc Hr].
  now rewrite (Hpq _ Hc), IH.
Qed.

Lemma mem_false_all (c : ascii) (s : string) :
  mem c s = false <-> all_chars (fun d => negb (Ascii.eqb d c)) s = true.
Proof.
  induction s as [|d r IH]; simpl; [tauto|].
  rewrite orb_false_iff, andb_true_iff, negb_true_iff. tauto.
Qed.

Lemma mem_app (c : ascii) (a b : string) : mem c (a ++ b) = mem c a || mem c b.
Proof.
  induction a as [|d a IH]; simpl; [reflexivity|].
  now rewrite IH, orb_assoc.
Qed.

Lemma all_chars_not_mem (p : ascii -> bool) (c : ascii) (s : string) :
  p c = false -> all_chars p s = true -> mem c s = false.
Proof.
  intros Hc. induction s as [|d r IH]; simpl; [reflexivity|].
  intros H. apply andb_true_iff in H as [Hd Hr].
  rewrite (IH Hr), orb_false_r.
  destruct (Ascii.eqb_spec d c); [congruence | reflexivity].
Qed.

Lemma remove_chars_id (p : ascii -> bool) (s : string) :
  all_chars (fun c => negb (p c)) s = true -> remove_chars p s = s.
Proof.
  induction s as [|c r IH]; simpl; [reflexivity|].
  intros H. apply andb_true_iff in H as [Hc Hr].
  apply negb_true_iff in Hc. now rewrite Hc, IH.
Qed.

Lemma remove_chars_app (p : ascii -> bool) (a b : string) :
  remove_chars p (a ++ b) = remove_chars p a ++ remove_chars p b.
Proof.
  induction a as [|c a IH]; simpl; [reflexivity|].
  destruct (p c); simpl; now rewrite IH.
Qed.

Lemma remove_chars_clean (p : ascii -> bool) (s : string) :
  all_chars (fun c => negb (p c)) (remove_chars p s) = true.
Proof.
  induction s as [|c r IH]; simpl; [reflexivity|].
  destruct (p c) eqn:E; simpl; [assumption|]. now rewrite E, IH.
Qed.

Lemma remove_chars_keeps (p q : ascii -> bool) (s : string) :
  all_chars q s = true -> all_chars q (remove_chars p s) = true.
Proof.
  induction s as [|c r IH]; simpl; [reflexivity|].
  intros H. apply andb_true_iff in H as [Hc Hr].
  destruct (p c); simpl; [auto|]. now rewrite Hc, IH.
Qed.

Lemma trim_start_keeps (p q : ascii -> bool) (s : string) :
  all_chars q s = true -> all_chars q (trim_start p s) = true.
Proof.
  induction s as [|c r IH]; simpl; [reflexivity|].
  intros H. destruct (p c); [|exact H].
  apply andb_true_iff in H as [_ Hr]. auto.
Qed.

Lemma trim_end_keeps (p q : ascii -> bool) (s : string) :
  all_chars q s = true -> all_chars q (trim_end p s) = true.
Proof.
  induction s as [|c r IH]; simpl; [reflexivity|].
  intros H. apply andb_true_iff in H as [Hc Hr].
  specialize (IH Hr).
  destruct (trim_end p r) as [|d r'].
  - destruct (p c); simpl; [reflexivity | now rewrite Hc].
  - change (q c && all_chars q (String d r') = true). now rewrite Hc, IH.
Qed.

(** A text that ends outside [p] is not shortened, whatever stands before. *)
Lemma trim_end_app (p : ascii -> bool) (a b : string) :
  trim_end p b <> EmptyString -> trim_end p (a ++ b) = a ++ trim_end p b.
Proof.
  intros Hb. induction a as [|c a IH]; simpl; [reflexivity|].
  rewrite IH.
  destruct (a ++ trim_end p b) as [|d r] eqn:E; [|reflexivity].
  destruct a; simpl in E; [contradiction | discriminate].
Qed.

Lemma trim_end_id (p : ascii -> bool) (s : string) :
  all_chars (fun c => negb (p c)) s = true -> trim_end p s = s.
Proof.
  induction s as [|c r IH]; simpl; [reflexivity|].
  intros H. apply andb_true_iff in H as [Hc Hr].
  apply negb_true_iff in Hc. rewrite (IH Hr), Hc.
  destruct r; reflexivity.
Qed.

Lemma trim_start_id (p : ascii -> bool) (s : string) :
  all_chars (fun c => negb (p c)) s = true -> trim_start p s = s.
Proof.
  destruct s as [|c r]; simpl; [reflexivity|].
  intros H. apply andb_true_iff in H as [Hc _].
  apply negb_true_iff in Hc. now rewrite Hc.
Qed.

Lemma split_first_none (sep : ascii) (s : string) :
  mem sep s = false -> split_first sep s = (s, None).
Proof.
  induction s as [|c r IH]; simpl; [reflexivity|].
  intros H. apply orb_false_iff in H as [Hc Hr].
  now rewrite Hc, (IH Hr).
Qed.

Lemma split_first_app (sep : ascii) (a b : string) :
  mem sep a = false -> split_first sep (a ++ String sep b) = (a, Some b).
Proof.
  induction a as [|c a IH]; simpl.
  - intros _. now rewrite Ascii.eqb_refl.
  - intros H. apply orb_false_iff in H as [Hc Ha].
    now rewrite Hc, (IH Ha).
Qed.

(** What [split_first] returns, put back together. *)
Lemma split_first_spec (sep : ascii) (s : string) :
  mem sep (fst (split_first sep s)) = false /\
  s = fst (split_first sep s)
        ++ match snd (split_first sep s) with
           | Some b => String sep b
           | None => EmptyString
           end.
Proof.
  induction s as [|c r IH]; simpl; [split; reflexivity|].
  destruct (Ascii.eqb_spec c sep) as [->|Hne]; simpl; [split; reflexivity|].
  destruct (split_first sep r) as [a b]; simpl in *.
  destruct IH as [Hm Hr]. split.
  - rewrite Hm, orb_false_r. now apply Ascii.eqb_neq.
  - now rewrite <- Hr.
Qed.

Lemma split_on_none (sep : ascii) (s : string) :
  mem sep s = false -> split_on sep s = [s].
Proof.
  induction s as [|c r IH]; simpl; [reflexivity|].
  intros H. apply orb_false_iff in H as [Hc Hr].
  now rewrite Hc, (IH Hr).
Qed.

Lemma split_on_app (sep : ascii) (a b : string) :
  mem sep a = false -> split_on sep (a ++ String sep b) = a :: split_on sep b.
Proof.
  induction a as [|c a IH]; simpl.
  - intros _. now rewrite Ascii.eqb_refl.
  - intros H. apply orb_false_iff in H as [Hc Ha].
    now rewrite Hc, (IH Ha).
Qed.

Lemma split_on_nonempty (sep : ascii) (s : string) : split_on sep s <> [].
Proof.
  destruct s as [|c r]; simpl; [discriminate|].
  destruct (Ascii.eqb c sep); [discriminate|].
  destruct (split_on sep r); discriminate.
Qed.

Lemma split_on_app_gen (sep : ascii) (a b : string) :
  split_on sep (a ++ String sep b) = (split_on sep a ++ split_on sep b)%list.
Proof.
  induction a as [|c a IH]; simpl.
  - now rewrite Ascii.eqb_refl.
  - destruct (Ascii.eqb c sep); simpl; [now rewrite IH|].
    rewrite IH.
    destruct (split_on sep a) eqn:E; [now apply split_on_nonempty in E | reflexivity].
Qed.

Lemma split_on_join (sep : ascii) (l : list string) :
  l <> [] -> Forall (fun s => mem sep s = false) l ->
  split_on sep (join (String sep EmptyString) l) = l.
Proof.
  induction l as [|x r IH]; [congruence|].
  intros _ H. inversion H as [|? ? Hx Hr]; subst.
  destruct r as [|y r'].
  - simpl. now apply split_on_none.
  - change (join (String sep EmptyString) (x :: y :: r'))
      with (x ++ String sep (join (String sep EmptyString) (y :: r'))).
    rewrite split_on_app by assumption.
    f_equal. apply IH; [discriminate | assumption].
Qed.

Lemma startsWith_app (p s : string) : startsWith (p ++ s) p = true.
Proof. induction p as [|c p IH]; simpl; [reflexivity|]. now rewrite Ascii.eqb_refl. Qed.

End TextFacts.

(** ** Percent encoding *)

Module PercentFacts.
Import Text Percent Wf TextFacts.

Lemma encode_byte_app (c : ascii) (r : string) :
  encode_byte c r = encode_byte c EmptyString ++ r.
Proof. reflexivity. Qed.

Lemma encode_app (f : ascii -> bool) (a b : string) :
  encode f (a ++ b) = encode f a ++ encode f b.
Proof.
  induction a as [|c a IH]; simpl; [reflexivity|].
  rewrite IH. destruct (f c); reflexivity.
Qed.

Lemma encode_id (f : ascii -> bool) (s : string) :
  all_chars (fun c => negb (f c)) s = true -> encode f s = s.
Proof.
  induction s as [|c r IH]; simpl; [reflexivity|].
  intros H. apply andb_true_iff in H as [Hc Hr].
  apply negb_true_iff in Hc. now rewrite Hc, IH.
Qed.

Lemma encode_clean (f : ascii -> bool) (s : string) :
  escapes_outside f -> all_chars (fun c => negb (f c)) (encode f s) = true.
Proof.
  intros Hf. induction s as [|c r IH]; simpl; [reflexivity|].
  destruct (f c) eqn:E.
  - rewrite encode_byte_app, all_chars_app, IH, andb_true_r. now apply Hf.
  - simpl. now rewrite E, IH.
Qed.

Lemma encode_idempotent (f : ascii -> bool) (s : string) :
  escapes_outside f -> encode f (encode f s) = encode f s.
Proof. intros Hf. apply encode_id. now apply encode_clean. Qed.

Lemma special_query_escapes : escapes_outside special_query_set.
Proof. intros c. by_byte c. Qed.

Lemma path_escapes : escapes_outside path_set.
Proof. intros c. by_byte c. Qed.

Lemma fragment_escapes : escapes_outside fragment_set.
Proof. intros c. by_byte c. Qed.

(** What the escapes do not contain stays out of an encoded text. *)
Lemma encode_keeps (q f : ascii -> bool) (s : string) :
  (forall c, all_chars q (encode_byte c EmptyString) = true) ->
  all_chars q s = true -> all_chars q (encode f s) = true.
Proof.
  intros Hq. induction s as [|c r IH]; simpl; [reflexivity|].
  intros H. apply andb_true_iff in H as [Hc Hr].
  destruct (f c).
  - now rewrite encode_byte_app, all_chars_app, Hq, IH.
  - simpl. now rewrite Hc, IH.
Qed.

Lemma escape_not (x : ascii) :
  In x ["&"; "="; "+"; "\"]%char ->
  forall c, all_chars (fun d => negb (Ascii.eqb d x)) (encode_byte c EmptyString) = true.
Proof.
  intros Hx c. simpl in Hx. destruct Hx as [<-|[<-|[<-|[<-|[]]]]]; by_byte c.
Qed.

Lemma encode_no (x : ascii) (f : ascii -> bool) (s : string) :
  In x ["&"; "="; "+"; "\"]%char -> mem x s = false -> mem x (encode f s) = false.
Proof.
  intros Hx Hs. apply mem_false_all. apply encode_keeps; [now apply escape_not|].
  now apply mem_false_all.
Qed.

Lemma decode_other (c : ascii) (r : string) :
  Ascii.eqb c "%" = false -> decode (String c r) = String c (decode r).
Proof. intros H. simpl. now rewrite H. Qed.

Lemma decode_encode_byte (c : ascii) (r : string) :
  decode (encode_byte c r) = String c (decode r).
Proof. by_byte c. Qed.

(** Decoding undoes encoding on a text whose percent signs are all encoded. *)
Lemma decode_encode (f : ascii -> bool) (s : string) :
  all_chars (fun c => f c || negb (Ascii.eqb c "%")) s = true ->
  decode (encode f s) = s.
Proof.
  induction s as [|c r IH]; simpl encode; [reflexivity|].
  intros H. simpl in H. apply andb_true_iff in H as [Hc Hr].
  destruct (f c) eqn:E.
  - now rewrite decode_encode_byte, IH.
  - simpl in Hc. apply negb_true_iff in Hc.
    now rewrite decode_other, IH.
Qed.

End PercentFacts.

(** ** The urlencoded format *)

Module FormFacts.
Import Text Percent FormUrlEncoded Wf TextFacts PercentFacts.

Lemma plus_to_space_encode_byte (c : ascii) (r : string) :
  map_chars plus_to_space (encode_byte c r) = encode_byte c (map_chars plus_to_space r).
Proof. by_byte c. Qed.

Lemma unreserved_plain (c : ascii) :
  urlencoded_set c = false ->
  Ascii.eqb c "+" = false /\ Ascii.eqb c "%" = false.
Proof. by_byte c; intros _; split; reflexivity. Qed.

Lemma decode_encode_component (s : string) :
  decode_component (encode_component s) = s.
Proof.
  unfold decode_component.
  induction s as [|c r IH]; [reflexivity|].
  simpl encode_component.
  destruct (Ascii.eqb_spec c " ") as [->|Hsp].
  - simpl map_chars. change (plus_to_space "+") with " "%char.
    rewrite decode_other by reflexivity. now rewrite IH.
  - destruct (urlencoded_set c) eqn:E.
    + now rewrite plus_to_space_encode_byte, decode_encode_byte, IH.
    + destruct (unreserved_plain c E) as [Hplus Hpct].
      simpl map_chars. unfold plus_to_space at 1. rewrite Hplus.
      now rewrite decode_other, IH.
Qed.

Lemma encode_component_chars (s : string) :
  all_chars form_char (encode_component s) = true.
Proof.
  induction s as [|c r IH]; [reflexivity|].
  simpl encode_component.
  destruct (Ascii.eqb c " "); [simpl; exact IH|].
  destruct (urlencoded_set c) eqn:E.
  - rewrite encode_byte_app, all_chars_app, IH, andb_true_r.
    clear. by_byte c.
  - simpl. rewrite IH, andb_true_r. unfold form_char. now rewrite E.
Qed.

Lemma form_char_not (d : ascii) :
  Ascii.eqb d "&" = true \/ Ascii.eqb d "=" = true -> forall c, form_char c = true ->
  negb (Ascii.eqb c d) = true.
Proof.
  intros [H|H]; apply Ascii.eqb_eq in H; subst d; intros c; by_byte c.
Qed.

Lemma encode_component_no_amp (s : string) : mem "&" (encode_component s) = false.
Proof.
  apply mem_false_all.
  eapply all_chars_impl; [|apply encode_component_chars].
  apply form_char_not. now left.
Qed.

Lemma encode_component_no_eq (s : string) : mem "=" (encode_component s) = false.
Proof.
  apply mem_false_all.
  eapply all_chars_impl; [|apply encode_component_chars].
  apply form_char_not. now right.
Qed.

Lemma parse_serialize_tuple (t : string * string) :
  parse_sequence (serialize_tuple t) = [t].
Proof.
  destruct t as [n v]. unfold serialize_tuple, parse_sequence. simpl fst. simpl snd.
  change (encode_component n ++ "=" ++ encode_component v)
    with (encode_component n ++ String "=" (encode_component v)).
  rewrite split_first_app by apply encode_component_no_eq.
  rewrite !decode_encode_component.
  destruct (encode_component n); reflexivity.
Qed.

Lemma serialize_tuple_no_amp (t : string * string) : mem "&" (serialize_tuple t) = false.
Proof.
  unfold serialize_tuple. rewrite !mem_app, !encode_component_no_amp. reflexivity.
Qed.

Lemma flat_map_parse_serialize (l : list (string * string)) :
  flat_map parse_sequence (map serialize_tuple l) = l.
Proof.
  induction l as [|t r IH]; [reflexivity|].
  simpl. now rewrite parse_serialize_tuple, IH.
Qed.

(** The parser reads back the list the serializer wrote. *)
Lemma parse_serialize (l : list (string * string)) : parse (serialize l) = l.
Proof.
  unfold parse, serialize.
  destruct l as [|t r]; [reflexivity|].
  rewrite split_on_join.
  - apply flat_map_parse_serialize.
  - discriminate.
  - apply Forall_forall. intros s Hs. apply in_map_iff in Hs as [x [<- _]].
    apply serialize_tuple_no_amp.
Qed.

Lemma parse_app (a b : string) : parse (a ++ String "&" b) = (parse a ++ parse b)%list.
Proof. unfold parse. now rewrite split_on_app_gen, flat_map_app. Qed.

Lemma serialize_tuple_chars (t : string * string) :
  all_chars form_text_char (serialize_tuple t) = true.
Proof.
  unfold serialize_tuple. rewrite !all_chars_app.
  assert (H : forall s, all_chars form_text_char (encode_component s) = true).
  { intros s. eapply all_chars_impl; [|apply encode_component_chars].
    intros c Hc. unfold form_text_char. now rewrite Hc. }
  now rewrite !H.
Qed.

Lemma serialize_chars (l : list (string * string)) :
  all_chars form_text_char (serialize l) = true.
Proof.
  unfold serialize. induction l as [|t r IH]; [reflexivity|].
  destruct r as [|t' r'].
  - simpl. apply serialize_tuple_chars.
  - change (join "&" (map serialize_tuple (t :: t' :: r')))
      with (serialize_tuple t ++ "&" ++ join "&" (map serialize_tuple (t' :: r'))).
    rewrite !all_chars_app, serialize_tuple_chars, IH. reflexivity.
Qed.

Lemma form_text_outside_query (c : ascii) :
  form_text_char c = true -> negb (special_query_set c) = true.
Proof. by_byte c. Qed.

Lemma serialize_clean (l : list (string * string)) :
  all_chars (fun c => negb (special_query_set c)) (serialize l) = true.
Proof.
  eapply all_chars_impl; [|apply serialize_chars]. apply form_text_outside_query.
Qed.

End FormFacts.

(** ** The URL parser and the accessors *)

Module UrlFacts.
Import Text Percent FormUrlEncoded Url Wf TextFacts PercentFacts FormFacts.

Lemma split_first_keeps (q : ascii -> bool) (sep : ascii) (s : string) :
  all_chars q s = true ->
  all_chars q (fst (split_first sep s)) = true /\
  match snd (split_first sep s) with
  | Some b => all_chars q b = true
  | None => True
  end.
Proof.
  intros H. destruct (split_first_spec sep s) as [_ E].
  rewrite E in H. rewrite all_chars_app in H.
  apply andb_true_iff in H as [Ha Hb]. split; [exact Ha|].
  destruct (snd (split_first sep s)); [|exact I].
  simpl in Hb. now apply andb_true_iff in Hb.
Qed.

Lemma drop_prefix_ci_keeps (q : ascii -> bool) (p s r : string) :
  drop_prefix_ci p s = Some r -> all_chars q s = true -> all_chars q r = true.
Proof.
  revert s. induction p as [|a p IH]; intros s; simpl.
  - intros [= ->]. auto.
  - destruct s as [|b s]; [discriminate|].
    destruct (Ascii.eqb a (lower_char b)); [|discriminate].
    intros Hd H. simpl in H. apply andb_true_iff in H as [_ H]. eauto.
Qed.

Lemma take_scheme_keeps (q : ascii -> bool) (p rest : string) (sch : Scheme) :
  take_scheme p = Some (sch, rest) -> all_chars q p = true -> all_chars q rest = true.
Proof.
  unfold take_scheme.
  destruct (drop_prefix_ci "https://" p) eqn:E1.
  - intros [= _ <-]. eapply drop_prefix_ci_keeps; eassumption.
  - destruct (drop_prefix_ci "http://" p) eqn:E2; [|discriminate].
    intros [= _ <-]. eapply drop_prefix_ci_keeps; eassumption.
Qed.

Lemma take_scheme_slash (t : string) : take_scheme (String "/" t) = None.
Proof. reflexivity. Qed.

Lemma take_scheme_href (sch : Scheme) (rest : string) :
  take_scheme (scheme_text sch ++ "://" ++ rest) = Some (sch, rest).
Proof. destruct sch; reflexivity. Qed.

Lemma clean_input_no_tab (s : string) : outside is_tab_or_newline (clean_input s) = true.
Proof. apply remove_chars_clean. Qed.

(** The three parts of a reference, and what they cannot contain. *)
Lemma split_reference_spec (s : string) :
  mem "#" (ref_path (split_reference s)) = false /\
  mem "?" (ref_path (split_reference s)) = false /\
  forall q, all_chars q s = true -> all_chars q (ref_path (split_reference s)) = true.
Proof.
  unfold split_reference.
  pose proof (split_first_spec "#" s) as [H1 _].
  pose proof (fun q => split_first_keeps q "#" s) as K1.
  destruct (split_first "#" s) as [s1 f]. simpl in *.
  pose proof (split_first_spec "?" s1) as [H2 _].
  pose proof (fun q => split_first_keeps q "?" s1) as K2.
  destruct (split_first "?" s1) as [p q0]. simpl in *.
  split; [|split].
  - apply mem_false_all. apply K2. now apply mem_false_all.
  - exact H2.
  - intros q Hq. apply K2. now apply K1.
Qed.

Lemma split_reference_build (p : string) (q f : option string) :
  mem "#" p = false -> mem "?" p = false ->
  match q with Some x => mem "#" x = false | None => True end ->
  split_reference (p ++ query_part q ++ fragment_part f) = mkReference p q f.
Proof.
  intros Hp1 Hp2 Hq. unfold split_reference.
  assert (Hs : mem "#" (p ++ query_part q) = false).
  { rewrite mem_app, Hp1. destruct q; simpl; auto. }
  assert (E1 : split_first "#" (p ++ query_part q ++ fragment_part f)
               = (p ++ query_part q, f)).
  { destruct f as [y|]; simpl fragment_part.
    - rewrite <- append_assoc. now apply split_first_app.
    - rewrite append_nil_r. now apply split_first_none. }
  rewrite E1.
  destruct q as [x|]; simpl query_part.
  - now rewrite split_first_app.
  - rewrite append_nil_r. now rewrite split_first_none.
Qed.

(** Byte classes. *)
Lemma outside_path_plain (c : ascii) :
  negb (path_set c) = true ->
  negb (is_c0_or_space c) = true /\ negb (is_tab_or_newline c) = true /\
  negb (Ascii.eqb c "#") = true /\ negb (Ascii.eqb c "?") = true.
Proof. by_byte c; intros _; repeat split. Qed.

Lemma outside_query_plain (c : ascii) :
  negb (special_query_set c) = true ->
  negb (is_c0_or_space c) = true /\ negb (is_tab_or_newline c) = true /\
  negb (Ascii.eqb c "#") = true.
Proof. by_byte c; intros _; repeat split. Qed.

Lemma outside_fragment_plain (c : ascii) :
  negb (fragment_set c) = true ->
  negb (is_c0_or_space c) = true /\ negb (is_tab_or_newline c) = true.
Proof. by_byte c; intros _; repeat split. Qed.

Lemma outside_separator_plain (c : ascii) :
  negb (separator c) = true ->
  negb (is_tab_or_newline c) = true /\ negb (Ascii.eqb c "#") = true /\
  negb (Ascii.eqb c "?") = true /\ negb (Ascii.eqb c "/") = true /\
  negb (Ascii.eqb c "\") = true.
Proof. by_byte c; intros _; repeat split. Qed.

Lemma outside_delimiter_slash (c : ascii) :
  negb (delimiter c) = true -> negb (delimiter (backslash_to_slash c)) = true.
Proof. by_byte c. Qed.

Lemma outside_delimiter_separator (s : string) :
  outside delimiter s = true -> mem "/" s = false -> outside separator s = true.
Proof.
  unfold outside. induction s as [|c r IH]; simpl; [reflexivity|].
  intros H1 H2. apply andb_true_iff in H1 as [A1 B1].
  apply orb_false_iff in H2 as [A2 B2].
  rewrite IH by assumption. unfold separator. rewrite A2. simpl. now rewrite A1.
Qed.

Lemma outside_separator_delimiter (c : ascii) :
  negb (separator c) = true -> negb (delimiter c) = true.
Proof. by_byte c. Qed.

Lemma delimiter_split (s : string) :
  mem "?" s = false -> mem "#" s = false -> outside is_tab_or_newline s = true ->
  outside delimiter (map_chars backslash_to_slash s) = true.
Proof.
  unfold outside. induction s as [|c r IH]; simpl; [reflexivity|].
  intros H1 H2 H3.
  apply orb_false_iff in H1 as [A1 B1]. apply orb_false_iff in H2 as [A2 B2].
  apply andb_true_iff in H3 as [A3 B3].
  rewrite IH by assumption. rewrite andb_true_r.
  clear - A1 A2 A3. revert A1 A2 A3. by_byte c.
Qed.

Lemma map_backslash_id (s : string) :
  mem "\" s = false -> map_chars backslash_to_slash s = s.
Proof.
  induction s as [|c r IH]; simpl; [reflexivity|].
  intros H. apply orb_false_iff in H as [Hc Hr].
  unfold backslash_to_slash at 1. now rewrite Hc, IH.
Qed.

Lemma outside_delimiter_no_backslash (s : string) :
  outside delimiter s = true -> mem "\" s = false.
Proof.
  intros H. apply mem_false_all. eapply all_chars_impl; [|exact H].
  intros c. by_byte c.
Qed.

(** A text made of bytes above the space, without tab or newline, is
    taken as written. *)
Lemma clean_input_id (s : string) :
  outside is_c0_or_space s = true -> outside is_tab_or_newline s = true ->
  clean_input s = s.
Proof.
  intros H1 H2. unfold clean_input.
  rewrite (trim_start_id _ _ H1), (trim_end_id _ _ H1). now apply remove_chars_id.
Qed.

Lemma encode_path_slash (t : string) :
  encode path_set (String "/" t) = String "/" (encode path_set t).
Proof. reflexivity. Qed.

Lemma dirname_keeps (q : ascii -> bool) (s : string) :
  all_chars q s = true -> all_chars q (dirname s) = true.
Proof.
  induction s as [|c r IH]; simpl; [reflexivity|].
  intros H. apply andb_true_iff in H as [Hc Hr].
  destruct (mem "/" r); simpl; [now rewrite Hc, IH|].
  destruct (Ascii.eqb c "/"); simpl; [now rewrite Hc | reflexivity].
Qed.

Lemma dirname_slash (t : string) : exists t', dirname (String "/" t) = String "/" t'.
Proof. simpl. destruct (mem "/" t); eauto. Qed.

Lemma encode_query_wf (q : option string) :
  match encode_query q with
  | Some x => outside special_query_set x = true
  | None => True
  end.
Proof. destruct q; simpl; [|exact I]. apply encode_clean, special_query_escapes. Qed.

Lemma encode_fragment_wf (f : option string) :
  match encode_fragment f with
  | Some x => outside fragment_set x = true
  | None => True
  end.
Proof. destruct f; simpl; [|exact I]. apply encode_clean, fragment_escapes. Qed.

Lemma encode_path_no_backslash (s : string) :
  mem "\" s = false -> mem "\" (encode path_set s) = false.
Proof. apply encode_no. simpl. auto. Qed.

(** The authority and the path read behind the slashes. *)
Lemma authority_and_path_wf (rest authority path : string) :
  outside delimiter rest = true ->
  authority_and_path rest = Some (authority, path) ->
  authority <> EmptyString /\ outside separator authority = true /\
  (exists t, path = String "/" t) /\ outside path_set path = true /\
  mem "\" path = false.
Proof.
  unfold authority_and_path. intros Hr.
  pose proof (trim_start_keeps is_slash _ _ Hr) as Ht.
  pose proof (split_first_spec "/" (trim_start is_slash rest)) as [S1 _].
  pose proof (split_first_keeps _ "/" _ Ht) as [U1 U2].
  destruct (split_first "/" (trim_start is_slash rest)) as [a p]. simpl in *.
  destruct a as [|a0 a1] eqn:Ea; [discriminate|].
  intros [= <- <-]. split; [discriminate|]. split; [|split; [|split]].
  - now apply outside_delimiter_separator.
  - eauto.
  - exact (encode_clean path_set
             (String "/" match p with Some p0 => p0 | None => EmptyString end) path_escapes).
  - simpl. apply encode_path_no_backslash.
    destruct p as [p0|]; [|reflexivity]. now apply outside_delimiter_no_backslash.
Qed.

(** The path of a reference is free of delimiters. *)
Lemma reference_path_plain (s : string) :
  outside delimiter
    (map_chars backslash_to_slash (ref_path (split_reference (clean_input s)))) = true.
Proof.
  destruct (split_reference_spec (clean_input s)) as [H1 [H2 K]].
  apply delimiter_split; [exact H2 | exact H1 |].
  apply K, clean_input_no_tab.
Qed.

(** An absolute URL that parses is well formed. *)
Lemma parse_reference_wf (s : string) (u : URL) :
  parse_reference s = Absolute u -> wf_url u.
Proof.
  unfold parse_reference.
  pose proof (reference_path_plain s) as P.
  set (r := split_reference (clean_input s)) in *.
  destruct (take_scheme _) as [[sch rest]|] eqn:E; [|discriminate].
  pose proof (take_scheme_keeps _ _ _ _ E P) as T.
  destruct (authority_and_path rest) as [[authority path]|] eqn:Ea; [|discriminate].
  destruct (authority_and_path_wf _ _ _ T Ea) as [A1 [A2 [A3 [A4 A5]]]].
  intros [= <-]. constructor; simpl; try assumption.
  - apply encode_query_wf.
  - apply encode_fragment_wf.
Qed.

Lemma parse_reference_relative (s : string) (r : Reference) :
  parse_reference s = Relative r -> outside delimiter (ref_path r) = true.
Proof.
  unfold parse_reference. pose proof (reference_path_plain s) as P.
  destruct (take_scheme _) as [[sch rest]|]; [destruct (authority_and_path rest) as [[? ?]|]|];
    try discriminate.
  intros [= <-]. exact P.
Qed.

Lemma resolve_wf (b u : URL) (r : Reference) :
  wf_url b -> outside delimiter (ref_path r) = true -> resolve b r = Some u -> wf_url u.
Proof.
  intros [B1 B2 [t B3] B4 B4' B5 B6] Hr. unfold resolve.
  pose proof (encode_query_wf (ref_query r)) as Q.
  pose proof (encode_fragment_wf (ref_fragment r)) as F.
  destruct (ref_path r) as [|c p] eqn:E.
  - intros [= <-]. constructor; simpl; eauto.
    destruct (ref_query r); assumption.
  - assert (Hc : outside path_set (encode path_set (String c p)) = true)
      by exact (encode_clean path_set (String c p) path_escapes).
    assert (Hb : mem "\" (encode path_set (String c p)) = false)
      by (apply encode_path_no_backslash; now apply outside_delimiter_no_backslash).
    destruct (Ascii.eqb_spec c "/") as [->|_].
    + destruct (startsWith p "/").
      * destruct (authority_and_path p) as [[authority path]|] eqn:Ea; [|discriminate].
        unfold outside in Hr. simpl in Hr.
        destruct (authority_and_path_wf _ _ _ Hr Ea) as [A1 [A2 [A3 [A4 A5]]]].
        intros [= <-]. constructor; simpl; assumption.
      * intros [= <-].
        constructor; cbn [scheme host pathname query fragment]; try assumption.
        eauto.
    + intros [= <-].
      constructor; cbn [scheme host pathname query fragment]; try assumption.
      * rewrite B3. destruct (dirname_slash t) as [t' ->]. simpl. eauto.
      * unfold outside. rewrite all_chars_app. apply andb_true_iff. split.
        -- now apply dirname_keeps.
        -- exact Hc.
      * rewrite mem_app. apply orb_false_iff. split; [|exact Hb].
        apply mem_false_all. apply dirname_keeps. now apply mem_false_all.
Qed.

(** Every URL the constructor returns is well formed. *)
Lemma newURL_wf (s : string) (base : option string) (u : URL) :
  newURL s base = Ok u -> wf_url u.
Proof.
  unfold newURL. destruct base as [b|].
  - destruct (parse_reference b) as [bu| |] eqn:Eb; try discriminate.
    destruct (parse_reference s) as [u'|r|] eqn:Es; try discriminate.
    + intros [= <-]. eapply parse_reference_wf; eassumption.
    + destruct (resolve bu r) as [u'|] eqn:Er; [|discriminate].
      intros [= <-]. eapply resolve_wf; [| |exact Er].
      * eapply parse_reference_wf; eassumption.
      * eapply parse_reference_relative; eassumption.
  - destruct (parse_reference s) as [u'| |] eqn:Es; try discriminate.
    intros [= <-]. eapply parse_reference_wf; eassumption.
Qed.

Lemma newURL_base (s b : string) (u : URL) :
  newURL s (Some b) = Ok u -> exists bu, parse_reference b = Absolute bu.
Proof.
  unfold newURL. destruct (parse_reference b) as [bu| |]; try discriminate. eauto.
Qed.

End UrlFacts.

(** ** Reading back what the accessors wrote *)

Module RoundTrip.
Import Text Percent FormUrlEncoded Url Wf TextFacts PercentFacts FormFacts UrlFacts.

Lemma href_parts (u : URL) :
  href u = (scheme_text (scheme u) ++ "://" ++ host u ++ pathname u)
             ++ query_part (query u) ++ fragment_part (fragment u).
Proof. unfold href, query_part, fragment_part. now rewrite !append_assoc. Qed.

Lemma outside_app (f : ascii -> bool) (a b : string) :
  outside f (a ++ b) = outside f a && outside f b.
Proof. apply all_chars_app. Qed.

Lemma wf_query_part (u : URL) (p : ascii -> bool) :
  wf_url u ->
  (forall c, negb (special_query_set c) = true -> negb (p c) = true) ->
  p "?"%char = false ->
  outside p (query_part (query u)) = true.
Proof.
  intros W Hp H0. pose proof (wf_query _ W) as Wq.
  destruct (query u) as [q|]; simpl; [|reflexivity].
  unfold outside. simpl. rewrite H0. simpl.
  eapply all_chars_impl; [|exact Wq]. exact Hp.
Qed.

Lemma wf_fragment_part (u : URL) (p : ascii -> bool) :
  wf_url u ->
  (forall c, negb (fragment_set c) = true -> negb (p c) = true) ->
  p "#"%char = false ->
  outside p (fragment_part (fragment u)) = true.
Proof.
  intros W Hp H0. pose proof (wf_fragment _ W) as Wf.
  destruct (fragment u) as [f|]; simpl; [|reflexivity].
  unfold outside. simpl. rewrite H0. simpl.
  eapply all_chars_impl; [|exact Wf]. exact Hp.
Qed.

Lemma wf_tail (u : URL) (p : ascii -> bool) :
  wf_url u ->
  (forall c, negb (path_set c) = true -> negb (p c) = true) ->
  (forall c, negb (special_query_set c) = true -> negb (p c) = true) ->
  (forall c, negb (fragment_set c) = true -> negb (p c) = true) ->
  p "?"%char = false -> p "#"%char = false ->
  outside p (pathname u ++ query_part (query u) ++ fragment_part (fragment u)) = true.
Proof.
  intros W H1 H2 H3 H4 H5.
  rewrite !outside_app, wf_query_part, wf_fragment_part by assumption.
  rewrite !andb_true_r. eapply all_chars_impl; [exact H1 | apply (wf_path _ W)].
Qed.

Lemma scheme_prefix_plain (sch : Scheme) (p : ascii -> bool) :
  p "h"%char = false -> p "t"%char = false -> p "p"%char = false -> p "s"%char = false ->
  p ":"%char = false -> p "/"%char = false ->
  outside p (scheme_text sch ++ "://") = true.
Proof.
  intros A B C D E F. destruct sch; unfold outside; simpl;
    now rewrite ?A, ?B, ?C, ?D, ?E, ?F.
Qed.

(** The serialization of a well-formed URL is taken as written. *)
Lemma href_clean (u : URL) : wf_url u -> clean_input (href u) = href u.
Proof.
  intros W. unfold clean_input.
  assert (Hs : trim_start is_c0_or_space (href u) = href u).
  { unfold href. destruct (scheme u); reflexivity. }
  rewrite Hs.
  assert (Ht : outside is_c0_or_space
                 (pathname u ++ query_part (query u) ++ fragment_part (fragment u)) = true).
  { apply wf_tail; try assumption; try reflexivity.
    - intros c H. now apply outside_path_plain in H.
    - intros c H. now apply outside_query_plain in H.
    - intros c H. now apply outside_fragment_plain in H. }
  assert (He : trim_end is_c0_or_space (href u) = href u).
  { rewrite href_parts.
    replace ((scheme_text (scheme u) ++ "://" ++ host u ++ pathname u)
               ++ query_part (query u) ++ fragment_part (fragment u))
      with ((scheme_text (scheme u) ++ "://" ++ host u)
              ++ (pathname u ++ query_part (query u) ++ fragment_part (fragment u)))
      by now rewrite !append_assoc.
    rewrite trim_end_app; rewrite (trim_end_id _ _ Ht); [reflexivity|].
    destruct (wf_path_slash _ W) as [t ->]. discriminate. }
  rewrite He. apply remove_chars_id.
  change (outside is_tab_or_newline (href u) = true).
  rewrite href_parts.
  replace ((scheme_text (scheme u) ++ "://" ++ host u ++ pathname u)
             ++ query_part (query u) ++ fragment_part (fragment u))
    with ((scheme_text (scheme u) ++ "://") ++ host u
            ++ (pathname u ++ query_part (query u) ++ fragment_part (fragment u)))
    by now rewrite !append_assoc.
  rewrite outside_app, scheme_prefix_plain by reflexivity.
  rewrite andb_true_l, outside_app. apply andb_true_iff. split.
  - eapply all_chars_impl; [|apply (wf_host _ W)].
    intros c H. now apply outside_separator_plain in H.
  - apply wf_tail; try assumption; try reflexivity.
    + intros c H. now apply outside_path_plain in H.
    + intros c H. now apply outside_query_plain in H.
    + intros c H. now apply outside_fragment_plain in H.
Qed.

Lemma outside_not_mem (f : ascii -> bool) (c : ascii) (s : string) :
  (forall d, negb (f d) = true -> negb (Ascii.eqb d c) = true) ->
  outside f s = true -> mem c s = false.
Proof.
  intros H Hs. apply mem_false_all. eapply all_chars_impl; [exact H | exact Hs].
Qed.

Lemma wf_host_no (u : URL) (c : ascii) :
  wf_url u -> In c ["/"; "?"; "#"; "\"]%char -> mem c (host u) = false.
Proof.
  intros W Hc. eapply (outside_not_mem separator); [|exact (wf_host _ W)].
  intros d Hd. apply outside_separator_plain in Hd.
  simpl in Hc. destruct Hc as [<-|[<-|[<-|[<-|[]]]]]; tauto.
Qed.

Lemma wf_path_no (u : URL) (c : ascii) :
  wf_url u -> In c ["?"; "#"]%char -> mem c (pathname u) = false.
Proof.
  intros W Hc. eapply (outside_not_mem path_set); [|exact (wf_path _ W)].
  intros d Hd. apply outside_path_plain in Hd.
  simpl in Hc. destruct Hc as [<-|[<-|[]]]; tauto.
Qed.

Lemma authority_and_path_build (authority t : string) :
  authority <> EmptyString -> mem "/" authority = false ->
  outside path_set t = true ->
  authority_and_path (authority ++ String "/" t) = Some (authority, String "/" t).
Proof.
  intros Hne Hs Ht. unfold authority_and_path.
  destruct authority as [|a0 a1]; [congruence|].
  simpl in Hs. apply orb_false_iff in Hs as [Ha0 Ha1].
  assert (E : trim_start is_slash (String a0 a1 ++ String "/" t)
              = String a0 a1 ++ String "/" t).
  { simpl. unfold is_slash. now rewrite Ha0. }
  rewrite E, split_first_app by (simpl; now rewrite Ha0, Ha1).
  now rewrite (encode_id _ _ Ht).
Qed.

(** Parsing the serialization of a well-formed URL gives the URL back. *)
Lemma parse_href (u : URL) : wf_url u -> parse_reference (href u) = Absolute u.
Proof.
  intros W. unfold parse_reference. rewrite (href_clean _ W), href_parts.
  destruct (wf_path_slash _ W) as [t W3].
  assert (Hpath : forall c, In c ["?"; "#"; "\"]%char ->
            mem c (scheme_text (scheme u) ++ "://" ++ host u ++ pathname u) = false).
  { intros c Hc. rewrite !mem_app.
    assert (Hh : mem c (host u) = false)
      by (apply wf_host_no; [exact W | simpl in *; tauto]).
    assert (Hp : mem c (pathname u) = false).
    { simpl in Hc. destruct Hc as [<-|[<-|[<-|[]]]];
        [apply wf_path_no; simpl; auto | apply wf_path_no; simpl; auto
        | exact (wf_path_backslash _ W)]. }
    rewrite Hh, Hp.
    simpl in Hc. destruct Hc as [<-|[<-|[<-|[]]]]; destruct (scheme u); reflexivity. }
  rewrite split_reference_build.
  - cbn [ref_path ref_query ref_fragment].
    rewrite map_backslash_id by (apply Hpath; simpl; auto).
    rewrite take_scheme_href, W3.
    rewrite authority_and_path_build.
    + assert (Eq : encode_query (query u) = query u).
      { pose proof (wf_query _ W) as Wq.
        destruct (query u); simpl; [|reflexivity]. now rewrite encode_id. }
      assert (Ef : encode_fragment (fragment u) = fragment u).
      { pose proof (wf_fragment _ W) as Wf.
        destruct (fragment u); simpl; [|reflexivity]. now rewrite encode_id. }
      rewrite Eq, Ef, <- W3. now destruct u.
    + exact (wf_host_nonempty _ W).
    + apply wf_host_no; [exact W | simpl; auto].
    + pose proof (wf_path _ W) as W4. rewrite W3 in W4.
      unfold outside in W4. simpl in W4. exact W4.
  - apply Hpath. simpl. auto.
  - apply Hpath. simpl. auto.
  - pose proof (wf_query _ W) as W5.
    destruct (query u) as [q|]; [|exact I].
    eapply (outside_not_mem special_query_set); [|exact W5].
    intros d Hd. now apply outside_query_plain in Hd.
Qed.

Lemma newURL_href (u : URL) : wf_url u -> newURL (href u) None = Ok u.
Proof. intros W. unfold newURL. now rewrite parse_href. Qed.

Lemma newURL_href_base (u bu : URL) (b : string) :
  wf_url u -> parse_reference b = Absolute bu -> newURL (href u) (Some b) = Ok u.
Proof. intros W Hb. unfold newURL. now rewrite Hb, parse_href. Qed.

(** A path that does not begin with two slashes, followed by a query and
    read against a base: the path and the query are kept. *)
Lemma newURL_path_query (b : string) (bu : URL) (path q : string) :
  parse_reference b = Absolute bu ->
  (exists t, path = String "/" t) -> startsWith path "//" = false ->
  outside path_set path = true -> mem "\" path = false ->
  outside special_query_set q = true ->
  exists u, newURL (path ++ String "?" q) (Some b) = Ok u /\ query u = Some q
            /\ pathname u = path.
Proof.
  intros Hb [t Ht] Hss Hp Hbs Hq.
  assert (Hplain : forall p, (forall c, negb (path_set c) = true -> negb (p c) = true) ->
            (forall c, negb (special_query_set c) = true -> negb (p c) = true) ->
            p "?"%char = false -> outside p (path ++ String "?" q) = true).
  { intros p H1 H2 H3. rewrite outside_app. apply andb_true_iff. split.
    - eapply all_chars_impl; [exact H1 | exact Hp].
    - unfold outside. simpl. rewrite H3. simpl.
      eapply all_chars_impl; [exact H2 | exact Hq]. }
  assert (Hc : clean_input (path ++ String "?" q) = path ++ String "?" q).
  { apply clean_input_id; apply Hplain; try reflexivity;
      intros c H; first [now apply outside_path_plain in H
                        | now apply outside_query_plain in H]. }
  assert (Hr : split_reference (path ++ String "?" q) = mkReference path (Some q) None).
  { pose proof (split_reference_build path (Some q) None) as B. simpl in B.
    rewrite append_nil_r in B. apply B.
    - eapply (outside_not_mem path_set); [|exact Hp].
      intros d Hd. now apply outside_path_plain in Hd.
    - eapply (outside_not_mem path_set); [|exact Hp].
      intros d Hd. now apply outside_path_plain in Hd.
    - eapply (outside_not_mem special_query_set); [|exact Hq].
      intros d Hd. now apply outside_query_plain in Hd. }
  unfold newURL, parse_reference at 2. rewrite Hb, Hc, Hr. cbn [ref_path ref_query ref_fragment].
  rewrite (map_backslash_id _ Hbs), Ht, take_scheme_slash.
  unfold resolve. cbn [ref_path ref_query ref_fragment].
  rewrite Ascii.eqb_refl.
  assert (Hss' : startsWith t "/" = false) by (rewrite Ht in Hss; exact Hss).
  rewrite Hss'.
  eexists. split; [reflexivity|]. simpl.
  rewrite (encode_id _ _ Hq). split; [reflexivity|].
  rewrite Ht in Hp. unfold outside in Hp. simpl in Hp.
  now rewrite (encode_id _ _ Hp).
Qed.

End RoundTrip.

(** ** The page URL *)

Module PageUrlFacts.
Import Text Percent FormUrlEncoded Url Wf TextFacts PercentFacts FormFacts UrlFacts RoundTrip.

Lemma stored_query_clean (s : string) : outside special_query_set (stored_query s) = true.
Proof. apply encode_clean, special_query_escapes. Qed.

Lemma stored_query_app (a b : string) :
  stored_query (a ++ b) = stored_query a ++ stored_query b.
Proof. unfold stored_query. now rewrite remove_chars_app, encode_app. Qed.

Lemma stored_query_id (s : string) :
  outside special_query_set s = true -> stored_query s = s.
Proof.
  intros H. unfold stored_query. rewrite remove_chars_id.
  - now apply encode_id.
  - eapply all_chars_impl; [|exact H]. intros c Hc. now apply outside_query_plain in Hc.
Qed.

Lemma set_search_wf (u : URL) (v : string) : wf_url u -> wf_url (set_search u v).
Proof.
  intros [W1 W2 W3 W4 W4' W5 W6]. unfold set_search.
  destruct v; constructor; simpl; try assumption; try exact I.
  apply stored_query_clean.
Qed.

Lemma searchParams_delete_wf (u : URL) (name : string) :
  wf_url u -> wf_url (searchParams_delete u name).
Proof.
  intros [W1 W2 W3 W4 W4' W5 W6]. unfold searchParams_delete.
  destruct (serialize _) eqn:E; constructor; simpl; try assumption; try exact I.
  rewrite <- E. apply serialize_clean.
Qed.

Lemma search_cases (u : URL) :
  (search u = EmptyString /\ searchParams u = []) \/
  (exists q0, q0 <> EmptyString /\ query u = Some q0 /\ search u = String "?" q0).
Proof.
  unfold search, searchParams. destruct (query u) as [[|c r]|].
  - now left.
  - right. exists (String c r). repeat split. discriminate.
  - now left.
Qed.

End PageUrlFacts.

Module UpdateFacts.
Import Text Percent FormUrlEncoded Url Wf TextFacts PercentFacts FormFacts UrlFacts RoundTrip
  PageUrlFacts.

Lemma updateProductUrl_set (url : string) (ctx : ICoreContext) (q : string) (u : URL) :
  newURL url (Some (baseUrl (apiSettings ctx))) = Ok u ->
  updateProductUrl url ctx q
  = Ok (pathname u
          ++ search (match search u with
                     | String _ _ => set_search u (search u ++ "&" ++ q)
                     | EmptyString => set_search u (search u ++ q)
                     end)).
Proof.
  intros H. unfold updateProductUrl. rewrite H. cbn [bind].
  pose proof (newURL_wf _ _ _ H) as W.
  set (u' := match search u with
             | String _ _ => set_search u (search u ++ "&" ++ q)
             | EmptyString => set_search u (search u ++ q)
             end).
  assert (W' : wf_url u') by (subst u'; destruct (search u); now apply set_search_wf).
  rewrite (newURL_href _ W'). cbn [bind]. f_equal. f_equal.
  subst u'. destruct (search u); unfold set_search;
    match goal with |- context [match ?x with EmptyString => _ | String _ _ => _ end] =>
      destruct x end; reflexivity.
Qed.

(** The URL has a query: the parameter is joined onto it. *)
Lemma updateProductUrl_joined (url : string) (ctx : ICoreContext) (q q0 : string) (u : URL) :
  newURL url (Some (baseUrl (apiSettings ctx))) = Ok u ->
  query u = Some q0 -> q0 <> EmptyString ->
  updateProductUrl url ctx q
  = Ok (pathname u ++ String "?" (q0 ++ String "&" (stored_query q))).
Proof.
  intros H Hq Hne. rewrite (updateProductUrl_set _ _ _ _ H).
  pose proof (wf_query _ (newURL_wf _ _ _ H)) as Wq.
  rewrite Hq in Wq.
  destruct q0 as [|c r]; [congruence|].
  assert (Hs : search u = String "?" (String c r)) by (unfold search; now rewrite Hq).
  rewrite Hs. unfold set_search. cbn [append].
  unfold query_text. rewrite Ascii.eqb_refl.
  change (String c (r ++ String "&" q)) with (String c r ++ String "&" q).
  change (String "&" q) with ("&" ++ q).
  rewrite !stored_query_app, (stored_query_id _ Wq).
  unfold search, with_query. cbn [query].
  change (stored_query "&") with "&". cbn [append].
  reflexivity.
Qed.

(** The URL has no query: the parameter starts one. *)
Lemma updateProductUrl_started (url : string) (ctx : ICoreContext) (q : string) (u : URL) :
  newURL url (Some (baseUrl (apiSettings ctx))) = Ok u ->
  search u = EmptyString ->
  startsWith q "?" = false -> stored_query q <> EmptyString ->
  updateProductUrl url ctx q = Ok (pathname u ++ String "?" (stored_query q)).
Proof.
  intros H Hs Hq Hne. rewrite (updateProductUrl_set _ _ _ _ H), Hs. cbn [append].
  unfold set_search. destruct q as [|c r]; [now elim Hne|].
  unfold query_text.
  destruct (Ascii.eqb_spec c "?") as [->|Hc]; [discriminate Hq|].
  unfold search, with_query. cbn [query].
  destruct (stored_query (String c r)); [congruence | reflexivity].
Qed.

End UpdateFacts.

Module ParamFacts.
Import Text Percent FormUrlEncoded Url Wf TextFacts PercentFacts FormFacts UrlFacts RoundTrip
  PageUrlFacts UpdateFacts.

Lemma map_plus_id (s : string) : mem "+" s = false -> map_chars plus_to_space s = s.
Proof.
  induction s as [|c r IH]; simpl; [reflexivity|].
  intros H. apply orb_false_iff in H as [Hc Hr].
  unfold plus_to_space at 1. now rewrite Hc, IH.
Qed.

Lemma value_char_spec (c : ascii) :
  value_char c = true ->
  Ascii.eqb c "&" = false /\ Ascii.eqb c "+" = false /\ Ascii.eqb c "%" = false /\
  negb (is_tab_or_newline c) = true.
Proof. by_byte c; intros _; repeat split. Qed.

Lemma name_char_spec (c : ascii) :
  name_char c = true ->
  value_char c = true /\ Ascii.eqb c "=" = false /\ Ascii.eqb c "?" = false.
Proof. by_byte c; intros _; repeat split. Qed.

Lemma plain_value_spec (s : string) :
  plain_value s = true ->
  mem "&" s = false /\ mem "+" s = false /\ mem "%" s = false /\
  outside is_tab_or_newline s = true.
Proof.
  unfold plain_value, outside. induction s as [|c r IH]; simpl; [auto|].
  intros H. apply andb_true_iff in H as [Hc Hr].
  destruct (value_char_spec _ Hc) as [A [B [C D]]].
  destruct (IH Hr) as [A' [B' [C' D']]].
  now rewrite A, B, C, D, A', B', C', D'.
Qed.

Lemma plain_name_spec (s : string) :
  plain_name s = true ->
  plain_value s = true /\ mem "=" s = false /\ startsWith (s ++ "=") "?" = false.
Proof.
  unfold plain_name, plain_value. intros H. split; [|split].
  - eapply all_chars_impl; [|exact H]. intros c Hc. now apply name_char_spec in Hc.
  - apply mem_false_all. eapply all_chars_impl; [|exact H].
    intros c Hc. apply name_char_spec in Hc. apply negb_true_iff. tauto.
  - destruct s as [|c r]; [reflexivity|]. simpl in H. apply andb_true_iff in H as [Hc _].
    apply name_char_spec in Hc. destruct Hc as [_ [_ Hq]].
    cbn [append startsWith]. rewrite Ascii.eqb_sym, Hq. reflexivity.
Qed.

Lemma decode_stored (s : string) :
  plain_value s = true ->
  stored_query s = encode special_query_set s /\
  decode_component (stored_query s) = s /\
  mem "&" (stored_query s) = false.
Proof.
  intros H. destruct (plain_value_spec _ H) as [A [B [C D]]].
  assert (E : stored_query s = encode special_query_set s).
  { unfold stored_query. now rewrite remove_chars_id. }
  rewrite E. split; [reflexivity|]. split.
  - unfold decode_component. rewrite map_plus_id.
    + apply decode_encode. apply mem_false_all in C.
      eapply all_chars_impl; [|exact C]. intros c Hc. simpl in Hc. rewrite Hc.
      apply orb_true_r.
    + apply encode_no; simpl; auto.
  - apply encode_no; simpl; auto.
Qed.

(** A plain name and a plain value are read back from the query as they
    were written. *)
Lemma stored_param (name value : string) :
  plain_name name = true -> plain_value value = true ->
  stored_query (name ++ "=" ++ value) <> EmptyString /\
  startsWith (name ++ "=" ++ value) "?" = false /\
  parse (stored_query (name ++ "=" ++ value)) = [(name, value)].
Proof.
  intros Hn Hv. destruct (plain_name_spec _ Hn) as [Hn' [Heq Hst]].
  destruct (decode_stored _ Hn') as [En [Dn An]].
  destruct (decode_stored _ Hv) as [Ev [Dv Av]].
  rewrite !stored_query_app. change (stored_query "=") with "=".
  split; [|split].
  - destruct (stored_query name); discriminate.
  - destruct name as [|c r]; [reflexivity|]. exact Hst.
  - unfold parse. rewrite split_on_none.
    + simpl flat_map. rewrite app_nil_r. unfold parse_sequence.
      change (stored_query name ++ "=" ++ stored_query value)
        with (stored_query name ++ String "=" (stored_query value)).
      rewrite split_first_app.
      * rewrite Dn, Dv. destruct (stored_query name); reflexivity.
      * rewrite En. apply encode_no; simpl; auto.
    + rewrite !mem_app, An, Av. reflexivity.
Qed.

Lemma getAll_app (n : string) (a b : list (string * string)) :
  getAll n (a ++ b) = (getAll n a ++ getAll n b)%list.
Proof. unfold getAll. now rewrite filter_app, map_app. Qed.

Lemma getAll_removed (n : string) (l : list (string * string)) :
  getAll n (filter (fun t => negb (String.eqb (fst t) n)) l) = [].
Proof.
  unfold getAll. induction l as [|t r IH]; [reflexivity|].
  simpl. destruct (String.eqb (fst t) n) eqn:E; simpl; [exact IH|].
  now rewrite E.
Qed.

Lemma getAll_other (n m : string) (l : list (string * string)) :
  m <> n -> getAll m (filter (fun t => negb (String.eqb (fst t) n)) l) = getAll m l.
Proof.
  intros Hne. unfold getAll. induction l as [|t r IH]; [reflexivity|].
  simpl. destruct (String.eqb_spec (fst t) n) as [E|E]; simpl.
  - destruct (String.eqb_spec (fst t) m) as [E'|E']; [congruence | exact IH].
  - destruct (String.eqb (fst t) m); simpl; now rewrite IH.
Qed.

Lemma searchParams_delete_params (u : URL) (name : string) :
  searchParams (searchParams_delete u name)
  = filter (fun t => negb (String.eqb (fst t) name)) (searchParams u).
Proof.
  unfold searchParams_delete.
  set (l := filter _ (searchParams u)).
  pose proof (parse_serialize l) as P.
  destruct (serialize l) eqn:E; unfold searchParams, with_query; cbn [query]; now rewrite <- P.
Qed.

(** Appending a plain parameter with [updateProductUrl] adds it at the end
    of the parameters of the URL; the result parses when the path of the
    URL does not begin with two slashes. *)
Lemma updateProductUrl_params (url : string) (ctx : ICoreContext) (name value : string)
    (u : URL) :
  newURL url (Some (baseUrl (apiSettings ctx))) = Ok u ->
  startsWith (pathname u) "//" = false ->
  plain_name name = true -> plain_value value = true ->
  exists res u',
    updateProductUrl url ctx (name ++ "=" ++ value) = Ok res /\
    newURL res (Some (baseUrl (apiSettings ctx))) = Ok u' /\
    searchParams u' = (searchParams u ++ [(name, value)])%list.
Proof.
  intros H Hss Hn Hv.
  destruct (stored_param _ _ Hn Hv) as [Hne [Hst Hp]].
  destruct (newURL_base _ _ _ H) as [bu Hb].
  pose proof (newURL_wf _ _ _ H) as W.
  destruct (search_cases u) as [[Hs He]|[q0 [Hq0 [Hq Hs]]]].
  - rewrite (updateProductUrl_started _ _ _ _ H Hs Hst Hne).
    destruct (newURL_path_query _ _ (pathname u) (stored_query (name ++ "=" ++ value)) Hb
                (wf_path_slash _ W) Hss (wf_path _ W) (wf_path_backslash _ W)
                (stored_query_clean _))
      as [u' [Hu' [Hq' _]]].
    exists (pathname u ++ String "?" (stored_query (name ++ "=" ++ value))), u'.
    split; [reflexivity|]. split; [exact Hu'|].
    unfold searchParams at 1. now rewrite Hq', Hp, He.
  - rewrite (updateProductUrl_joined _ _ _ _ _ H Hq Hq0).
    pose proof (wf_query _ W) as Wq. rewrite Hq in Wq.
    assert (Hc : outside special_query_set
                   (q0 ++ String "&" (stored_query (name ++ "=" ++ value))) = true).
    { rewrite outside_app, Wq. unfold outside. simpl. apply stored_query_clean. }
    destruct (newURL_path_query _ _ (pathname u) _ Hb (wf_path_slash _ W) Hss (wf_path _ W)
                (wf_path_backslash _ W) Hc)
      as [u' [Hu' [Hq' _]]].
    eexists _, u'. split; [reflexivity|]. split; [exact Hu'|].
    unfold searchParams. now rewrite Hq', Hq, parse_app, Hp.
Qed.

End ParamFacts.

(** ** The page URL, read back *)

Module ReparseFacts.
Import Text Percent FormUrlEncoded Url Wf TextFacts PercentFacts FormFacts UrlFacts RoundTrip
  PageUrlFacts UpdateFacts ParamFacts.

Lemma newURL_path_search (b : string) (bu : URL) (path : string) (q : option string) :
  parse_reference b = Absolute bu ->
  (exists t, path = String "/" t) -> startsWith path "//" = false ->
  outside path_set path = true -> mem "\" path = false ->
  match q with Some x => outside special_query_set x = true | None => True end ->
  newURL (path ++ query_part q) (Some b) = Ok (mkURL (scheme bu) (host bu) path q None).
Proof.
  intros Hb [t Ht] Hss Hp Hbs Hq.
  assert (Hplain : forall p, (forall c, negb (path_set c) = true -> negb (p c) = true) ->
            (forall c, negb (special_query_set c) = true -> negb (p c) = true) ->
            p "?"%char = false -> outside p (path ++ query_part q) = true).
  { intros p H1 H2 H3. rewrite outside_app. apply andb_true_iff. split.
    - eapply all_chars_impl; [exact H1 | exact Hp].
    - destruct q as [x|]; [|reflexivity]. unfold outside. simpl. rewrite H3. simpl.
      eapply all_chars_impl; [exact H2 | exact Hq]. }
  assert (Hc : clean_input (path ++ query_part q) = path ++ query_part q).
  { apply clean_input_id; apply Hplain; try reflexivity;
      intros c H; first [now apply outside_path_plain in H
                        | now apply outside_query_plain in H]. }
  assert (Hr : split_reference (path ++ query_part q) = mkReference path q None).
  { pose proof (split_reference_build path q None) as B. simpl in B.
    rewrite append_nil_r in B. apply B.
    - eapply (outside_not_mem path_set); [|exact Hp].
      intros d Hd. now apply outside_path_plain in Hd.
    - eapply (outside_not_mem path_set); [|exact Hp].
      intros d Hd. now apply outside_path_plain in Hd.
    - destruct q as [x|]; [|exact I].
      eapply (outside_not_mem special_query_set); [|exact Hq].
      intros d Hd. now apply outside_query_plain in Hd. }
  unfold newURL, parse_reference at 2. rewrite Hb, Hc, Hr. cbn [ref_path ref_query ref_fragment].
  rewrite (map_backslash_id _ Hbs), Ht, take_scheme_slash.
  unfold resolve. cbn [ref_path ref_query ref_fragment].
  rewrite Ascii.eqb_refl.
  assert (Hss' : startsWith t "/" = false) by (rewrite Ht in Hss; exact Hss).
  rewrite Hss'. f_equal.
  rewrite Ht in Hp. unfold outside in Hp. simpl in Hp.
  rewrite encode_path_slash, (encode_id _ _ Hp).
  destruct q as [x|]; simpl; [|reflexivity].
  now rewrite (encode_id _ _ Hq).
Qed.

(** The URL that [updateProductUrl] returns, read against the base. *)
Lemma updateProductUrl_reparse (url : string) (ctx : ICoreContext) (q : string) (u bu : URL) :
  parse_reference (baseUrl (apiSettings ctx)) = Absolute bu ->
  newURL url (Some (baseUrl (apiSettings ctx))) = Ok u ->
  startsWith (pathname u) "//" = false ->
  exists res u',
    updateProductUrl url ctx q = Ok res /\
    newURL res (Some (baseUrl (apiSettings ctx))) = Ok u' /\
    scheme u' = scheme bu /\ host u' = host bu /\
    pathname u' = pathname u /\ fragment u' = None /\
    searchParams u' = (searchParams u ++ parse (appended_query u q))%list /\
    res = pathname u ++ search u'.
Proof.
  intros Hb H Hss.
  pose proof (newURL_wf _ _ _ H) as W.
  rewrite (updateProductUrl_set _ _ _ _ H).
  set (u2 := match search u with
             | String _ _ => set_search u (search u ++ "&" ++ q)
             | EmptyString => set_search u (search u ++ q)
             end).
  assert (W2 : wf_url u2) by (subst u2; destruct (search u); now apply set_search_wf).
  set (qq := match query u2 with Some EmptyString => None | x => x end).
  assert (Hs2 : search u2 = query_part qq).
  { subst qq. unfold search. destruct (query u2) as [[|c r]|]; reflexivity. }
  assert (Hqq : match qq with Some x => outside special_query_set x = true | None => True end).
  { pose proof (wf_query _ W2) as Wq. subst qq.
    destruct (query u2) as [[|c r]|]; try exact I. exact Wq. }
  pose proof (newURL_path_search _ _ (pathname u) qq Hb (wf_path_slash _ W) Hss (wf_path _ W)
                (wf_path_backslash _ W) Hqq) as Hu'.
  exists (pathname u ++ search u2), (mkURL (scheme bu) (host bu) (pathname u) qq None).
  split; [reflexivity|]. rewrite Hs2 at 1. split; [exact Hu'|].
  cbn [scheme host pathname fragment]. repeat (split; [reflexivity|]).
  split.
  - assert (E : searchParams (mkURL (scheme bu) (host bu) (pathname u) qq None)
                = searchParams u2).
    { unfold searchParams. cbn [query]. subst qq.
      destruct (query u2) as [[|c r]|]; reflexivity. }
    rewrite E. subst u2. unfold appended_query.
    destruct (search_cases u) as [[Hs He]|[q0 [Hq0 [Hq Hs]]]].
    + rewrite Hs, He. cbn [append app]. unfold set_search.
      destruct q as [|c r]; [reflexivity|].
      unfold searchParams, with_query. cbn [query]. reflexivity.
    + rewrite Hs. pose proof (wf_query _ W) as Wq. rewrite Hq in Wq.
      destruct q0 as [|c r]; [congruence|].
      unfold set_search. cbn [append]. unfold query_text. rewrite Ascii.eqb_refl.
      change (String c (r ++ String "&" q)) with (String c r ++ String "&" q).
      change (String "&" q) with ("&" ++ q).
      rewrite !stored_query_app, (stored_query_id _ Wq).
      change (stored_query "&") with "&". cbn [append].
      unfold searchParams at 1. unfold with_query. cbn [query].
      change (String c (r ++ String "&" (stored_query q)))
        with (String c r ++ String "&" (stored_query q)).
      rewrite parse_app. unfold searchParams. now rewrite Hq.
  - f_equal. rewrite Hs2. unfold search. cbn [query]. subst qq.
    destruct (query u2) as [[|c r]|]; reflexivity.
Qed.

End ReparseFacts.

Module BaseFacts.
Import Text Percent FormUrlEncoded Url Wf TextFacts PercentFacts FormFacts UrlFacts RoundTrip
  PageUrlFacts UpdateFacts ParamFacts ReparseFacts.

Lemma lower_char_colon (c : ascii) : Ascii.eqb ":" (lower_char c) = true -> c = ":"%char.
Proof. by_byte c. Qed.

Lemma drop_prefix_ci_colon (p s r : string) :
  mem ":" p = true -> drop_prefix_ci p s = Some r -> mem ":" s = true.
Proof.
  revert s. induction p as [|a p IH]; intros s Hp; [discriminate|].
  destruct s as [|b s]; [discriminate|]. cbn [drop_prefix_ci].
  destruct (Ascii.eqb a (lower_char b)) eqn:E; [|discriminate].
  intros H. cbn [mem] in *.
  destruct (Ascii.eqb_spec a ":") as [->|Ha].
  - apply lower_char_colon in E. subst b. reflexivity.
  - cbn [orb] in Hp. rewrite (IH _ Hp H). apply orb_true_r.
Qed.

Lemma take_scheme_colon (p : string) : mem ":" p = false -> take_scheme p = None.
Proof.
  intros H. unfold take_scheme.
  destruct (drop_prefix_ci "https://" p) eqn:E1.
  - apply drop_prefix_ci_colon in E1; [congruence | reflexivity].
  - destruct (drop_prefix_ci "http://" p) eqn:E2; [|reflexivity].
    apply drop_prefix_ci_colon in E2; [congruence | reflexivity].
Qed.

Lemma map_backslash_colon (s : string) :
  mem ":" s = false -> mem ":" (map_chars backslash_to_slash s) = false.
Proof.
  induction s as [|c r IH]; [reflexivity|]. cbn [mem map_chars].
  intros H. apply orb_false_iff in H as [Hc Hr]. rewrite (IH Hr), orb_false_r.
  revert Hc. by_byte c.
Qed.

(** A text without a colon is not an absolute URL. *)
Lemma parse_reference_no_colon (b : string) :
  mem ":" b = false -> exists r, parse_reference b = Relative r.
Proof.
  intros H. unfold parse_reference.
  assert (Hp : mem ":" (ref_path (split_reference (clean_input b))) = false).
  { apply mem_false_all. apply split_reference_spec. unfold clean_input.
    apply remove_chars_keeps, trim_end_keeps, trim_start_keeps. now apply mem_false_all. }
  rewrite (take_scheme_colon _ (map_backslash_colon _ Hp)). eauto.
Qed.

Lemma newURL_no_colon (input b : string) :
  mem ":" b = false -> newURL input (Some b) = Throw invalid_url.
Proof.
  intros H. destruct (parse_reference_no_colon _ H) as [r Hr].
  unfold newURL. now rewrite Hr.
Qed.

Lemma newURL_error (input : string) (base : option string) (e : JSError) :
  newURL input base = Throw e -> e = invalid_url.
Proof.
  unfold newURL.
  repeat match goal with |- context [match ?x with _ => _ end] => destruct x end;
    intros Hx; first [discriminate Hx | now injection Hx as <-].
Qed.

Lemma updateProductUrl_no_colon (url : string) (ctx : ICoreContext) (q : string) :
  mem ":" (baseUrl (apiSettings ctx)) = false ->
  updateProductUrl url ctx q = Throw invalid_url.
Proof. intros H. unfold updateProductUrl. now rewrite (newURL_no_colon _ _ H). Qed.

Lemma appended_param (u : URL) (name value : string) :
  plain_name name = true -> plain_value value = true ->
  parse (appended_query u (name ++ "=" ++ value)) = [(name, value)].
Proof.
  intros Hn Hv. destruct (stored_param _ _ Hn Hv) as [Hne [Hst Hp]].
  unfold appended_query. destruct (search u); [|exact Hp].
  unfold query_text. destruct (name ++ "=" ++ value) as [|c r] eqn:E; [exact Hp|].
  cbn [startsWith] in Hst.
  destruct (Ascii.eqb_spec c "?") as [->|Hc]; [discriminate Hst | exact Hp].
Qed.

Lemma includes_app (a d b : string) : includes (a ++ d ++ b) d = true.
Proof.
  induction a as [|c a IH].
  - cbn [append]. destruct (d ++ b) eqn:E; cbn [includes]; rewrite <- E;
      now rewrite startsWith_app.
  - cbn [append includes]. rewrite IH. apply orb_true_r.
Qed.

(** The text of the URL after a plain parameter was appended: it ends in
    the parameter as the query stores it. *)
Lemma updateProductUrl_param_text (url : string) (ctx : ICoreContext) (name value : string)
    (u : URL) :
  newURL url (Some (baseUrl (apiSettings ctx))) = Ok u ->
  plain_name name = true -> plain_value value = true ->
  exists prefix,
    updateProductUrl url ctx (name ++ "=" ++ value)
    = Ok (prefix ++ stored_query name ++ "=" ++ stored_query value).
Proof.
  intros H Hn Hv. destruct (stored_param _ _ Hn Hv) as [Hne [Hst Hp]].
  assert (E : stored_query (name ++ "=" ++ value)
              = stored_query name ++ "=" ++ stored_query value).
  { now rewrite !stored_query_app. }
  destruct (search_cases u) as [[Hs He]|[q0 [Hq0 [Hq Hs]]]].
  - rewrite (updateProductUrl_started _ _ _ _ H Hs Hst Hne), E.
    exists (pathname u ++ "?"). f_equal. now rewrite append_assoc.
  - rewrite (updateProductUrl_joined _ _ _ _ _ H Hq Hq0), E.
    exists (pathname u ++ "?" ++ q0 ++ "&"). f_equal.
    rewrite !append_assoc. reflexivity.
Qed.

End BaseFacts.

(** ** The fragment of the URL model *)

Module FragmentFacts.
Import Text Percent FormUrlEncoded Url Wf Fragment.
Import TextFacts PercentFacts FormFacts UrlFacts RoundTrip PageUrlFacts UpdateFacts ParamFacts.
Import ReparseFacts.

Lemma recognised_absolute (s : string) (u : URL) :
  parse_reference s = Absolute u -> recognised s = true.
Proof.
  unfold parse_reference, recognised.
  destruct (take_scheme _) as [[sch rest]|]; [reflexivity|discriminate].
Qed.

(** What [supported] says of a text that parses against its base. *)
Lemma supported_parts (input b : string) (u : URL) :
  supported input (Some b) = true -> newURL input (Some b) = Ok u ->
  exists bu, parse_reference b = Absolute bu /\ recognised b = true /\ simple bu = true
             /\ simple u = true.
Proof.
  intros S H. destruct (newURL_base _ _ _ H) as [bu Hb]. exists bu.
  unfold supported in S. rewrite H, Hb in S.
  apply andb_true_iff in S as [S Hu]. apply andb_true_iff in S as [_ S].
  apply andb_true_iff in S as [Rb Sb]. auto.
Qed.

Lemma simple_set_search (u : URL) (v : string) : simple (set_search u v) = simple u.
Proof. unfold set_search. destruct v; reflexivity. Qed.

Lemma simple_delete (u : URL) (name : string) : simple (searchParams_delete u name) = simple u.
Proof. unfold searchParams_delete. destruct (serialize _); reflexivity. Qed.

(** The serialization of a URL of the fragment is in the fragment. *)
Lemma supported_href (u bu : URL) (b : string) :
  wf_url u -> simple u = true ->
  parse_reference b = Absolute bu -> recognised b = true -> simple bu = true ->
  supported (href u) (Some b) = true.
Proof.
  intros W Su Hb Rb Sb. unfold supported.
  rewrite (recognised_absolute _ _ (parse_href _ W)), Rb, Hb, Sb.
  now rewrite (newURL_href_base _ _ _ W Hb), Su.
Qed.

(** So is a path of the fragment with a query, read against a base of the
    fragment. *)
Lemma supported_path_search (b : string) (bu : URL) (path : string) (q : option string) :
  parse_reference b = Absolute bu -> recognised b = true -> simple bu = true ->
  (exists t, path = String "/" t) -> startsWith path "//" = false ->
  outside path_set path = true -> mem "\" path = false ->
  match q with Some x => outside special_query_set x = true | None => True end ->
  no_dot_segments path = true ->
  supported (path ++ query_part q) (Some b) = true.
Proof.
  intros Hb Rb Sb [t Ht] Hss Hp Hbs Hq Hdots.
  pose proof (newURL_path_search b bu path q Hb (ex_intro _ t Ht) Hss Hp Hbs Hq) as H.
  unfold supported. rewrite H, Rb, Hb, Sb. cbn [andb].
  assert (R : recognised (path ++ query_part q) = true).
  { unfold recognised.
    assert (Hplain : forall p, (forall c, negb (path_set c) = true -> negb (p c) = true) ->
              (forall c, negb (special_query_set c) = true -> negb (p c) = true) ->
              p "?"%char = false -> outside p (path ++ query_part q) = true).
    { intros p H1 H2 H3. rewrite outside_app. apply andb_true_iff. split.
      - eapply all_chars_impl; [exact H1 | exact Hp].
      - destruct q as [x|]; [|reflexivity]. unfold outside. simpl. rewrite H3. simpl.
        eapply all_chars_impl; [exact H2 | exact Hq]. }
    assert (Hc : clean_input (path ++ query_part q) = path ++ query_part q).
    { apply clean_input_id; apply Hplain; try reflexivity;
        intros c Hc; first [now apply outside_path_plain in Hc
                           | now apply outside_query_plain in Hc]. }
    assert (Hr : split_reference (path ++ query_part q) = mkReference path q None).
    { pose proof (split_reference_build path q None) as B. simpl in B.
      rewrite append_nil_r in B. apply B.
      - eapply (outside_not_mem path_set); [|exact Hp].
        intros d Hd. now apply outside_path_plain in Hd.
      - eapply (outside_not_mem path_set); [|exact Hp].
        intros d Hd. now apply outside_path_plain in Hd.
      - destruct q as [x|]; [|exact I].
        eapply (outside_not_mem special_query_set); [|exact Hq].
        intros d Hd. now apply outside_query_plain in Hd. }
    rewrite Hc, Hr. cbn [ref_path]. rewrite (map_backslash_id _ Hbs), Ht, take_scheme_slash.
    reflexivity. }
  rewrite R. cbn [andb]. unfold simple. cbn [host pathname].
  rewrite Hdots, andb_true_r. unfold simple in Sb. now apply andb_true_iff in Sb.
Qed.

(** The URL that [updateProductUrl] returns stays in the fragment. *)
Lemma updateProductUrl_supported (url : string) (ctx : ICoreContext) (q res : string)
    (u : URL) :
  supported url (Some (baseUrl (apiSettings ctx))) = true ->
  newURL url (Some (baseUrl (apiSettings ctx))) = Ok u ->
  startsWith (pathname u) "//" = false ->
  updateProductUrl url ctx q = Ok res ->
  supported res (Some (baseUrl (apiSettings ctx))) = true.
Proof.
  intros S H Hss Hres.
  destruct (supported_parts _ _ _ S H) as [bu [Hb [Rb [Sb Su]]]].
  pose proof (newURL_wf _ _ _ H) as W.
  rewrite (updateProductUrl_set _ _ _ _ H) in Hres. injection Hres as <-.
  match goal with |- supported (pathname u ++ search ?x) _ = true => set (u2 := x) end.
  assert (W2 : wf_url u2) by (subst u2; destruct (search u); now apply set_search_wf).
  set (qq := match query u2 with Some EmptyString => None | x => x end).
  assert (Hs2 : search u2 = query_part qq).
  { subst qq. unfold search. destruct (query u2) as [[|c r]|]; reflexivity. }
  assert (Hqq : match qq with Some x => outside special_query_set x = true | None => True end).
  { pose proof (wf_query _ W2) as Wq. subst qq.
    destruct (query u2) as [[|c r]|]; try exact I. exact Wq. }
  rewrite Hs2.
  apply (supported_path_search _ bu); try assumption.
  - exact (wf_path_slash _ W).
  - exact (wf_path _ W).
  - exact (wf_path_backslash _ W).
  - unfold simple in Su. now apply andb_true_iff in Su.
Qed.

End FragmentFacts.

(** ** The page URL for a swatch *)

Module SelectFacts.
Import Text Percent FormUrlEncoded Url Wf Fragment JS.
Import TextFacts PercentFacts FormFacts UrlFacts RoundTrip PageUrlFacts UpdateFacts ParamFacts.
Import ReparseFacts BaseFacts FragmentFacts.

Lemma searchParams_delete_pathname (u : URL) (name : string) :
  pathname (searchParams_delete u name) = pathname u.
Proof. unfold searchParams_delete. now destruct (serialize _). Qed.

(** The page URL made for a swatch with a plain dimension name and a plain
    value, read against the base. *)
Lemma productPageUrlWithSwatch_reparse (props : IProductComponentProps) (st : State)
    (coreContext : ICoreContext) (swatchItem : SwatchItem.t) (u : URL) :
  let base := baseUrl (apiSettings (context props)) in
  let dimension := SwatchItem.dimensionType swatchItem in
  let value := SwatchItem.value swatchItem in
  baseUrl (apiSettings coreContext) = base ->
  newURL (productPageUrl st) (Some base) = Ok u ->
  startsWith (pathname u) "//" = false ->
  plain_name dimension = true -> plain_value value = true ->
  exists res u' prefix,
    productPageUrlWithSwatch props st coreContext swatchItem = Ok res /\
    newURL res (Some base) = Ok u' /\
    pathname u' = pathname u /\
    searchParams u'
    = ((if includes (productPageUrl st) dimension
        then filter (fun t => negb (String.eqb (fst t) dimension)) (searchParams u)
        else searchParams u) ++ [(dimension, value)])%list /\
    res = prefix ++ stored_query dimension ++ "=" ++ stored_query value /\
    res = pathname u' ++ search u'.
Proof.
  intros base dimension value Hbase H Hss Hn Hv.
  destruct (newURL_base _ _ _ H) as [bu Hb].
  pose proof (newURL_wf _ _ _ H) as W.
  unfold productPageUrlWithSwatch. fold dimension. fold value. rewrite Hbase. fold base.
  destruct (includes (productPageUrl st) dimension) eqn:Einc.
  - rewrite H. cbn [bind].
    pose proof (searchParams_delete_wf _ dimension W) as Wd.
    pose proof (newURL_href_base _ _ _ Wd Hb) as Hd.
    assert (Hss' : startsWith (pathname (searchParams_delete u dimension)) "//" = false)
      by now rewrite searchParams_delete_pathname.
    destruct (updateProductUrl_reparse _ (context props) (dimension ++ "=" ++ value) _ _
                Hb Hd Hss') as [res [u' [Hres [Hu' [_ [_ [Hp [_ [Hs Hnf]]]]]]]]].
    destruct (updateProductUrl_param_text _ (context props) _ _ _ Hd Hn Hv) as [prefix Ht].
    rewrite Hres in Ht. injection Ht as Ht.
    exists res, u', prefix. rewrite Hres. split; [reflexivity|]. split; [exact Hu'|].
    split; [now rewrite Hp, searchParams_delete_pathname|].
    split; [|split; [exact Ht | now rewrite Hp]].
    now rewrite Hs, searchParams_delete_params, appended_param.
  - destruct (updateProductUrl_reparse _ (context props) (dimension ++ "=" ++ value) _ _
                Hb H Hss) as [res [u' [Hres [Hu' [_ [_ [Hp [_ [Hs Hnf]]]]]]]]].
    destruct (updateProductUrl_param_text _ (context props) _ _ _ H Hn Hv) as [prefix Ht].
    rewrite Hres in Ht. injection Ht as Ht.
    exists res, u', prefix. rewrite Hres. split; [reflexivity|]. split; [exact Hu'|].
    split; [exact Hp|]. split; [|split; [exact Ht | now rewrite Hp]].
    now rewrite Hs, appended_param.
Qed.

(** The page URL made for a swatch stays in the fragment. *)
Lemma productPageUrlWithSwatch_supported (props : IProductComponentProps) (st : State)
    (coreContext : ICoreContext) (swatchItem : SwatchItem.t) (u : URL) (res : string) :
  let base := baseUrl (apiSettings (context props)) in
  baseUrl (apiSettings coreContext) = base ->
  supported (productPageUrl st) (Some base) = true ->
  newURL (productPageUrl st) (Some base) = Ok u ->
  startsWith (pathname u) "//" = false ->
  productPageUrlWithSwatch props st coreContext swatchItem = Ok res ->
  supported res (Some base) = true.
Proof.
  intros base Hbase S H Hss. unfold productPageUrlWithSwatch. rewrite Hbase. fold base.
  destruct (includes _ _).
  - rewrite H. cbn [bind].
    destruct (supported_parts _ _ _ S H) as [bu [Hb [Rb [Sb Su]]]].
    pose proof (searchParams_delete_wf _ (SwatchItem.dimensionType swatchItem)
                  (newURL_wf _ _ _ H)) as Wd.
    set (ud := searchParams_delete u (SwatchItem.dimensionType swatchItem)) in *.
    assert (Sd : simple ud = true) by (subst ud; now rewrite simple_delete).
    intros Hres.
    eapply (updateProductUrl_supported (href ud) (context props) _ res ud);
      [ | | | exact Hres].
    + now apply (supported_href _ bu).
    + now apply (newURL_href_base _ bu).
    + subst ud. now rewrite searchParams_delete_pathname.
  - intros Hres. now apply (updateProductUrl_supported _ _ _ _ _ S H Hss Hres).
Qed.

Lemma getAll_own (name value : string) : getAll name [(name, value)] = [value].
Proof. unfold getAll. simpl. now rewrite String.eqb_refl. Qed.

Lemma getAll_foreign (name other value : string) :
  other <> name -> getAll other [(name, value)] = [].
Proof.
  intros Hne. unfold getAll. simpl.
  destruct (String.eqb_spec name other); [congruence | reflexivity].
Qed.

(** Without an absolute base the page URL for a swatch cannot be made. *)
Lemma productPageUrlWithSwatch_no_colon (props : IProductComponentProps) (st : State)
    (coreContext : ICoreContext) (swatchItem : SwatchItem.t) :
  mem ":" (baseUrl (apiSettings (context props))) = false ->
  productPageUrlWithSwatch props st coreContext swatchItem = Throw invalid_url.
Proof.
  intros H. unfold productPageUrlWithSwatch.
  destruct (includes _ _).
  - destruct (newURL (productPageUrl st) _) as [v|e] eqn:E; cbn [bind].
    + now apply updateProductUrl_no_colon.
    + now rewrite (newURL_error _ _ _ E).
  - now apply updateProductUrl_no_colon.
Qed.

End SelectFacts.

(** * The claims *)

Section PageUrlClaims.
Import Text Percent FormUrlEncoded Url Wf Fragment JS.
Import TextFacts PercentFacts FormFacts UrlFacts RoundTrip PageUrlFacts UpdateFacts ParamFacts.
Import ReparseFacts BaseFacts FragmentFacts SelectFacts.



Lemma updatePageAndImageUrl_done
    (generateImageUrl : option string -> ApiSettings -> option string)
    (props : IProductComponentProps) (st : State) (coreContext : ICoreContext)
    (swatchItem : SwatchItem.t) (url : string) :
  isNullOrWhitespace (Some (SwatchItem.value swatchItem)) = false ->
  productPageUrlWithSwatch props st coreContext swatchItem = Ok url ->
  exists st',
    updatePageAndImageUrl generateImageUrl props st coreContext swatchItem = Done st' /\
    productPageUrl st' = url /\
    productImageUrl st'
    = if String.eqb (SwatchItem.dimensionType swatchItem) DimensionTypes.color
      then generateImageUrl
             (match SwatchItem.productImageUrls swatchItem with
              | Some (first :: _) => Some first
              | _ => None
              end) (apiSettings coreContext)
      else productImageUrl st.
Proof.
  intros Hblank Hurl. unfold updatePageAndImageUrl. rewrite Hblank.
  replace (productPageUrlWithSwatch props
             (mkState (productPageUrl st) (productImageUrl st)
                (Dictionary.setValue (SwatchItem.dimensionType swatchItem) swatchItem
                   (selectedSwatchItems st))) coreContext swatchItem)
    with (productPageUrlWithSwatch props st coreContext swatchItem) by reflexivity.
  rewrite Hurl.
  destruct (String.eqb (SwatchItem.dimensionType swatchItem) DimensionTypes.color);
    eexists; (split; [reflexivity|]); split; reflexivity.
Qed.



End PageUrlClaims.



Section SwatchClaims.
Import Text Url JS.

Variable generateImageUrl : option string -> ApiSettings -> option string.

(** C6.  A swatch of a dimension other than color leaves the image URL of
    the card as it was, whatever the outcome of the call; when the call
    for a color swatch whose value is not blank completes, the image URL is
    the one generated from the first product image URL of the swatch. *)
Theorem non_color_swatch_keeps_image (props : IProductComponentProps) (st : State)
    (coreContext : ICoreContext) (swatchItem : SwatchItem.t) :
  (SwatchItem.dimensionType swatchItem <> DimensionTypes.color ->
   productImageUrl (state_of (updatePageAndImageUrl generateImageUrl props st coreContext
                                swatchItem))
   = productImageUrl st) /\
  (forall st',
     SwatchItem.dimensionType swatchItem = DimensionTypes.color ->
     isNullOrWhitespace (Some (SwatchItem.value swatchItem)) = false ->
     updatePageAndImageUrl generateImageUrl props st coreContext swatchItem = Done st' ->
     productImageUrl st'
     = generateImageUrl
         (match SwatchItem.productImageUrls swatchItem with
          | Some (first :: _) => Some first
          | _ => None
          end) (apiSettings coreContext)).
Proof.
  split.
  - intros Hne. unfold updatePageAndImageUrl.
    destruct (isNullOrWhitespace _); [reflexivity|].
    destruct (productPageUrlWithSwatch _ _ _ _); [|reflexivity].
    destruct (String.eqb_spec (SwatchItem.dimensionType swatchItem) DimensionTypes.color);
      [contradiction | reflexivity].
  - intros st' Hc Hblank. unfold updatePageAndImageUrl. rewrite Hblank.
    destruct (productPageUrlWithSwatch _ _ _ _); [|discriminate].
    rewrite Hc. cbn. intros [= <-]. reflexivity.
Qed.

End SwatchClaims.

Lemma non_color_swatch_keeps_image_witness :
  productImageUrl
    (state_of (updatePageAndImageUrl Sample.generateImageUrl (Sample.props None None)
                 (Sample.state "/shirt/123.p?color=Red") Sample.coreContext
                 (Sample.swatch "size" "M" (Some ["/images/shirt-m.png"]))))
  = Some "/images/shirt.png"
  /\
  productImageUrl
    (mkState "/shirt/123.p?color=Blue" (Some "https://images.example//images/blue.png")
       [("color", Sample.swatch "color" "Blue" (Some ["/images/blue.png"]))])
  = Sample.generateImageUrl (Some "/images/blue.png") Sample.api.
Proof.
  split.
  - refine (proj1 (non_color_swatch_keeps_image Sample.generateImageUrl
                     (Sample.props None None) (Sample.state "/shirt/123.p?color=Red")
                     Sample.coreContext
                     (Sample.swatch "size" "M" (Some ["/images/shirt-m.png"]))) _).
    discriminate.
  - refine (proj2 (non_color_swatch_keeps_image Sample.generateImageUrl
                     (Sample.props None None) (Sample.state "/shirt/123.p?color=Red")
                     Sample.coreContext
                     (Sample.swatch "color" "Blue" (Some ["/images/blue.png"]))) _ _ _ _);
      reflexivity.
Defined.

Section RenderClaims.
Import Text Url JS.

Variable Payload : Type.
Variable getProductPageUrlSync : string -> Z -> string.
Variable generateImageUrl : option string -> ApiSettings -> option string.
Variable checkIfShouldDisplayAsSwatch : string -> ICoreContext -> bool.
Variable convertDimensionTypeToProductDimensionType : string -> Z.
Variable format : string -> list string -> string.
Variable toFixed : float -> Z -> string.
Variable numberToString : float -> string.
Variable stringToNumber : string -> float.
Variable formatCurrency : float -> string.
Variable getPayloadObject : string -> option ITelemetryContent -> string -> string -> Payload.
Variable getTelemetryAttributes : option ITelemetryContent -> Payload -> list (string * string).

Variable props : IProductComponentProps.

(** The functions of the card, over these platform functions and props. *)
Local Abbreviation render_rating :=
  (renderRating format toFixed numberToString stringToNumber props) (only parsing).
Local Abbreviation rating_label := (getRatingAriaLabel format toFixed) (only parsing).
Local Abbreviation review_label := (getReviewAriaLabel format numberToString) (only parsing).
Local Abbreviation initial_state :=
  (initialState getProductPageUrlSync generateImageUrl props) (only parsing).
Local Abbreviation product_card :=
  (ProductCard Payload getProductPageUrlSync generateImageUrl checkIfShouldDisplayAsSwatch
     convertDimensionTypeToProductDimensionType format toFixed numberToString stringToNumber
     formatCurrency getPayloadObject getTelemetryAttributes props) (only parsing).

(** C1, as amended.  The sub-renderers for the unit of measure, the
    availability label and the rating return no element when their input
    is absent or empty (for the rating: absent, zero or not a number).  The
    description and the price sub-renderers return an element for every
    input: a paragraph, empty when the description is absent, and a price
    component, over absent prices when the prices are absent.  All five
    are functions of their arguments and of the props alone. *)
Theorem sub_renderers_on_absent_input :
  (forall unitOfMeasure,
     unitOfMeasure = None \/ unitOfMeasure = Some EmptyString ->
     renderProductUnitOfMeasure unitOfMeasure = None) /\
  (forall inventoryAvailabilityLabel,
     inventoryAvailabilityLabel = None \/ inventoryAvailabilityLabel = Some EmptyString ->
     renderProductAvailability inventoryAvailabilityLabel = None) /\
  (forall coreContext moduleTypeName moduleId avgRating totalRatings ariaLabel,
     truthy_number avgRating = false ->
     render_rating coreContext moduleTypeName moduleId avgRating totalRatings ariaLabel = None) /\
  (forall description,
     renderDescription description
     = Some (Tag "p" "msc-product__text" [option_map Text description])) /\
  (forall coreContext moduleTypeName moduleId basePrice adjustedPrice maxVariantPrice
          minVariantPrice savings free original current,
     exists priceProps,
       renderPrice props coreContext moduleTypeName moduleId basePrice adjustedPrice
         maxVariantPrice minVariantPrice savings free original current
       = Some (PriceComponent priceProps) /\
       ProductPrice.BasePrice (PriceProps.price priceProps) = basePrice /\
       ProductPrice.AdjustedPrice (PriceProps.price priceProps) = adjustedPrice).
Proof.
  repeat apply conj.
  - intros u [->| ->]; reflexivity.
  - intros l [->| ->]; reflexivity.
  - intros ctx t i avg total aria H. unfold renderRating.
    destruct avg as [x|]; [|reflexivity].
    simpl in H. now rewrite H.
  - reflexivity.
  - intros. eexists. split; [reflexivity|]. split; reflexivity.
Qed.

(** C9.  When the average rating of the product is absent or zero, the
    rating sub-renderer returns no element. *)
Theorem renderRating_without_rating (coreContext : ICoreContext)
    (moduleTypeName moduleId : string) (avgRating totalRatings : option float)
    (ariaLabel : option string) :
  avgRating = None \/ (exists x, avgRating = Some x /\ is_zero x = true) ->
  render_rating coreContext moduleTypeName moduleId avgRating totalRatings ariaLabel = None.
Proof.
  unfold renderRating.
  intros [->|[x [-> Hx]]]; [reflexivity|].
  unfold truthy_float. now rewrite Hx.
Qed.

(** C8.  The rating label is the empty text unless both a rating and a
    label template are given, and so is the review label unless both a
    review count and a label template are given; in particular a review
    count without a template gives the empty text.  When the rating, or the
    count, is a number other than zero and the template is not empty, the
    label is the template filled with the rating to two decimals and [5],
    or with the count. *)
Theorem aria_labels_need_both_inputs :
  (forall rating text,
     rating_label rating text <> EmptyString ->
     exists r t, rating = Some r /\ text = Some t /\ truthy_float r = true
                 /\ t <> EmptyString
                 /\ rating_label rating text = format t [toFixed r 2; "5"]) /\
  (forall reviewCount text,
     review_label reviewCount text <> EmptyString ->
     exists n t, reviewCount = Some n /\ text = Some t /\ truthy_float n = true
                 /\ t <> EmptyString
                 /\ review_label reviewCount text = format t [numberToString n]) /\
  (forall rating text,
     rating = None \/ text = None -> rating_label rating text = EmptyString) /\
  (forall reviewCount text,
     reviewCount = None \/ text = None -> review_label reviewCount text = EmptyString) /\
  (forall r t,
     truthy_float r = true -> t <> EmptyString ->
     rating_label (Some r) (Some t) = format t [toFixed r 2; "5"]) /\
  (forall n t,
     truthy_float n = true -> t <> EmptyString ->
     review_label (Some n) (Some t) = format t [numberToString n]).
Proof.
  unfold getRatingAriaLabel, getReviewAriaLabel.
  repeat apply conj.
  - intros [r|] [t|] H; try congruence.
    destruct (truthy_float r) eqn:Er; [|simpl in H; congruence].
    destruct t as [|c t]; [simpl in H; congruence|].
    exists r, (String c t). repeat split; congruence.
  - intros [n|] [t|] H; try congruence.
    destruct (truthy_float n) eqn:En; [|simpl in H; congruence].
    destruct t as [|c t]; [simpl in H; congruence|].
    exists n, (String c t). repeat split; congruence.
  - intros rating text [->| ->]; [reflexivity | now destruct rating].
  - intros count text [->| ->]; [reflexivity | now destruct count].
  - intros r t Hr Ht. rewrite Hr. destruct t; [congruence | reflexivity].
  - intros n t Hn Ht. rewrite Hn. destruct t; [congruence | reflexivity].
Qed.

Lemma initialState_without_product :
  data_product props = None -> initial_state = Ok (mkState EmptyString None []).
Proof.
  intros H.
  unfold initialState, productImageUrlFromSwatch,
    getProductImageUrlFromDefaultColorSwatch, getProductPageUrlFromDefaultSwatch.
  rewrite H. rewrite andb_false_r. cbn [bind].
  destruct (String.eqb _ DimensionTypes.none); reflexivity.
Qed.

(** C7.  When the product is absent the card renders nothing, whatever the
    configuration and whether or not the card is already mounted. *)
Theorem ProductCard_without_product (hooks : option State) :
  data_product props = None ->
  product_card hooks
  = Ok (match hooks with Some s => s | None => mkState EmptyString None [] end, None).
Proof.
  intros H. unfold ProductCard.
  rewrite (initialState_without_product H). cbn [bind]. now rewrite H.
Qed.


Lemma find_first {A : Type} (f : A -> bool) (l : list A) (x : A) :
  List.find f l = Some x ->
  f x = true /\
  exists before after, l = (before ++ x :: after)%list
                       /\ forallb (fun y => negb (f y)) before = true.
Proof.
  induction l as [|y r IH]; simpl; [discriminate|].
  destruct (f y) eqn:E.
  - intros [= <-]. split; [exact E|]. exists [], r. split; reflexivity.
  - intros H. destruct (IH H) as [Hx [before [after [-> Hb]]]].
    split; [exact Hx|]. exists (y :: before), after. simpl. now rewrite E, Hb.
Qed.

Lemma find_absent {A : Type} (f : A -> bool) (l : list A) :
  List.find f l = None -> forallb (fun y => negb (f y)) l = true.
Proof.
  induction l as [|y r IH]; simpl; [reflexivity|].
  destruct (f y); [discriminate|]. exact IH.
Qed.

(** C3, as amended.  The swatch the card starts from is the first swatch
    of the color attribute that is marked default, or the first swatch of
    the color attribute when none is marked.  With pre-selection enabled,
    the image the card starts with is generated from the first product
    image URL of that swatch when the swatch has product image URLs (the
    primary image of the product when the generator gives nothing).  It is
    the primary image of the product when the swatch has no product image
    URLs, when pre-selection is off, and when the product has no color
    attribute with swatches. *)
Theorem initial_image_from_default_swatch :
  let product := data_product props in
  let preselect := dimensionToPreSelectInProductCard (config (context props)) in
  let image := productImageUrlFromSwatch generateImageUrl props in
  (forall p attributes colorAttribute first rest,
     product = Some p ->
     ProductSearchResult.AttributeValues p = Some attributes ->
     List.find isColorAttribute attributes = Some colorAttribute ->
     AttributeValue.Swatches colorAttribute = Some (first :: rest) ->
     exists swatch,
       getDefaultColorSwatchSelected product = Some swatch /\
       ((isDefaultSwatch swatch = true /\
         exists before after,
           first :: rest = (before ++ swatch :: after)%list /\
           forallb (fun s => negb (isDefaultSwatch s)) before = true) \/
        (forallb (fun s => negb (isDefaultSwatch s)) (first :: rest) = true /\
         swatch = first))) /\
  (forall swatch first rest,
     preselect <> DimensionTypes.none ->
     getDefaultColorSwatchSelected product = Some swatch ->
     AttributeSwatch.ProductImageUrls swatch = Some (first :: rest) ->
     image = match generateImageUrl (Some first) (apiSettings (context props)) with
             | Some url => Some url
             | None => PrimaryImageUrl_of product
             end) /\
  (forall swatch,
     getDefaultColorSwatchSelected product = Some swatch ->
     hasElements (AttributeSwatch.ProductImageUrls swatch) = false ->
     image = PrimaryImageUrl_of product) /\
  (preselect = DimensionTypes.none -> image = PrimaryImageUrl_of product) /\
  (getDefaultColorSwatchSelected product = None -> image = PrimaryImageUrl_of product) /\
  (forall p,
     product = Some p ->
     match ProductSearchResult.AttributeValues p with
     | Some attributes =>
         match List.find isColorAttribute attributes with
         | Some colorAttribute => hasElements (AttributeValue.Swatches colorAttribute) = false
         | None => True
         end
     | None => True
     end ->
     getDefaultColorSwatchSelected product = None) /\
  (forall st, initial_state = Ok st -> productImageUrl st = image).
Proof.
  intros product preselect image. subst image.
  unfold productImageUrlFromSwatch, getProductImageUrlFromDefaultColorSwatch.
  fold product. fold preselect.
  repeat apply conj.
  - intros p attributes colorAttribute first rest Hp Ha Hc Hs.
    rewrite Hp. unfold getDefaultColorSwatchSelected, find. rewrite Ha, Hc, Hs.
    destruct (List.find isDefaultSwatch (first :: rest)) as [d|] eqn:Ed.
    + exists d. split; [reflexivity|]. left.
      destruct (find_first _ _ _ Ed) as [Hd Hb]. auto.
    + exists first. split; [reflexivity|]. right.
      split; [now apply find_absent | reflexivity].
  - intros swatch first rest Hpre Hsw Himg.
    destruct (String.eqb_spec preselect DimensionTypes.none) as [E|_]; [contradiction|].
    now rewrite Hsw, Himg.
  - intros swatch Hsw Himg.
    destruct (String.eqb preselect DimensionTypes.none);
      [now destruct (PrimaryImageUrl_of product)|].
    rewrite Hsw.
    destruct (AttributeSwatch.ProductImageUrls swatch) as [[|x r]|];
      try discriminate; now destruct (PrimaryImageUrl_of product).
  - intros ->. rewrite String.eqb_refl. now destruct (PrimaryImageUrl_of product).
  - intros ->. destruct (String.eqb preselect DimensionTypes.none);
      now destruct (PrimaryImageUrl_of product).
  - intros p Hp. rewrite Hp. unfold getDefaultColorSwatchSelected, find.
    destruct (ProductSearchResult.AttributeValues p) as [attributes|]; [|reflexivity].
    destruct (List.find isColorAttribute attributes) as [c|]; [|reflexivity].
    destruct (AttributeValue.Swatches c) as [[|x r]|]; try reflexivity. discriminate.
  - intros st. unfold initialState.
    match goal with |- context [bind ?c _] => destruct c as [url|e] end;
      cbn [bind]; [|discriminate].
    match goal with |- context [bind ?c _] => destruct c as [o|e] end;
      cbn [bind]; [|discriminate].
    intros [= <-]. reflexivity.
Qed.

Lemma validValues_in {A : Type} (l : list (option A)) (x : A) :
  In x (validValues (Some l)) -> In (Some x) l.
Proof.
  unfold validValues. rewrite in_flat_map. intros [[y|] [Hy Hx]]; simpl in Hx.
  - destruct Hx as [<-|[]]. exact Hy.
  - destruct Hx.
Qed.

Lemma mark_first_default_dimension (l : list SwatchItem.t) (s : SwatchItem.t) :
  In s (mark_first_default l) ->
  exists s0, In s0 l /\ SwatchItem.dimensionType s0 = SwatchItem.dimensionType s.
Proof.
  destruct l as [|x r]; simpl; [tauto|].
  intros [<-|H]; [exists x | exists s]; auto.
Qed.

(** C10.  Under pre-selection, a swatch group of the color dimension that
    is not empty contains a swatch whose default flag is set.  It is put
    there when the attribute marks none: then the first swatch of the group
    is the first swatch of the attribute with the flag set, and the others
    are as the attribute gives them. *)
Theorem color_swatches_contain_default :
  let preselect := dimensionToPreSelectInProductCard (config (context props)) in
  (forall product group swatch,
     In group (swatchItems checkIfShouldDisplayAsSwatch format props product) ->
     preselect <> DimensionTypes.none ->
     In swatch (swatches group) ->
     SwatchItem.dimensionType swatch = DimensionTypes.color ->
     exists marked, In marked (swatches group) /\ SwatchItem.isDefault marked = Some true) /\
  (forall item group first rest,
     swatchGroup checkIfShouldDisplayAsSwatch format props item = Some group ->
     preselect <> DimensionTypes.none ->
     isColorAttribute item = true ->
     AttributeValue.Swatches item = Some (first :: rest) ->
     forallb (fun s => negb (truthy_bool (AttributeSwatch.IsDefault s))) (first :: rest) = true ->
     swatches group
     = SwatchItem.with_isDefault (toSwatchItem format props item DimensionTypes.color first)
         (Some true)
       :: map (toSwatchItem format props item DimensionTypes.color) rest).
Proof.
  intros preselect. split.
  - intros product group swatch Hg Hpre Hs Hc.
    unfold swatchItems in Hg.
    destruct (ProductSearchResult.AttributeValues product) as [attributes|];
      [|destruct Hg].
    apply validValues_in in Hg. apply in_map_iff in Hg as [item [Hitem _]].
    unfold swatchGroup in Hitem. fold preselect in Hitem.
    destruct (negb (checkIfShouldDisplayAsSwatch _ _)); [discriminate|].
    injection Hitem as <-. cbn [swatches] in *.
    set (key := match AttributeValue.KeyName item with
                | Some k => toLocaleLowerCase k
                | None => EmptyString
                end) in *.
    set (l := match AttributeValue.Swatches item with
              | Some l => map (toSwatchItem format props item key) l
              | None => []
              end) in *.
    assert (Hdim : forall s, In s l -> SwatchItem.dimensionType s = key).
    { intros s. subst l. destruct (AttributeValue.Swatches item); [|intros []].
      intros H. apply in_map_iff in H as [x [<- _]]. reflexivity. }
    match type of Hs with In _ (if ?c then _ else _) => destruct c eqn:E end.
    + destruct l as [|x r]; [destruct Hs|].
      eexists. split; [left; reflexivity | reflexivity].
    + pose proof (Hdim _ Hs) as Hkey. rewrite Hc in Hkey. rewrite <- Hkey in E.
      destruct (String.eqb_spec preselect DimensionTypes.none) as [|_]; [contradiction|].
      destruct l as [|x r]; [destruct Hs|].
      rewrite String.eqb_refl in E. cbn [negb andb] in E. rewrite andb_true_r in E.
      apply negb_false_iff in E. unfold some in E.
      apply existsb_exists in E as [m [Hm Ht]].
      exists m. split; [exact Hm|].
      destruct (SwatchItem.isDefault m) as [[|]|]; try discriminate. reflexivity.
  - intros item group first rest Hg Hpre Hc Hs Hnone.
    unfold swatchGroup in Hg. fold preselect in Hg.
    destruct (negb (checkIfShouldDisplayAsSwatch _ _)); [discriminate|].
    injection Hg as <-. cbn [swatches].
    unfold isColorAttribute in Hc.
    destruct (AttributeValue.KeyName item) as [k|]; [|discriminate].
    apply String.eqb_eq in Hc. rewrite Hc, Hs, String.eqb_refl.
    destruct (String.eqb_spec preselect DimensionTypes.none) as [|_]; [contradiction|].
    cbn [map hasElements negb andb].
    assert (Hsome : some (fun s => truthy_bool (SwatchItem.isDefault s))
                      (toSwatchItem format props item DimensionTypes.color first
                       :: map (toSwatchItem format props item DimensionTypes.color) rest)
                    = false).
    { change (some (fun s => truthy_bool (SwatchItem.isDefault s))
                (map (toSwatchItem format props item DimensionTypes.color) (first :: rest))
              = false).
      unfold some. clear Hs. induction (first :: rest) as [|x r IH]; [reflexivity|].
      simpl in Hnone. apply andb_true_iff in Hnone as [Hx Hr].
      simpl. rewrite (IH Hr), orb_false_r. now apply negb_true_iff in Hx. }
    rewrite Hsome. reflexivity.
Qed.

End RenderClaims.

(** C1, as stated, fails for the description and for the price: with no
    description the paragraph is still returned, and with no price the
    price component. *)
Lemma description_and_price_render_absent_input :
  renderDescription None = Some (Tag "p" "msc-product__text" [None]) /\
  renderDescription None <> None /\
  renderPrice (Sample.props None None) Sample.coreContext "product" "card-1"
    None None None None None None None None
  = Some (PriceComponent
            (PriceProps.mk "card-1" "product" (ProductPrice.mk None None None None None)
               None None None None None None)).
Proof. repeat split. discriminate. Qed.

Lemma sub_renderers_on_absent_input_witness :
  renderProductUnitOfMeasure None = None /\
  renderProductAvailability (Some EmptyString) = None /\
  renderRating Sample.format Sample.toFixed Sample.numberToString Sample.stringToNumber
    (Sample.props None None) Sample.coreContext "product" "card-1" (Some 0%float) None None
  = None.
Proof.
  destruct (sub_renderers_on_absent_input Sample.format Sample.toFixed Sample.numberToString
              Sample.stringToNumber (Sample.props None None)) as [A [B [C _]]].
  split; [|split].
  - apply A. left. reflexivity.
  - apply B. right. reflexivity.
  - apply C. reflexivity.
Defined.

Lemma renderRating_without_rating_witness :
  renderRating Sample.format Sample.toFixed Sample.numberToString Sample.stringToNumber
    (Sample.props (Some Sample.shirt) None) Sample.coreContext "product" "card-1"
    (Some 0%float) (Some 12%float) (Some "{0} of {1} stars")
  = None.
Proof.
  apply renderRating_without_rating. right. exists 0%float. split; reflexivity.
Defined.

Lemma aria_labels_need_both_inputs_witness :
  getReviewAriaLabel Sample.format Sample.numberToString (Some 12%float) None = EmptyString /\
  getRatingAriaLabel Sample.format Sample.toFixed (Some 4.5%float) (Some "{0} of {1} stars")
  = Sample.format "{0} of {1} stars" ["4.50"; "5"].
Proof.
  destruct (aria_labels_need_both_inputs Sample.format Sample.toFixed Sample.numberToString)
    as [_ [_ [_ [B [C _]]]]].
  split.
  - apply B. right. reflexivity.
  - apply C; [reflexivity | discriminate].
Defined.

Lemma ProductCard_without_product_witness :
  ProductCard string Sample.getProductPageUrlSync Sample.generateImageUrl
    Sample.checkIfShouldDisplayAsSwatch Sample.convertDimensionTypeToProductDimensionType
    Sample.format Sample.toFixed Sample.numberToString Sample.stringToNumber
    Sample.formatCurrency Sample.getPayloadObject Sample.getTelemetryAttributes
    (Sample.props None None) None
  = Ok (mkState EmptyString None [], None).
Proof.
  apply (ProductCard_without_product string Sample.getProductPageUrlSync
           Sample.generateImageUrl Sample.checkIfShouldDisplayAsSwatch
           Sample.convertDimensionTypeToProductDimensionType Sample.format Sample.toFixed
           Sample.numberToString Sample.stringToNumber Sample.formatCurrency
           Sample.getPayloadObject Sample.getTelemetryAttributes (Sample.props None None) None).
  reflexivity.
Defined.

(** C3, as stated, fails.  Pre-selection is enabled and the color
    attribute has a swatch marked default; the swatch carries no product
    image URLs, and the card starts with the primary image of the product. *)
Lemma default_swatch_without_images_gives_primary_image :
  let props := Sample.props (Some Sample.shirt) None in
  let marked := AttributeSwatch.mk (Some "Red") (Some "#ff0000") None None (Some true) in
  dimensionToPreSelectInProductCard (config (context props)) = DimensionTypes.color /\
  getDefaultColorSwatchSelected (data_product props) = Some marked /\
  AttributeSwatch.ProductImageUrls marked = None /\
  productImageUrlFromSwatch Sample.generateImageUrl props
  = ProductSearchResult.PrimaryImageUrl Sample.shirt /\
  initialState Sample.getProductPageUrlSync Sample.generateImageUrl props
  = Ok (mkState "/Shirt/123.p?color=Red" (Some "/images/shirt.png") []).
Proof. cbv zeta. repeat split. Qed.

Lemma initial_image_from_default_swatch_witness :
  let product :=
    ProductSearchResult.mk 123 None (Some "Shirt") None None 20%float None None
      (Some "/images/shirt.png") None None None None
      (Some [AttributeValue.mk (Some 5%Z) (Some "Color")
               (Some [AttributeSwatch.mk (Some "Red") None None (Some ["/images/red.png"]) None;
                      AttributeSwatch.mk (Some "Blue") None None (Some ["/images/blue.png"])
                        (Some true)])])
      None in
  productImageUrlFromSwatch Sample.generateImageUrl (Sample.props (Some product) None)
  = Some "https://images.example//images/blue.png".
Proof.
  cbv zeta.
  match goal with |- productImageUrlFromSwatch _ ?p = _ =>
    destruct (initial_image_from_default_swatch Sample.getProductPageUrlSync
                Sample.generateImageUrl p) as [_ [A _]]
  end.
  refine (A (AttributeSwatch.mk (Some "Blue") None None (Some ["/images/blue.png"]) (Some true))
            "/images/blue.png" [] _ _ _).
  - discriminate.
  - reflexivity.
  - reflexivity.
Defined.

Lemma color_swatches_contain_default_witness :
  exists group,
    swatchGroup Sample.checkIfShouldDisplayAsSwatch Sample.format (Sample.props None None)
      (AttributeValue.mk (Some 5%Z) (Some "Color")
         (Some [AttributeSwatch.mk (Some "Red") None None None None;
                AttributeSwatch.mk (Some "Blue") None None None (Some false)]))
    = Some group /\
    map SwatchItem.isDefault (swatches group) = [Some true; Some false].
Proof.
  eexists. split; [reflexivity|].
  destruct (color_swatches_contain_default Sample.checkIfShouldDisplayAsSwatch
              Sample.format (Sample.props None None)) as [_ A].
  cbv zeta in A.
  rewrite (A (AttributeValue.mk (Some 5%Z) (Some "Color")
                (Some [AttributeSwatch.mk (Some "Red") None None None None;
                       AttributeSwatch.mk (Some "Blue") None None None (Some false)]))
             _
             (AttributeSwatch.mk (Some "Red") None None None None)
             [AttributeSwatch.mk (Some "Blue") None None None (Some false)]
             eq_refl);
    [reflexivity | discriminate | reflexivity | reflexivity | reflexivity].
Defined.

(** C4.  With an entry of the product's master product that is disabled,
    the add-to-cart component is told that products are available; with an
    entry that is not disabled, that none are. *)
Theorem cart_button_flag_is_disabled_flag :
  let button disabled :=
    _renderCartButton
      (Sample.props (Some Sample.shirt)
         (Some [DimensionAvailability.mk "Red" disabled (Some 7%Z)]))
      Sample.shirt in
  let flag (button : JSX) :=
    match button with
    | Node _ [Some (AddToCartComponent cartProps)] =>
        AddToCartProps.hasAvailableProducts cartProps
    | _ => None
    end in
  ProductSearchResult.MasterProductId Sample.shirt = Some 7%Z /\
  flag (button true) = Some true /\
  flag (button false) = Some false.
Proof. cbv zeta. repeat split. Qed.

(** * Further properties of the card *)

Section FurtherProperties.
Import Text Percent FormUrlEncoded Url Wf Fragment JS.
Import UrlFacts ParamFacts ReparseFacts BaseFacts FragmentFacts.

Variable generateImageUrl : option string -> ApiSettings -> option string.

Lemma setValue_lookup (key : string) (value : SwatchItem.t) (d : Dictionary.t) :
  In (key, value) (Dictionary.setValue key value d).
Proof.
  induction d as [|[k v] r IH]; simpl; [now left|].
  destruct (String.eqb_spec k key) as [->|_]; [now left | now right].
Qed.

(** X1.  The swatch callback stores the selected swatch in the selection
    dictionary under its dimension type whatever its value; when the value
    is blank that is all it does: the page URL and the image URL stay as
    they were and nothing is thrown. *)
Theorem blank_swatch_only_recorded (props : IProductComponentProps) (st : State)
    (coreContext : ICoreContext) (swatchItem : SwatchItem.t) :
  let outcome := updatePageAndImageUrl generateImageUrl props st coreContext swatchItem in
  selectedSwatchItems (state_of outcome)
  = Dictionary.setValue (SwatchItem.dimensionType swatchItem) swatchItem (selectedSwatchItems st)
  /\ In swatchItem (Dictionary.getValues (selectedSwatchItems (state_of outcome)))
  /\ (isNullOrWhitespace (Some (SwatchItem.value swatchItem)) = true ->
      outcome
      = Done (mkState (productPageUrl st) (productImageUrl st)
                (Dictionary.setValue (SwatchItem.dimensionType swatchItem) swatchItem
                   (selectedSwatchItems st)))).
Proof.
  cbv zeta.
  assert (E : selectedSwatchItems
                (state_of (updatePageAndImageUrl generateImageUrl props st coreContext
                             swatchItem))
              = Dictionary.setValue (SwatchItem.dimensionType swatchItem) swatchItem
                  (selectedSwatchItems st)).
  { unfold updatePageAndImageUrl.
    destruct (isNullOrWhitespace _); [reflexivity|].
    destruct (productPageUrlWithSwatch _ _ _ _); [|reflexivity].
    destruct (String.eqb _ _); reflexivity. }
  split; [exact E|]. split.
  - rewrite E. unfold Dictionary.getValues.
    apply in_map_iff. exists (SwatchItem.dimensionType swatchItem, swatchItem).
    split; [reflexivity | apply setValue_lookup].
  - intros H. unfold updatePageAndImageUrl. now rewrite H.
Qed.

(** X2.  With pre-selection enabled and a default color swatch whose value
    is not empty and is carried unchanged by a query string, the page URL
    the card starts from is the product URL with that value appended as its
    last parameter, named [color]: read against the base URL it has the
    path of the product URL, and its query parameters are those of the
    product URL followed by [color] with that value.  This is for a product
    URL and a base URL that the URL model covers, the product URL parsing
    with a path that does not begin with two slashes; the page URL is then
    again one that the model covers.  With pre-selection off, without a
    default color swatch, or with an empty swatch value, the page URL is
    the product URL itself. *)
Theorem page_url_from_default_swatch (coreContext : ICoreContext) (productUrl : string)
    (productData : option ProductSearchResult.t) :
  let preselect := dimensionToPreSelectInProductCard (config coreContext) in
  let base := baseUrl (apiSettings coreContext) in
  (forall swatch value u,
     preselect <> DimensionTypes.none ->
     getDefaultColorSwatchSelected productData = Some swatch ->
     AttributeSwatch.SwatchValue swatch = Some value ->
     value <> EmptyString -> plain_value value = true ->
     supported productUrl (Some base) = true ->
     newURL productUrl (Some base) = Ok u ->
     startsWith (pathname u) "//" = false ->
     exists url u',
       getProductPageUrlFromDefaultSwatch coreContext productUrl productData = Ok (Some url) /\
       supported url (Some base) = true /\
       newURL url (Some base) = Ok u' /\
       pathname u' = pathname u /\
       searchParams u' = (searchParams u ++ [("color", value)])%list) /\
  (preselect = DimensionTypes.none \/
   getDefaultColorSwatchSelected productData = None \/
   (exists swatch, getDefaultColorSwatchSelected productData = Some swatch /\
                   truthy_string (AttributeSwatch.SwatchValue swatch) = false) ->
   getProductPageUrlFromDefaultSwatch coreContext productUrl productData
   = Ok (Some productUrl)).
Proof.
  intros preselect base. unfold getProductPageUrlFromDefaultSwatch. fold preselect. split.
  - intros swatch value u Hpre Hsw Hv Hne Hplain S Hu Hss.
    destruct (String.eqb_spec preselect DimensionTypes.none) as [|_]; [contradiction|].
    rewrite Hsw, Hv. destruct value as [|c r]; [congruence|].
    destruct (newURL_base _ _ _ Hu) as [bu Hb].
    destruct (updateProductUrl_reparse productUrl coreContext ("color=" ++ String c r) u bu
                Hb Hu Hss) as [res [u' [Hres [Hu' [_ [_ [Hp [_ [Hs _]]]]]]]]].
    rewrite Hres. cbn [bind]. exists res, u'. split; [reflexivity|].
    split; [exact (updateProductUrl_supported _ _ _ _ _ S Hu Hss Hres)|].
    split; [exact Hu'|]. split; [exact Hp|].
    rewrite Hs. f_equal. exact (appended_param u "color" (String c r) eq_refl Hplain).
  - intros [-> | [-> | [swatch [-> Hv]]]].
    + now rewrite String.eqb_refl.
    + now destruct (String.eqb _ _).
    + destruct (String.eqb _ _); [reflexivity|].
      destruct (AttributeSwatch.SwatchValue swatch) as [[|c r]|]; try reflexivity.
      discriminate.
Qed.

Lemma page_url_from_default_swatch_witness :
  exists url u',
    getProductPageUrlFromDefaultSwatch Sample.coreContext "/Shirt/123.p?back=true"
      (Some Sample.shirt) = Ok (Some url) /\
    newURL url (Some "https://shop.example/") = Ok u' /\
    pathname u' = "/Shirt/123.p" /\
    searchParams u' = [("back", "true"); ("color", "Red")].
Proof.
  destruct (page_url_from_default_swatch Sample.coreContext "/Shirt/123.p?back=true"
              (Some Sample.shirt)) as [A _].
  cbv zeta in A.
  destruct (A (AttributeSwatch.mk (Some "Red") (Some "#ff0000") None None (Some true)) "Red"
              (mkURL Https "shop.example" "/Shirt/123.p" (Some "back=true") None)
              ltac:(discriminate) eq_refl eq_refl ltac:(discriminate) eq_refl eq_refl eq_refl
              eq_refl) as [url [u' [B [_ [C [D E]]]]]].
  exists url, u'. split; [exact B|]. split; [exact C|]. split; [exact D | exact E].
Defined.

(** X3.  The image of the card is rendered only when the image URL is not
    empty and both the grid settings and the image settings are given; it
    then shows that URL with the primary image as fallback, the alternative
    text (empty when absent), the focal-region crop switched on and the
    load-failure behaviour [empty]. *)
Theorem placement_image_needs_url_and_settings (settings : option IImageSettings)
    (grid : option IGridSettings) (imageUrl fallbackImageUrl altText : option string) :
  (truthy_string imageUrl = false \/ grid = None \/ settings = None ->
   renderProductPlacementImage settings grid imageUrl fallbackImageUrl altText = None) /\
  (forall url g s,
     imageUrl = Some url -> url <> EmptyString -> grid = Some g -> settings = Some s ->
     exists image,
       renderProductPlacementImage settings grid imageUrl fallbackImageUrl altText
       = Some (Image image) /\
       ImageProps.src image = url /\
       ImageProps.fallBackSrc image = fallbackImageUrl /\
       ImageProps.altText image = nullish altText EmptyString /\
       cropFocalRegion (ImageProps.imageSettings image) = Some true /\
       ImageProps.loadFailureBehavior image = "empty").
Proof.
  unfold renderProductPlacementImage. split.
  - intros [H|[->| ->]].
    + destruct imageUrl as [[|c r]|]; [reflexivity | discriminate | reflexivity].
    + destruct imageUrl as [[|c r]|]; reflexivity.
    + destruct imageUrl as [[|c r]|]; destruct grid; reflexivity.
  - intros url g s -> Hne -> ->. destruct url as [|c r]; [congruence|].
    eexists. split; [reflexivity|]. cbn.
    repeat split. destruct altText as [[|a t]|]; reflexivity.
Qed.

Lemma placement_image_needs_url_and_settings_witness :
  renderProductPlacementImage (Some (mkImageSettings None None None)) None
    (Some "/images/shirt.png") None (Some "Shirt")
  = None.
Proof.
  refine (proj1 (placement_image_needs_url_and_settings
                   (Some (mkImageSettings None None None)) None
                   (Some "/images/shirt.png") None (Some "Shirt")) _).
  right. left. reflexivity.
Defined.

End FurtherProperties.

Lemma blank_swatch_only_recorded_witness :
  updatePageAndImageUrl Sample.generateImageUrl (Sample.props None None)
    (Sample.state "/shirt/123.p?color=Red") Sample.coreContext (Sample.swatch "color" " " None)
  = Done (mkState "/shirt/123.p?color=Red" (Some "/images/shirt.png")
            [("color", Sample.swatch "color" " " None)]).
Proof.
  refine (proj2 (proj2 (blank_swatch_only_recorded Sample.generateImageUrl
                          (Sample.props None None)
                          (Sample.state "/shirt/123.p?color=Red") Sample.coreContext
                          (Sample.swatch "color" " " None))) _).
  reflexivity.
Defined.

(** * The URL that [updateProductUrl] returns *)

Section PageUrlProperties.
Import Text Percent FormUrlEncoded Url Wf Fragment JS.
Import TextFacts PercentFacts FormFacts UrlFacts RoundTrip PageUrlFacts UpdateFacts ParamFacts.
Import ReparseFacts BaseFacts FragmentFacts.

(** X4.  For a product URL and a base URL that the URL model covers, the
    product URL parsing against the base: the URL that [updateProductUrl]
    returns is a path with a query, it begins with a slash and holds no
    fragment.  When the path of the product URL does not begin with two
    slashes, the returned URL is again one that the model covers; read
    against the base, it lies on the host of the base, has the path of the
    product URL, and its query parameters are those of the product URL
    followed by those of the query string. *)
Theorem updateProductUrl_result_reparses (productDetailsPageUrl : string)
    (coreContext : ICoreContext) (queryString : string) (u : URL) :
  let base := baseUrl (apiSettings coreContext) in
  supported productDetailsPageUrl (Some base) = true ->
  newURL productDetailsPageUrl (Some base) = Ok u ->
  exists url,
    updateProductUrl productDetailsPageUrl coreContext queryString = Ok url /\
    startsWith url "/" = true /\
    mem "#" url = false /\
    (startsWith (pathname u) "//" = false ->
     exists b u',
       supported url (Some base) = true /\
       newURL base None = Ok b /\
       newURL url (Some base) = Ok u' /\
       scheme u' = scheme b /\ host u' = host b /\
       pathname u' = pathname u /\ fragment u' = None /\
       searchParams u'
       = (searchParams u ++ parse (appended_query u queryString))%list).
Proof.
  intros base S H.
  pose proof (newURL_wf _ _ _ H) as W.
  destruct (newURL_base _ _ _ H) as [bu Hb].
  pose proof (updateProductUrl_set _ _ queryString _ H) as Hset.
  set (u2 := match search u with
             | String _ _ => set_search u (search u ++ "&" ++ queryString)
             | EmptyString => set_search u (search u ++ queryString)
             end) in Hset.
  assert (W2 : wf_url u2) by (subst u2; destruct (search u); now apply set_search_wf).
  exists (pathname u ++ search u2). split; [exact Hset|]. split; [|split].
  - destruct (wf_path_slash _ W) as [t ->]. reflexivity.
  - rewrite mem_app. apply orb_false_iff. split.
    + eapply (outside_not_mem path_set); [|exact (wf_path _ W)].
      intros d Hd. now apply outside_path_plain in Hd.
    + pose proof (wf_query _ W2) as Wq. unfold search.
      destruct (query u2) as [[|c r]|]; try reflexivity.
      change (mem "#" (String "?" (String c r))) with (mem "#" (String c r)).
      eapply (outside_not_mem special_query_set); [|exact Wq].
      intros d Hd. now apply outside_query_plain in Hd.
  - intros Hss.
    destruct (updateProductUrl_reparse _ _ queryString _ _ Hb H Hss)
      as [res [u' [Hres [Hu' [A [B [C [D [E _]]]]]]]]].
    pose proof (updateProductUrl_supported _ _ _ _ _ S H Hss Hres) as S'.
    rewrite Hset in Hres. injection Hres as <-.
    exists bu, u'. split; [exact S'|]. split.
    { unfold newURL. fold base in Hb. now rewrite Hb. }
    repeat (split; [assumption|]). exact E.
Qed.

(** X5.  With a base URL that has no colon in it, and so is not an absolute
    URL, [updateProductUrl] throws for every product URL and every query
    string. *)
Theorem updateProductUrl_throws_without_absolute_base (productDetailsPageUrl : string)
    (coreContext : ICoreContext) (queryString : string) :
  mem ":" (baseUrl (apiSettings coreContext)) = false ->
  exists message,
    updateProductUrl productDetailsPageUrl coreContext queryString
    = Throw (TypeError message).
Proof.
  intros H. rewrite (updateProductUrl_no_colon _ _ _ H). unfold invalid_url. eauto.
Qed.

End PageUrlProperties.

Lemma updateProductUrl_result_reparses_witness :
  exists url u',
    updateProductUrl "https://other.example/shirt/123.p?size=M#reviews" Sample.coreContext
      "color=Red&back=true" = Ok url /\
    url = "/shirt/123.p?size=M&color=Red&back=true" /\
    Url.newURL url (Some "https://shop.example/") = Ok u' /\
    Url.host u' = "shop.example" /\
    Url.searchParams u' = [("size", "M"); ("color", "Red"); ("back", "true")].
Proof.
  destruct (updateProductUrl_result_reparses
              "https://other.example/shirt/123.p?size=M#reviews" Sample.coreContext
              "color=Red&back=true"
              (Url.mkURL Url.Https "other.example" "/shirt/123.p" (Some "size=M")
                 (Some "reviews")) eq_refl eq_refl)
    as [url [A [_ [_ B]]]].
  destruct (B eq_refl) as [b [u' [_ [Hb [Hu' [_ [Hh [_ [_ Hp]]]]]]]]].
  exists url, u'. split; [exact A|]. split.
  - vm_compute in A. now injection A as <-.
  - split; [exact Hu'|]. split.
    + rewrite Hh. vm_compute in Hb. now injection Hb as <-.
    + exact Hp.
Defined.

Lemma updateProductUrl_throws_without_absolute_base_witness :
  exists message,
    updateProductUrl "https://shop.example/shirt/123.p"
      (mkContext (mkApiSettings "shop.example" "https://images.example/") None
         (mkAppConfig DimensionTypes.color None None None))
      "back=true"
    = Throw (TypeError message).
Proof.
  apply updateProductUrl_throws_without_absolute_base. reflexivity.
Defined.

(** * Swatch selection *)


Section CallbackProperties.
Import Text Percent FormUrlEncoded Url Wf Fragment JS.
Import TextFacts PercentFacts FormFacts UrlFacts RoundTrip PageUrlFacts UpdateFacts ParamFacts.
Import ReparseFacts BaseFacts FragmentFacts SelectFacts.

Variable generateImageUrl : option string -> ApiSettings -> option string.

(** X6.  A call of the swatch callback that throws leaves the page URL and
    the image URL as they were: only the selection is recorded.  It throws
    only for a swatch whose value is not blank, and it does throw for every
    such swatch when the base URL of the card has no colon in it. *)
Theorem failed_selection_keeps_urls (props : IProductComponentProps) (st : State)
    (coreContext : ICoreContext) (swatchItem : SwatchItem.t) :
  let outcome := updatePageAndImageUrl generateImageUrl props st coreContext swatchItem in
  let recorded :=
    mkState (productPageUrl st) (productImageUrl st)
      (Dictionary.setValue (SwatchItem.dimensionType swatchItem) swatchItem
         (selectedSwatchItems st)) in
  (forall e s',
     outcome = Raised e s' ->
     s' = recorded /\ isNullOrWhitespace (Some (SwatchItem.value swatchItem)) = false) /\
  (mem ":" (baseUrl (apiSettings (context props))) = false ->
   isNullOrWhitespace (Some (SwatchItem.value swatchItem)) = false ->
   exists message, outcome = Raised (TypeError message) recorded).
Proof.
  cbv zeta. split.
  - intros e s'. unfold updatePageAndImageUrl.
    destruct (isNullOrWhitespace _); [discriminate|].
    destruct (productPageUrlWithSwatch _ _ _ _).
    + destruct (String.eqb _ _); discriminate.
    + intros [= _ <-]. split; reflexivity.
  - intros Hb Hblank. unfold updatePageAndImageUrl. rewrite Hblank.
    replace (productPageUrlWithSwatch props
               (mkState (productPageUrl st) (productImageUrl st)
                  (Dictionary.setValue (SwatchItem.dimensionType swatchItem) swatchItem
                     (selectedSwatchItems st))) coreContext swatchItem)
      with (productPageUrlWithSwatch props st coreContext swatchItem) by reflexivity.
    rewrite (productPageUrlWithSwatch_no_colon _ _ _ _ Hb). unfold invalid_url. eauto.
Qed.

(** X7.  Two swatches of one dimension selected one after the other, the
    callback being called with a context whose base URL is the base URL of
    the card: the page URL then carries the value of the second as the only
    value of the parameter of the dimension, and the values of every other
    parameter are those of the page URL the card had before.  This is for a
    page URL and a base URL that the URL model covers, the page URL parsing
    with a path that does not begin with two slashes; the two values are not
    blank, the dimension name and the two values are carried unchanged by a
    query string, and the name is written into it without escapes.  The new
    page URL is again one that the model covers. *)
Theorem reselecting_swatch_replaces_value (props : IProductComponentProps) (st : State)
    (coreContext : ICoreContext) (first second : SwatchItem.t) (u : URL) :
  let base := baseUrl (apiSettings (context props)) in
  let dimension := SwatchItem.dimensionType first in
  baseUrl (apiSettings coreContext) = base ->
  SwatchItem.dimensionType second = dimension ->
  supported (productPageUrl st) (Some base) = true ->
  newURL (productPageUrl st) (Some base) = Ok u ->
  startsWith (pathname u) "//" = false ->
  isNullOrWhitespace (Some (SwatchItem.value first)) = false ->
  isNullOrWhitespace (Some (SwatchItem.value second)) = false ->
  plain_name dimension = true ->
  outside special_query_set dimension = true ->
  plain_value (SwatchItem.value first) = true ->
  plain_value (SwatchItem.value second) = true ->
  exists st1 st2,
    updatePageAndImageUrl generateImageUrl props st coreContext first = Done st1 /\
    updatePageAndImageUrl generateImageUrl props st1 coreContext second = Done st2 /\
    supported (productPageUrl st2) (Some base) = true /\
    urlParameter base (productPageUrl st2) dimension = Ok [SwatchItem.value second] /\
    forall other, other <> dimension ->
      urlParameter base (productPageUrl st2) other = Ok (getAll other (searchParams u)).
Proof.
  intros base dimension Hbase Hdim S H Hss Hb1 Hb2 Hn Hlit Hv1 Hv2.
  destruct (productPageUrlWithSwatch_reparse props st coreContext first u Hbase H Hss Hn Hv1)
    as [res1 [u1 [prefix1 [Hres1 [Hu1 [Hp1 [Hs1 [Ht1 _]]]]]]]].
  destruct (updatePageAndImageUrl_done generateImageUrl props st coreContext first res1
              Hb1 Hres1) as [st1 [Hdone1 [Hst1 _]]].
  fold dimension in Hs1, Ht1.
  assert (Hinc : includes (productPageUrl st1) dimension = true).
  { rewrite Hst1, Ht1, (stored_query_id _ Hlit). apply includes_app. }
  assert (Hn2 : plain_name (SwatchItem.dimensionType second) = true) by now rewrite Hdim.
  assert (H1 : newURL (productPageUrl st1) (Some base) = Ok u1) by now rewrite Hst1.
  assert (Hss1 : startsWith (pathname u1) "//" = false) by now rewrite Hp1.
  assert (S1 : supported (productPageUrl st1) (Some base) = true).
  { rewrite Hst1.
    exact (productPageUrlWithSwatch_supported props st coreContext first u res1 Hbase S H Hss
             Hres1). }
  destruct (productPageUrlWithSwatch_reparse props st1 coreContext second u1 Hbase H1 Hss1
              Hn2 Hv2) as [res2 [u2 [prefix2 [Hres2 [Hu2 [_ [Hs2 _]]]]]]].
  pose proof (productPageUrlWithSwatch_supported props st1 coreContext second u1 res2 Hbase
                S1 H1 Hss1 Hres2) as S2.
  rewrite Hdim, Hinc in Hs2.
  destruct (updatePageAndImageUrl_done generateImageUrl props st1 coreContext second res2
              Hb2 Hres2) as [st2 [Hdone2 [Hst2 _]]].
  exists st1, st2. split; [exact Hdone1|]. split; [exact Hdone2|].
  rewrite Hst2. split; [exact S2|]. unfold urlParameter. subst base. cbv zeta in Hu2. rewrite Hu2. cbn [bind].
  rewrite Hs2. split.
  - now rewrite getAll_app, getAll_removed, getAll_own.
  - intros other Hne.
    rewrite getAll_app, (getAll_foreign _ _ _ Hne), app_nil_r, (getAll_other _ _ _ Hne), Hs1.
    rewrite getAll_app, (getAll_foreign _ _ _ Hne), app_nil_r.
    destruct (includes (productPageUrl st) dimension); [|reflexivity].
    now rewrite (getAll_other _ _ _ Hne).
Qed.

End CallbackProperties.

Lemma failed_selection_keeps_urls_witness :
  exists message,
    updatePageAndImageUrl Sample.generateImageUrl
      (mkProps None
         (mkContext (mkApiSettings "shop.example" "https://images.example/") None
            (mkAppConfig DimensionTypes.color None None None))
         None None None None None None None None "product" "card-1" None None None None None
         None None)
      (Sample.state "/shirt/123.p") Sample.coreContext (Sample.swatch "size" "M" None)
    = Raised (TypeError message)
        (mkState "/shirt/123.p" (Some "/images/shirt.png")
           [("size", Sample.swatch "size" "M" None)]).
Proof.
  refine (proj2 (failed_selection_keeps_urls Sample.generateImageUrl _ _ _ _) _ _);
    reflexivity.
Defined.

Lemma reselecting_swatch_replaces_value_witness :
  exists st1 st2,
    updatePageAndImageUrl Sample.generateImageUrl (Sample.props None None)
      (Sample.state "/shirt/123.p?back=true") Sample.coreContext
      (Sample.swatch "color" "Red" None) = Done st1 /\
    updatePageAndImageUrl Sample.generateImageUrl (Sample.props None None) st1
      Sample.coreContext (Sample.swatch "color" "Navy Blue" None) = Done st2 /\
    urlParameter "https://shop.example/" (productPageUrl st2) "color" = Ok ["Navy Blue"] /\
    urlParameter "https://shop.example/" (productPageUrl st2) "back" = Ok ["true"].
Proof.
  destruct (reselecting_swatch_replaces_value Sample.generateImageUrl (Sample.props None None)
              (Sample.state "/shirt/123.p?back=true") Sample.coreContext
              (Sample.swatch "color" "Red" None) (Sample.swatch "color" "Navy Blue" None)
              (Url.mkURL Url.Https "shop.example" "/shirt/123.p" (Some "back=true") None)
              eq_refl eq_refl eq_refl eq_refl eq_refl eq_refl eq_refl eq_refl eq_refl eq_refl
              eq_refl)
    as [st1 [st2 [A [B [_ [C D]]]]]].
  exists st1, st2. split; [exact A|]. split; [exact B|]. split; [exact C|].
  apply D. discriminate.
Defined.

Module DictionaryFacts.

Lemma setValue_length (key : string) (value : SwatchItem.t) (d : Dictionary.t) :
  List.length (Dictionary.setValue key value d)
  = (List.length d + if existsb (fun entry => String.eqb (fst entry) key) d then 0 else 1)%nat.
Proof.
  induction d as [|[k v] r IH]; [reflexivity|]. cbn [Dictionary.setValue existsb fst].
  destruct (String.eqb k key); cbn [orb List.length]; [lia|]. rewrite IH. lia.
Qed.

Lemma setValue_other (key other : string) (value kept : SwatchItem.t) (d : Dictionary.t) :
  other <> key -> In (other, kept) d -> In (other, kept) (Dictionary.setValue key value d).
Proof.
  intros Hne. induction d as [|[k v] r IH]; [intros []|].
  cbn [Dictionary.setValue]. intros [E|H].
  - injection E as -> ->. destruct (String.eqb_spec other key); [contradiction | now left].
  - destruct (String.eqb k key); right; auto.
Qed.

End DictionaryFacts.

Module SelectionFacts.
Import Text Percent FormUrlEncoded Url Wf JS.
Import TextFacts PercentFacts FormFacts UrlFacts RoundTrip PageUrlFacts UpdateFacts ParamFacts.
Import ReparseFacts BaseFacts SelectFacts DictionaryFacts.

Lemma alnum_char (c : ascii) :
  is_alnum c = true ->
  name_char c = true /\ negb (special_query_set c) = true /\ urlencoded_set c = false /\
  Ascii.eqb c " " = false.
Proof. by_byte c; intros _; repeat split. Qed.

Lemma alnum_name (d : string) :
  all_chars is_alnum d = true ->
  plain_name d = true /\ outside special_query_set d = true /\ encode_component d = d.
Proof.
  intros H. split; [|split].
  - eapply all_chars_impl; [|exact H]. intros c Hc. now apply alnum_char in Hc.
  - eapply all_chars_impl; [|exact H]. intros c Hc. now apply alnum_char in Hc.
  - induction d as [|c r IH]; [reflexivity|]. cbn [all_chars] in H.
    apply andb_true_iff in H as [Hc Hr]. apply alnum_char in Hc as [_ [_ [Hu Hs]]].
    cbn [encode_component]. now rewrite Hs, Hu, (IH Hr).
Qed.

Lemma startsWith_app_l (a b d : string) :
  startsWith a d = true -> startsWith (a ++ b) d = true.
Proof.
  revert a. induction d as [|c d IH]; intros a; [reflexivity|].
  destruct a as [|x a]; [discriminate|]. cbn [append startsWith].
  intros H. apply andb_true_iff in H as [Hc Hd]. now rewrite Hc, (IH _ Hd).
Qed.

Lemma includes_app_l (a b d : string) :
  includes a d = true -> includes (a ++ b) d = true.
Proof.
  induction a as [|x a IH].
  - cbn [includes]. rewrite orb_false_r. intros H.
    destruct d as [|c d]; [|discriminate H]. now destruct b.
  - cbn [append includes]. intros H. apply orb_true_iff in H as [H|H].
    + change (String x (a ++ b)) with (String x a ++ b).
      now rewrite (startsWith_app_l _ b _ H).
    + rewrite (IH H). apply orb_true_r.
Qed.

Lemma includes_app_r (a b d : string) :
  includes b d = true -> includes (a ++ b) d = true.
Proof.
  intros H. induction a as [|x a IH]; [exact H|].
  cbn [append includes]. rewrite IH. apply orb_true_r.
Qed.

Lemma serialize_includes (l : list (string * string)) (name value : string) :
  encode_component name = name -> In (name, value) l ->
  includes (serialize l) name = true.
Proof.
  intros Hn. unfold serialize. induction l as [|t r IH]; [intros []|].
  intros [->|Hin].
  - assert (Hhead : includes (serialize_tuple (name, value)) name = true).
    { unfold serialize_tuple. cbn [fst snd]. rewrite Hn.
      exact (includes_app EmptyString name _). }
    cbn [map join]. destruct (map serialize_tuple r); [exact Hhead|].
    now apply includes_app_l.
  - specialize (IH Hin). cbn [map join]. destruct (map serialize_tuple r) as [|h k] eqn:E.
    + destruct r; [destruct Hin | discriminate E].
    + apply includes_app_r. now apply includes_app_r.
Qed.

Lemma getAll_member (name : string) (l : list (string * string)) :
  getAll name l <> [] -> exists value, In (name, value) l.
Proof.
  unfold getAll. induction l as [|[n v] r IH]; [intros H; now elim H|].
  cbn [filter fst]. destruct (String.eqb_spec n name) as [->|Hne].
  - intros _. exists v. now left.
  - intros H. destruct (IH H) as [x Hx]. exists x. now right.
Qed.

(** A page URL written as its path and its query is extended at its end
    by [updateProductUrl]. *)
Lemma updateProductUrl_extends (url : string) (ctx : ICoreContext) (name value : string)
    (u : URL) :
  newURL url (Some (baseUrl (apiSettings ctx))) = Ok u ->
  url = pathname u ++ search u ->
  plain_name name = true -> plain_value value = true ->
  exists suffix, updateProductUrl url ctx (name ++ "=" ++ value) = Ok (url ++ suffix).
Proof.
  intros H Hnf Hn Hv. destruct (stored_param _ _ Hn Hv) as [Hne [Hst _]].
  destruct (search_cases u) as [[Hs _]|[q0 [Hq0 [Hq Hs]]]].
  - rewrite (updateProductUrl_started _ _ _ _ H Hs Hst Hne).
    rewrite Hs, append_nil_r in Hnf. rewrite <- Hnf. eauto.
  - rewrite (updateProductUrl_joined _ _ _ _ _ H Hq Hq0).
    rewrite Hs in Hnf.
    exists (String "&" (stored_query (name ++ "=" ++ value))). f_equal.
    rewrite Hnf. rewrite append_assoc. reflexivity.
Qed.

Lemma setValue_key_in (key : string) (value : SwatchItem.t) (d : Dictionary.t) (k : string) :
  In k (map fst (Dictionary.setValue key value d)) -> k = key \/ In k (map fst d).
Proof.
  induction d as [|[k0 v0] r IH]; cbn [Dictionary.setValue map fst In].
  - intros [<-|[]]. now left.
  - destruct (String.eqb_spec k0 key) as [->|_]; cbn [map fst In]; intros [<-|H]; auto.
    destruct (IH H); auto.
Qed.

Lemma setValue_keys (key : string) (value : SwatchItem.t) (d : Dictionary.t) :
  NoDup (map fst d) -> NoDup (map fst (Dictionary.setValue key value d)).
Proof.
  induction d as [|[k0 v0] r IH]; cbn [Dictionary.setValue map fst].
  - intros _. constructor; [intros [] | constructor].
  - intros Hd. inversion Hd as [|x l Hx Hl]; subst.
    destruct (String.eqb_spec k0 key) as [->|Hne]; cbn [map fst]; [exact Hd|].
    constructor; [|now apply IH].
    intros Hin. destruct (setValue_key_in _ _ _ _ Hin); [congruence | contradiction].
Qed.

Lemma setValue_entry (key : string) (value : SwatchItem.t) (d : Dictionary.t) (k : string)
    (v : SwatchItem.t) :
  NoDup (map fst d) -> In (k, v) (Dictionary.setValue key value d) ->
  (k = key /\ v = value) \/ (k <> key /\ In (k, v) d).
Proof.
  induction d as [|[k0 v0] r IH]; cbn [Dictionary.setValue map fst In].
  - intros _ [[= <- <-]|[]]. now left.
  - intros Hd. inversion Hd as [|x l Hx Hl]; subst.
    destruct (String.eqb_spec k0 key) as [->|Hne]; cbn [In].
    + intros [[= <- <-]|H]; [now left|].
      right. split; [|now right]. intros ->. apply Hx.
      apply in_map_iff. now exists (key, v).
    + intros [[= <- <-]|H]; [right; split; [exact Hne | now left]|].
      destruct (IH Hl H) as [?|[? ?]]; [now left | right; split; [assumption | now right]].
Qed.

Lemma updatePageAndImageUrl_selection
    (generateImageUrl : option string -> ApiSettings -> option string)
    (props : IProductComponentProps) (st : State) (coreContext : ICoreContext)
    (swatchItem : SwatchItem.t) :
  selectedSwatchItems
    (state_of (updatePageAndImageUrl generateImageUrl props st coreContext swatchItem))
  = Dictionary.setValue (SwatchItem.dimensionType swatchItem) swatchItem
      (selectedSwatchItems st).
Proof.
  unfold updatePageAndImageUrl.
  destruct (isNullOrWhitespace _); [reflexivity|].
  destruct (productPageUrlWithSwatch _ _ _ _); [|reflexivity].
  destruct (String.eqb _ _); reflexivity.
Qed.

(** One selection, for a page URL written as its path and its query. *)
Lemma productPageUrlWithSwatch_step (props : IProductComponentProps) (st : State)
    (coreContext : ICoreContext) (swatchItem : SwatchItem.t) (u : URL) :
  let base := baseUrl (apiSettings (context props)) in
  let dimension := SwatchItem.dimensionType swatchItem in
  let value := SwatchItem.value swatchItem in
  baseUrl (apiSettings coreContext) = base ->
  newURL (productPageUrl st) (Some base) = Ok u ->
  productPageUrl st = pathname u ++ search u ->
  startsWith (pathname u) "//" = false ->
  all_chars is_alnum dimension = true -> plain_value value = true ->
  exists res u',
    productPageUrlWithSwatch props st coreContext swatchItem = Ok res /\
    newURL res (Some base) = Ok u' /\
    res = pathname u' ++ search u' /\
    pathname u' = pathname u /\
    searchParams u'
    = ((if includes (productPageUrl st) dimension
        then filter (fun t => negb (String.eqb (fst t) dimension)) (searchParams u)
        else searchParams u) ++ [(dimension, value)])%list /\
    forall name,
      all_chars is_alnum name = true ->
      includes (productPageUrl st) name = true \/ getAll name (searchParams u) = [] ->
      includes res name = true \/ getAll name (searchParams u') = [].
Proof.
  intros base dimension value Hbase H Hnf Hss Hd Hv.
  destruct (alnum_name _ Hd) as [Hn [Hlit _]].
  destruct (productPageUrlWithSwatch_reparse props st coreContext swatchItem u Hbase H Hss
              Hn Hv) as [res [u' [prefix [Hres [Hu' [Hp [Hs [Ht Hnf']]]]]]]].
  fold dimension in Hs, Ht. fold value in Hs, Ht. fold base in Hu'.
  exists res, u'. repeat (split; [assumption|]).
  intros name Hname HK.
  destruct (String.eqb_spec name dimension) as [->|Hne].
  { left. rewrite Ht, (stored_query_id _ Hlit). apply includes_app. }
  destruct (alnum_name _ Hname) as [_ [_ Henc]].
  assert (Hkeep : getAll name (searchParams u) = [] -> getAll name (searchParams u') = []).
  { intros E. rewrite Hs, getAll_app, (getAll_foreign _ _ _ Hne), app_nil_r.
    destruct (includes (productPageUrl st) dimension); [|exact E].
    now rewrite (getAll_other _ _ _ Hne). }
  destruct (getAll name (searchParams u)) as [|x xs] eqn:Eall; [right; now apply Hkeep|].
  destruct HK as [HK|HK]; [|discriminate HK]. left.
  pose proof Hres as Hres'. unfold productPageUrlWithSwatch in Hres'.
  fold dimension in Hres'. fold value in Hres'. rewrite Hbase in Hres'. fold base in Hres'.
  destruct (newURL_base _ _ _ H) as [bu Hb].
  pose proof (newURL_wf _ _ _ H) as W.
  destruct (includes (productPageUrl st) dimension) eqn:Einc.
  - rewrite H in Hres'. cbn [bind] in Hres'.
    pose proof (searchParams_delete_wf _ dimension W) as Wd.
    pose proof (newURL_href_base _ _ _ Wd Hb) as Hhref.
    set (kept := filter (fun t => negb (String.eqb (fst t) dimension)) (searchParams u)).
    assert (Hin : exists y, In (name, y) kept).
    { apply getAll_member. subst kept. rewrite (getAll_other _ _ _ Hne), Eall. discriminate. }
    destruct Hin as [y Hy].
    pose proof (serialize_includes _ _ _ Henc Hy) as Hser.
    assert (Hq : query (searchParams_delete u dimension) = Some (serialize kept)
                 /\ serialize kept <> EmptyString).
    { unfold searchParams_delete. fold kept.
      destruct (serialize kept) eqn:E.
      - exfalso. pose proof (parse_serialize kept) as P. rewrite E in P.
        rewrite <- P in Hy. destruct Hy.
      - split; [reflexivity | discriminate]. }
    destruct Hq as [Hq Hqne].
    rewrite (updateProductUrl_joined _ (context props) _ _ _ Hhref Hq Hqne) in Hres'.
    injection Hres' as <-.
    apply includes_app_r.
    refine (includes_app_r "?" _ name _). now apply includes_app_l.
  - destruct (updateProductUrl_extends _ (context props) dimension value _ H Hnf Hn Hv)
      as [suffix Hext].
    rewrite Hext in Hres'. injection Hres' as <-. now apply includes_app_l.
Qed.

End SelectionFacts.

Section SelectionProperties.
Import Text Percent FormUrlEncoded Url Wf Fragment JS.
Import TextFacts PercentFacts FormFacts UrlFacts RoundTrip PageUrlFacts UpdateFacts ParamFacts.
Import ReparseFacts BaseFacts FragmentFacts SelectFacts DictionaryFacts SelectionFacts.

Variable generateImageUrl : option string -> ApiSettings -> option string.
Variable props : IProductComponentProps.
Variable coreContext : ICoreContext.

Local Abbreviation base := (baseUrl (apiSettings (context props))) (only parsing).
Local Abbreviation select := (selectSwatches generateImageUrl props coreContext)
  (only parsing).

Lemma agrees_step (u0 : URL) (url0 : string) (seen : list string) (st : State)
    (swatchItem : SwatchItem.t) :
  baseUrl (apiSettings coreContext) = base ->
  agrees props u0 url0 seen st ->
  followed url0 (searchParams u0) swatchItem ->
  agrees props u0 url0 (SwatchItem.dimensionType swatchItem :: seen)
    (state_of (updatePageAndImageUrl generateImageUrl props st coreContext swatchItem)).
Proof.
  intros Hbase [u [Hu [S [Hnf [Hss [Hnd [Hsel [Hother HK]]]]]]]] [Hd [Hblank [Hv HK0]]].
  destruct (productPageUrlWithSwatch_step props st coreContext swatchItem u Hbase Hu Hnf Hss
              Hd Hv) as [res [u' [Hres [Hu' [Hnf' [Hp [Hs HK']]]]]]].
  destruct (updatePageAndImageUrl_done generateImageUrl props st coreContext swatchItem res
              Hblank Hres) as [st' [Hdone [Hst' _]]].
  pose proof (updatePageAndImageUrl_selection generateImageUrl props st coreContext swatchItem)
    as Hdict.
  rewrite Hdone in *. cbn [state_of] in *.
  exists u'. rewrite Hst'. split; [exact Hu'|].
  split; [exact (productPageUrlWithSwatch_supported props st coreContext swatchItem u res
                   Hbase S Hu Hss Hres)|].
  split; [exact Hnf'|].
  split; [now rewrite Hp|]. split; [rewrite Hdict; now apply setValue_keys|].
  assert (Hown : getAll (SwatchItem.dimensionType swatchItem) (searchParams u')
                 = [SwatchItem.value swatchItem]).
  { rewrite Hs, getAll_app, getAll_own.
    destruct (includes (productPageUrl st) (SwatchItem.dimensionType swatchItem)) eqn:Einc.
    - now rewrite getAll_removed.
    - destruct (HK _ Hd HK0) as [Hi|Hnone]; [congruence | now rewrite Hnone]. }
  assert (Hrest : forall name, name <> SwatchItem.dimensionType swatchItem ->
                    getAll name (searchParams u') = getAll name (searchParams u)).
  { intros name Hne. rewrite Hs, getAll_app, (getAll_foreign _ _ _ Hne), app_nil_r.
    destruct (includes (productPageUrl st) (SwatchItem.dimensionType swatchItem));
      [now apply getAll_other | reflexivity]. }
  split; [|split].
  - intros key swatch Hin. rewrite Hdict in Hin.
    destruct (setValue_entry _ _ _ _ _ Hnd Hin) as [[-> ->]|[Hne Hin']]; [exact Hown|].
    rewrite (Hrest _ Hne). now apply Hsel.
  - intros name Hnot. rewrite Hrest.
    + apply Hother. intros Hin. apply Hnot. now right.
    + intros ->. apply Hnot. now left.
  - intros name Hname H0. apply HK'; [exact Hname|]. now apply HK.
Qed.

Lemma agrees_all (u0 : URL) (url0 : string) (selections : list SwatchItem.t) :
  baseUrl (apiSettings coreContext) = base ->
  Forall (followed url0 (searchParams u0)) selections ->
  forall seen st,
    agrees props u0 url0 seen st ->
    agrees props u0 url0 (rev (map SwatchItem.dimensionType selections) ++ seen)%list
      (select st selections).
Proof.
  intros Hbase Hall. induction Hall as [|swatchItem rest Hs Hrest IH]; intros seen st Hst.
  - exact Hst.
  - cbn [selectSwatches fold_left map rev]. rewrite <- app_assoc. cbn [app].
    apply IH. now apply agrees_step.
Qed.

(** X8.  The page URL follows the selection.  The callback is called with a
    context whose base URL is the base URL of the card.  The card starts
    with no swatch selected and a page URL that the URL model covers, as is
    the base URL, and that is written as its path and its query, the path
    not beginning with two slashes; the swatches selected one after the
    other have dimension names made of ASCII letters and digits and values
    that are not blank and are carried unchanged by a query string, and the
    parameters of the starting URL named like these dimensions, if any, are
    written with the name spelled out.  Then the page URL is again one that
    the model covers, every selected dimension has an entry in the selection
    dictionary, and for each entry the page URL carries the value of its
    swatch, the one selected last for the dimension, as the only value of
    the parameter of that dimension, while the parameters with other names
    are those of the starting URL. *)
Theorem page_url_follows_selections (st : State) (selections : list SwatchItem.t) (u : URL) :
  baseUrl (apiSettings coreContext) = base ->
  supported (productPageUrl st) (Some base) = true ->
  newURL (productPageUrl st) (Some base) = Ok u ->
  productPageUrl st = pathname u ++ search u ->
  startsWith (pathname u) "//" = false ->
  selectedSwatchItems st = [] ->
  Forall (followed (productPageUrl st) (searchParams u)) selections ->
  let st' := select st selections in
  supported (productPageUrl st') (Some base) = true /\
  (forall key swatch,
     In (key, swatch) (selectedSwatchItems st') ->
     urlParameter base (productPageUrl st') key = Ok [SwatchItem.value swatch]) /\
  (forall name,
     ~ In name (map SwatchItem.dimensionType selections) ->
     urlParameter base (productPageUrl st') name = Ok (getAll name (searchParams u))) /\
  (forall swatchItem,
     In swatchItem selections ->
     exists swatch, In (SwatchItem.dimensionType swatchItem, swatch) (selectedSwatchItems st')).
Proof.
  intros Hbase S Hu Hnf Hss Hempty Hall st'.
  assert (H0 : agrees props u (productPageUrl st) [] st).
  { exists u. repeat (split; [assumption|]). split; [rewrite Hempty; constructor|].
    split; [rewrite Hempty; intros ? ? []|]. split; auto. }
  destruct (agrees_all u (productPageUrl st) selections Hbase Hall [] st H0)
    as [u' [Hu' [S' [_ [_ [_ [Hsel [Hother _]]]]]]]].
  fold st' in Hu', S', Hsel, Hother. split; [exact S'|]. split; [|split].
  - intros key swatch Hin. unfold urlParameter. rewrite Hu'. cbn [bind].
    now rewrite (Hsel _ _ Hin).
  - intros name Hnot. unfold urlParameter. rewrite Hu'. cbn [bind]. rewrite Hother; auto.
    rewrite app_nil_r. now rewrite <- in_rev.
  - intros swatchItem Hin. subst st'. clear - Hin.
    revert st. induction selections as [|s r IH]; [destruct Hin|]. intros st.
    cbn [selectSwatches fold_left].
    destruct Hin as [->|Hin]; [|now apply IH].
    set (st1 := state_of (updatePageAndImageUrl generateImageUrl props st coreContext
                            swatchItem)).
    assert (H1 : exists swatch,
              In (SwatchItem.dimensionType swatchItem, swatch) (selectedSwatchItems st1)).
    { exists swatchItem. subst st1. rewrite updatePageAndImageUrl_selection.
      apply setValue_lookup. }
    clearbody st1. clear IH. revert st1 H1.
    induction r as [|s r IH]; intros st1 H1; [exact H1|].
    cbn [fold_left]. apply IH. destruct H1 as [swatch H1].
    rewrite updatePageAndImageUrl_selection.
    destruct (String.eqb_spec (SwatchItem.dimensionType swatchItem) (SwatchItem.dimensionType s))
      as [E|E].
    + exists s. rewrite E. apply setValue_lookup.
    + exists swatch. now apply setValue_other.
Qed.

End SelectionProperties.

Lemma page_url_follows_selections_witness :
  let st' :=
    selectSwatches Sample.generateImageUrl (Sample.props None None) Sample.coreContext
      (Sample.state "/shirt/123.p?color=Red&back=true")
      [Sample.swatch "size" "M" None; Sample.swatch "color" "Navy Blue" None;
       Sample.swatch "size" "L" None] in
  urlParameter "https://shop.example/" (productPageUrl st') "color" = Ok ["Navy Blue"] /\
  urlParameter "https://shop.example/" (productPageUrl st') "size" = Ok ["L"] /\
  urlParameter "https://shop.example/" (productPageUrl st') "back" = Ok ["true"].
Proof.
  cbv zeta.
  destruct (page_url_follows_selections Sample.generateImageUrl (Sample.props None None)
              Sample.coreContext (Sample.state "/shirt/123.p?color=Red&back=true")
              [Sample.swatch "size" "M" None; Sample.swatch "color" "Navy Blue" None;
               Sample.swatch "size" "L" None]
              (Url.mkURL Url.Https "shop.example" "/shirt/123.p" (Some "color=Red&back=true")
                 None)
              eq_refl eq_refl eq_refl eq_refl eq_refl eq_refl) as [_ [A [B _]]].
  - repeat (apply Forall_cons || apply Forall_nil); unfold followed;
      (repeat split; try reflexivity); first [left; reflexivity | right; reflexivity].
  - cbv zeta in A, B. split; [|split].
    + apply (A "color" (Sample.swatch "color" "Navy Blue" None)). vm_compute. auto.
    + apply (A "size" (Sample.swatch "size" "L" None)). vm_compute. auto.
    + apply (B "back"). vm_compute. intuition discriminate.
Defined.

(** * The first render *)

Section InitialStateProperties.
Import Text Percent FormUrlEncoded Url Wf Fragment JS.
Import TextFacts PercentFacts FormFacts UrlFacts RoundTrip PageUrlFacts UpdateFacts ParamFacts.
Import ReparseFacts BaseFacts FragmentFacts SelectFacts.

Variable Payload : Type.
Variable getProductPageUrlSync : string -> Z -> string.
Variable generateImageUrl : option string -> ApiSettings -> option string.
Variable checkIfShouldDisplayAsSwatch : string -> ICoreContext -> bool.
Variable convertDimensionTypeToProductDimensionType : string -> Z.
Variable format : string -> list string -> string.
Variable toFixed : float -> Z -> string.
Variable numberToString : float -> string.
Variable stringToNumber : string -> float.
Variable formatCurrency : float -> string.
Variable getPayloadObject : string -> option ITelemetryContent -> string -> string -> Payload.
Variable getTelemetryAttributes : option ITelemetryContent -> Payload -> list (string * string).

Variable props : IProductComponentProps.

Local Abbreviation initial_state :=
  (initialState getProductPageUrlSync generateImageUrl props) (only parsing).
Local Abbreviation product_card :=
  (ProductCard Payload getProductPageUrlSync generateImageUrl checkIfShouldDisplayAsSwatch
     convertDimensionTypeToProductDimensionType format toFixed numberToString stringToNumber
     formatCurrency getPayloadObject getTelemetryAttributes props) (only parsing).

(** The state the card starts with, its page URL read against the base. *)
Lemma initialState_reparse (p : ProductSearchResult.t) (u : URL) :
  let base := baseUrl (apiSettings (context props)) in
  let productUrl :=
    getProductPageUrlSync (nullish (ProductSearchResult.Name p) EmptyString)
      (ProductSearchResult.RecordId p) in
  let back :=
    if truthy_bool (allowBack props) && truthy_string (Some productUrl)
    then [("back", "true")] else [] in
  let color :=
    if String.eqb (dimensionToPreSelectInProductCard (config (context props)))
         DimensionTypes.none
    then []
    else match getDefaultColorSwatchSelected (Some p) with
         | Some swatch =>
             match AttributeSwatch.SwatchValue swatch with
             | Some (String c v) => [("color", String c v)]
             | _ => []
             end
         | None => []
         end in
  data_product props = Some p ->
  newURL productUrl (Some base) = Ok u ->
  startsWith (pathname u) "//" = false ->
  (forall swatch value,
     getDefaultColorSwatchSelected (Some p) = Some swatch ->
     AttributeSwatch.SwatchValue swatch = Some value -> plain_value value = true) ->
  exists st u',
    initial_state = Ok st /\
    newURL (productPageUrl st) (Some base) = Ok u' /\
    pathname u' = pathname u /\
    searchParams u' = (searchParams u ++ back ++ color)%list /\
    productImageUrl st = productImageUrlFromSwatch generateImageUrl props /\
    selectedSwatchItems st = [] /\
    (color <> [] -> includes (productPageUrl st) "color" = true).
Proof.
  intros base productUrl back color Hp H Hss Hplain.
  destruct (newURL_base _ _ _ H) as [bu Hb].
  assert (S1 : exists url1 u1,
            (if truthy_bool (allowBack props) && truthy_string (Some productUrl)
             then updateProductUrl productUrl (context props) "back=true"
             else Ok productUrl) = Ok url1 /\
            newURL url1 (Some base) = Ok u1 /\ pathname u1 = pathname u /\
            searchParams u1 = (searchParams u ++ back)%list).
  { subst back. destruct (truthy_bool (allowBack props) && truthy_string (Some productUrl)).
    - destruct (updateProductUrl_reparse productUrl (context props) "back=true" u bu Hb H Hss)
        as [res [u1 [Hres [Hu1 [_ [_ [Hp1 [_ [Hs1 _]]]]]]]]].
      exists res, u1. split; [exact Hres|]. split; [exact Hu1|]. split; [exact Hp1|].
      rewrite Hs1. f_equal.
      exact (appended_param u "back" "true" eq_refl eq_refl).
    - exists productUrl, u. split; [reflexivity|]. split; [exact H|]. split; [reflexivity|].
      now rewrite app_nil_r. }
  destruct S1 as [url1 [u1 [E1 [Hu1 [Hp1 Hs1]]]]].
  assert (Hss1 : startsWith (pathname u1) "//" = false) by now rewrite Hp1.
  assert (S2 : exists url2 u2,
            getProductPageUrlFromDefaultSwatch (context props) url1 (Some p) = Ok (Some url2) /\
            newURL url2 (Some base) = Ok u2 /\ pathname u2 = pathname u1 /\
            searchParams u2 = (searchParams u1 ++ color)%list /\
            (color <> [] -> includes url2 "color" = true)).
  { subst color. unfold getProductPageUrlFromDefaultSwatch.
    assert (Same : exists url2 u2 : _,
              Ok (Some url1) = Ok (Some url2) /\
              newURL url2 (Some base) = Ok u2 /\ pathname u2 = pathname u1 /\
              searchParams u2 = (searchParams u1 ++ [])%list /\
              (@nil (string * string) <> [] -> includes url2 "color" = true)).
    { exists url1, u1. rewrite app_nil_r. repeat split; auto; congruence. }
    destruct (String.eqb _ DimensionTypes.none); [exact Same|].
    destruct (getDefaultColorSwatchSelected (Some p)) as [swatch|] eqn:Esw; [|exact Same].
    destruct (AttributeSwatch.SwatchValue swatch) as [[|c v]|] eqn:Ev; try exact Same.
    pose proof (Hplain _ _ eq_refl Ev) as Hv.
    destruct (updateProductUrl_reparse url1 (context props) ("color=" ++ String c v) u1 bu
                Hb Hu1 Hss1) as [res [u2 [Hres [Hu2 [_ [_ [Hp2 [_ [Hs2 _]]]]]]]]].
    rewrite Hres. cbn [bind]. exists res, u2. split; [reflexivity|]. split; [exact Hu2|].
    split; [exact Hp2|]. split.
    - rewrite Hs2. f_equal. exact (appended_param u1 "color" (String c v) eq_refl Hv).
    - intros _.
      destruct (updateProductUrl_param_text url1 (context props) "color" (String c v) u1
                  Hu1 eq_refl Hv) as [prefix Ht].
      change ("color" ++ "=" ++ String c v) with ("color=" ++ String c v) in Ht.
      rewrite Hres in Ht. injection Ht as ->.
      exact (includes_app prefix "color" _). }
  destruct S2 as [url2 [u2 [E2 [Hu2 [Hp2 [Hs2 Hi2]]]]]].
  exists (mkState url2 (productImageUrlFromSwatch generateImageUrl props) []), u2.
  split.
  - unfold initialState. rewrite Hp. fold productUrl. rewrite E1. cbn [bind].
    rewrite E2. reflexivity.
  - cbn [productPageUrl productImageUrl selectedSwatchItems].
    split; [exact Hu2|]. split; [congruence|].
    split; [now rewrite Hs2, Hs1, app_assoc|]. repeat split. exact Hi2.
Qed.


(** The page URL the card starts with stays in the fragment. *)
Lemma initialState_supported (p : ProductSearchResult.t) (u : URL) (st : State) :
  let base := baseUrl (apiSettings (context props)) in
  let productUrl :=
    getProductPageUrlSync (nullish (ProductSearchResult.Name p) EmptyString)
      (ProductSearchResult.RecordId p) in
  data_product props = Some p ->
  supported productUrl (Some base) = true ->
  newURL productUrl (Some base) = Ok u ->
  startsWith (pathname u) "//" = false ->
  initial_state = Ok st ->
  supported (productPageUrl st) (Some base) = true.
Proof.
  intros base productUrl Hp S H Hss Hinit.
  destruct (newURL_base _ _ _ H) as [bu Hb].
  assert (K1 : exists url1 u1,
            (if truthy_bool (allowBack props) && truthy_string (Some productUrl)
             then updateProductUrl productUrl (context props) "back=true"
             else Ok productUrl) = Ok url1 /\
            supported url1 (Some base) = true /\
            newURL url1 (Some base) = Ok u1 /\
            startsWith (pathname u1) "//" = false).
  { destruct (truthy_bool (allowBack props) && truthy_string (Some productUrl)).
    - destruct (updateProductUrl_reparse productUrl (context props) "back=true" u bu Hb H Hss)
        as [res [u1 [Hres [Hu1 [_ [_ [Hp1 _]]]]]]].
      exists res, u1. split; [exact Hres|].
      split; [exact (updateProductUrl_supported _ _ _ _ _ S H Hss Hres)|].
      split; [exact Hu1 | now rewrite Hp1].
    - exists productUrl, u. repeat split; assumption. }
  destruct K1 as [url1 [u1 [E1 [S1 [Hu1 Hss1]]]]].
  unfold initialState in Hinit. rewrite Hp in Hinit. fold productUrl in Hinit.
  rewrite E1 in Hinit. cbn [bind] in Hinit.
  unfold getProductPageUrlFromDefaultSwatch in Hinit.
  destruct (String.eqb _ DimensionTypes.none); [now injection Hinit as <-|].
  destruct (getDefaultColorSwatchSelected (Some p)) as [swatch|];
    [|now injection Hinit as <-].
  destruct (AttributeSwatch.SwatchValue swatch) as [[|c v]|];
    try (now injection Hinit as <-).
  destruct (updateProductUrl url1 (context props) ("color=" ++ String c v)) as [res|e]
    eqn:Eres; [|discriminate].
  cbn [bind] in Hinit. injection Hinit as <-. cbn [productPageUrl nullish].
  exact (updateProductUrl_supported _ _ _ _ _ S1 Hu1 Hss1 Eres).
Qed.

(** X9.  The page URL the card starts with, read against the base, has the
    path of the URL of the product page, and its query parameters are those
    of that URL, followed by [back=true] when going back is allowed and the
    URL is not empty, followed by the [color] parameter of the default color
    swatch when pre-selection is on and that swatch has a value.  This is
    for a URL of the product page and a base URL that the URL model covers,
    the former parsing with a path that does not begin with two slashes,
    and a swatch value that is carried unchanged by a query string; the
    page URL is then again one that the model covers. *)
Theorem initial_page_url_parameters (p : ProductSearchResult.t) (u : URL) :
  let base := baseUrl (apiSettings (context props)) in
  let productUrl :=
    getProductPageUrlSync (nullish (ProductSearchResult.Name p) EmptyString)
      (ProductSearchResult.RecordId p) in
  let back :=
    if truthy_bool (allowBack props) && truthy_string (Some productUrl)
    then [("back", "true")] else [] in
  let color :=
    if String.eqb (dimensionToPreSelectInProductCard (config (context props)))
         DimensionTypes.none
    then []
    else match getDefaultColorSwatchSelected (Some p) with
         | Some swatch =>
             match AttributeSwatch.SwatchValue swatch with
             | Some (String c v) => [("color", String c v)]
             | _ => []
             end
         | None => []
         end in
  data_product props = Some p ->
  supported productUrl (Some base) = true ->
  newURL productUrl (Some base) = Ok u ->
  startsWith (pathname u) "//" = false ->
  (forall swatch value,
     getDefaultColorSwatchSelected (Some p) = Some swatch ->
     AttributeSwatch.SwatchValue swatch = Some value -> plain_value value = true) ->
  exists st u',
    initial_state = Ok st /\
    supported (productPageUrl st) (Some base) = true /\
    newURL (productPageUrl st) (Some base) = Ok u' /\
    pathname u' = pathname u /\
    searchParams u' = (searchParams u ++ back ++ color)%list.
Proof.
  intros base productUrl back color Hp S H Hss Hplain.
  destruct (initialState_reparse p u Hp H Hss Hplain) as [st [u' [A [B [C [D _]]]]]].
  exists st, u'. split; [exact A|].
  split; [exact (initialState_supported p u st Hp S H Hss A)|].
  split; [exact B|]. split; [exact C | exact D].
Qed.

(** X10.  With a base URL that has no colon in it, the card throws while it
    renders, mounted or not, whenever it has a parameter to add to the URL
    of the product page: [back=true], or the [color] parameter of the
    default color swatch.  With no parameter to add the render completes,
    whatever the base URL is. *)
Theorem card_render_needs_absolute_base (hooks : option State) (p : ProductSearchResult.t) :
  let productUrl :=
    getProductPageUrlSync (nullish (ProductSearchResult.Name p) EmptyString)
      (ProductSearchResult.RecordId p) in
  let adds_back := truthy_bool (allowBack props) && truthy_string (Some productUrl) in
  let adds_color :=
    negb (String.eqb (dimensionToPreSelectInProductCard (config (context props)))
            DimensionTypes.none)
    && match getDefaultColorSwatchSelected (Some p) with
       | Some swatch => truthy_string (AttributeSwatch.SwatchValue swatch)
       | None => false
       end in
  data_product props = Some p ->
  (mem ":" (baseUrl (apiSettings (context props))) = false ->
   adds_back || adds_color = true ->
   exists message, product_card hooks = Throw (TypeError message)) /\
  (adds_back || adds_color = false ->
   exists markup,
     product_card hooks
     = Ok (match hooks with
           | Some st => st
           | None => mkState productUrl (productImageUrlFromSwatch generateImageUrl props) []
           end, Some markup)).
Proof.
  intros productUrl adds_back adds_color Hp. split.
  - intros Hb Hadd. exists "Invalid URL".
    unfold ProductCard, initialState. rewrite Hp. fold productUrl. fold adds_back.
    destruct adds_back.
    + now rewrite (updateProductUrl_no_colon _ _ _ Hb).
    + cbn [bind orb] in *. unfold getProductPageUrlFromDefaultSwatch.
      subst adds_color. apply andb_true_iff in Hadd as [Hpre Hsw].
      apply negb_true_iff in Hpre. rewrite Hpre.
      destruct (getDefaultColorSwatchSelected (Some p)) as [swatch|]; [|discriminate].
      destruct (AttributeSwatch.SwatchValue swatch) as [[|c v]|]; try discriminate.
      now rewrite (updateProductUrl_no_colon _ _ _ Hb).
  - intros Hadd. apply orb_false_iff in Hadd as [Hback Hcolor].
    assert (E : initial_state
                = Ok (mkState productUrl (productImageUrlFromSwatch generateImageUrl props) [])).
    { unfold initialState. rewrite Hp. fold productUrl. fold adds_back. rewrite Hback.
      cbn [bind]. unfold getProductPageUrlFromDefaultSwatch.
      subst adds_color. destruct (String.eqb _ DimensionTypes.none); [reflexivity|].
      cbn [negb andb] in Hcolor.
      destruct (getDefaultColorSwatchSelected (Some p)) as [swatch|]; [|reflexivity].
      destruct (AttributeSwatch.SwatchValue swatch) as [[|c v]|]; try reflexivity.
      discriminate. }
    unfold ProductCard. rewrite E. cbn [bind]. rewrite Hp. eexists. reflexivity.
Qed.

End InitialStateProperties.

Lemma initial_page_url_parameters_witness :
  exists st u',
    initialState Sample.getProductPageUrlSync Sample.generateImageUrl
      (mkProps (Some Sample.shirt) Sample.coreContext None None None None None None None
         (Some true) "product" "card-1" None None None None None None None) = Ok st /\
    productPageUrl st = "/Shirt/123.p?back=true&color=Red" /\
    Url.newURL (productPageUrl st) (Some "https://shop.example/") = Ok u' /\
    Url.searchParams u' = [("back", "true"); ("color", "Red")].
Proof.
  destruct (initial_page_url_parameters Sample.getProductPageUrlSync Sample.generateImageUrl
              (mkProps (Some Sample.shirt) Sample.coreContext None None None None None None
                 None (Some true) "product" "card-1" None None None None None None None)
              Sample.shirt
              (Url.mkURL Url.Https "shop.example" "/Shirt/123.p" None None)
              eq_refl eq_refl eq_refl eq_refl)
    as [st [u' [A [_ [B [_ C]]]]]].
  - intros swatch value Hs Hv. vm_compute in Hs. injection Hs as <-.
    vm_compute in Hv. now injection Hv as <-.
  - exists st, u'. split; [exact A|]. split.
    + vm_compute in A. now injection A as <-.
    + split; [exact B | exact C].
Defined.

Lemma card_render_needs_absolute_base_witness :
  exists message,
    ProductCard string Sample.getProductPageUrlSync Sample.generateImageUrl
      Sample.checkIfShouldDisplayAsSwatch Sample.convertDimensionTypeToProductDimensionType
      Sample.format Sample.toFixed Sample.numberToString Sample.stringToNumber
      Sample.formatCurrency Sample.getPayloadObject Sample.getTelemetryAttributes
      (mkProps (Some Sample.shirt)
         (mkContext (mkApiSettings EmptyString "https://images.example/") None
            (mkAppConfig DimensionTypes.none None None None))
         None None None None None None None (Some true) "product" "card-1" None None None None
         None None None)
      (Some (Sample.state "/Shirt/123.p"))
    = Throw (TypeError message).
Proof.
  refine (proj1 (card_render_needs_absolute_base string Sample.getProductPageUrlSync
                   Sample.generateImageUrl Sample.checkIfShouldDisplayAsSwatch
                   Sample.convertDimensionTypeToProductDimensionType Sample.format
                   Sample.toFixed Sample.numberToString Sample.stringToNumber
                   Sample.formatCurrency Sample.getPayloadObject Sample.getTelemetryAttributes
                   (mkProps (Some Sample.shirt)
                      (mkContext (mkApiSettings EmptyString "https://images.example/") None
                         (mkAppConfig DimensionTypes.none None None None))
                      None None None None None None None (Some true) "product" "card-1" None
                      None None None None None None)
                   (Some (Sample.state "/Shirt/123.p")) Sample.shirt eq_refl) _ _);
    reflexivity.
Defined.

Module DefaultSelectionFacts.
Import Url.

Lemma filter_absent (name : string) (l : list (string * string)) :
  getAll name l = [] -> filter (fun t => negb (String.eqb (fst t) name)) l = l.
Proof.
  unfold getAll. induction l as [|t r IH]; [reflexivity|]. cbn [filter].
  destruct (String.eqb (fst t) name); cbn [negb map]; [discriminate|].
  intros H. now rewrite (IH H).
Qed.

End DefaultSelectionFacts.

Section DefaultSelectionProperties.
Import Text Percent FormUrlEncoded Url Wf Fragment JS.
Import TextFacts PercentFacts FormFacts UrlFacts RoundTrip PageUrlFacts UpdateFacts ParamFacts.
Import ReparseFacts BaseFacts FragmentFacts SelectFacts DefaultSelectionFacts.

Variable getProductPageUrlSync : string -> Z -> string.
Variable generateImageUrl : option string -> ApiSettings -> option string.
Variable props : IProductComponentProps.

Local Abbreviation initial_state :=
  (initialState getProductPageUrlSync generateImageUrl props) (only parsing).

(** X11.  Selecting the pre-selected swatch changes nothing.  Pre-selection
    is on, the product has a default color swatch with a value, and the
    card has just started; a color swatch with the value and the product
    images of the default swatch is selected.  Then the call completes, and
    the page URL read against the base has the path and the query
    parameters it had before; and when the default swatch has product
    images and an image URL is generated from the first of them, the image
    URL is the one the card started with.  This is for a URL of the product
    page and a base URL that the URL model covers, the former parsing with
    a path that does not begin with two slashes and without a [color]
    parameter, and a value that is not blank and is carried unchanged by a
    query string; the page URLs before and after the call are again ones
    that the model covers. *)
Theorem selecting_default_swatch_keeps_card (p : ProductSearchResult.t) (u : URL)
    (chosen : AttributeSwatch.t) (value : string) (swatchItem : SwatchItem.t) :
  let base := baseUrl (apiSettings (context props)) in
  let productUrl :=
    getProductPageUrlSync (nullish (ProductSearchResult.Name p) EmptyString)
      (ProductSearchResult.RecordId p) in
  data_product props = Some p ->
  dimensionToPreSelectInProductCard (config (context props)) <> DimensionTypes.none ->
  supported productUrl (Some base) = true ->
  newURL productUrl (Some base) = Ok u ->
  startsWith (pathname u) "//" = false ->
  getAll "color" (searchParams u) = [] ->
  getDefaultColorSwatchSelected (Some p) = Some chosen ->
  AttributeSwatch.SwatchValue chosen = Some value ->
  isNullOrWhitespace (Some value) = false ->
  plain_value value = true ->
  SwatchItem.dimensionType swatchItem = DimensionTypes.color ->
  SwatchItem.value swatchItem = value ->
  SwatchItem.productImageUrls swatchItem = AttributeSwatch.ProductImageUrls chosen ->
  exists st0 st1 u0 u1,
    initial_state = Ok st0 /\
    updatePageAndImageUrl generateImageUrl props st0 (context props) swatchItem = Done st1 /\
    supported (productPageUrl st0) (Some base) = true /\
    supported (productPageUrl st1) (Some base) = true /\
    newURL (productPageUrl st0) (Some base) = Ok u0 /\
    newURL (productPageUrl st1) (Some base) = Ok u1 /\
    pathname u1 = pathname u0 /\
    searchParams u1 = searchParams u0 /\
    (forall first rest image,
       AttributeSwatch.ProductImageUrls chosen = Some (first :: rest) ->
       generateImageUrl (Some first) (apiSettings (context props)) = Some image ->
       productImageUrl st1 = productImageUrl st0).
Proof.
  intros base productUrl Hp Hpre S Hu Hss Hnocolor Hchosen Hvalue Hblank Hplain Hdim Hval Himg.
  assert (Hall : forall swatch value',
            getDefaultColorSwatchSelected (Some p) = Some swatch ->
            AttributeSwatch.SwatchValue swatch = Some value' -> plain_value value' = true).
  { intros swatch value' Hs Hv'. rewrite Hchosen in Hs. injection Hs as <-.
    rewrite Hvalue in Hv'. now injection Hv' as <-. }
  destruct (initialState_reparse getProductPageUrlSync generateImageUrl props p u Hp Hu Hss
              Hall) as [st0 [u0 [Hst0 [Hu0 [Hp0 [Hs0 [Hi0 [_ Hinc]]]]]]]].
  pose proof (initialState_supported getProductPageUrlSync generateImageUrl props p u st0 Hp S
                Hu Hss Hst0) as S0.
  fold base in Hu0, S0. fold productUrl in Hs0, Hinc.
  destruct (String.eqb_spec (dimensionToPreSelectInProductCard (config (context props)))
              DimensionTypes.none) as [|_]; [contradiction|].
  rewrite Hchosen, Hvalue in Hs0, Hinc.
  destruct value as [|c v]; [discriminate Hblank|].
  specialize (Hinc ltac:(discriminate)).
  set (back := if truthy_bool (allowBack props) && truthy_string (Some productUrl)
               then [("back", "true")] else []) in Hs0.
  assert (Hss0 : startsWith (pathname u0) "//" = false) by now rewrite Hp0.
  assert (Hn : plain_name (SwatchItem.dimensionType swatchItem) = true)
    by now rewrite Hdim.
  assert (Hv : plain_value (SwatchItem.value swatchItem) = true) by now rewrite Hval.
  assert (Hb : isNullOrWhitespace (Some (SwatchItem.value swatchItem)) = false)
    by now rewrite Hval.
  destruct (productPageUrlWithSwatch_reparse props st0 (context props) swatchItem u0 eq_refl
              Hu0 Hss0 Hn Hv) as [res [u1 [prefix [Hres [Hu1 [Hp1 [Hs1 _]]]]]]].
  rewrite Hdim, Hval in Hs1. change DimensionTypes.color with "color" in Hs1.
  rewrite Hinc in Hs1.
  destruct (updatePageAndImageUrl_done generateImageUrl props st0 (context props) swatchItem
              res Hb Hres) as [st1 [Hdone [Hurl1 Himg1]]].
  pose proof (productPageUrlWithSwatch_supported props st0 (context props) swatchItem u0 res
                eq_refl S0 Hu0 Hss0 Hres) as S1.
  exists st0, st1, u0, u1. split; [exact Hst0|]. split; [exact Hdone|].
  split; [exact S0|]. split; [now rewrite Hurl1|].
  split; [exact Hu0|]. split; [now rewrite Hurl1|]. split; [exact Hp1|]. split.
  - rewrite Hs1, Hs0, !filter_app.
    rewrite (filter_absent _ _ Hnocolor).
    assert (Eb : filter (fun t => negb (String.eqb (fst t) "color")) back = back)
      by (subst back; now destruct (truthy_bool (allowBack props) && _)).
    rewrite Eb. cbn [filter fst String.eqb Ascii.eqb Bool.eqb negb].
    now rewrite app_nil_r, app_assoc.
  - intros first rest image Hfirst Hgen.
    rewrite Himg1, Hdim, String.eqb_refl, Himg, Hfirst, Hgen, Hi0.
    unfold productImageUrlFromSwatch, getProductImageUrlFromDefaultColorSwatch.
    rewrite Hp, Hchosen, Hfirst, Hgen.
    destruct (String.eqb_spec (dimensionToPreSelectInProductCard (config (context props)))
                DimensionTypes.none) as [|_]; [contradiction | reflexivity].
Qed.

End DefaultSelectionProperties.

Lemma selecting_default_swatch_keeps_card_witness :
  let product :=
    ProductSearchResult.mk 123 None (Some "Shirt") None None 20%float None None
      (Some "/images/shirt.png") None None None None
      (Some [AttributeValue.mk (Some 5%Z) (Some "Color")
               (Some [AttributeSwatch.mk (Some "Navy Blue") None None
                        (Some ["/images/navy.png"]) (Some true)])])
      None in
  let props :=
    mkProps (Some product) Sample.coreContext None None None None None None None (Some true)
      "product" "card-1" None None None None None None None in
  exists st0 st1,
    initialState Sample.getProductPageUrlSync Sample.generateImageUrl props = Ok st0 /\
    updatePageAndImageUrl Sample.generateImageUrl props st0 Sample.coreContext
      (Sample.swatch "color" "Navy Blue" (Some ["/images/navy.png"])) = Done st1 /\
    urlParameter "https://shop.example/" (productPageUrl st0) "color" = Ok ["Navy Blue"] /\
    urlParameter "https://shop.example/" (productPageUrl st1) "color" = Ok ["Navy Blue"] /\
    productImageUrl st1 = productImageUrl st0.
Proof.
  cbv zeta.
  match goal with
  | |- exists st0 st1, initialState _ _ ?props = _ /\ _ =>
      destruct (selecting_default_swatch_keeps_card Sample.getProductPageUrlSync
                  Sample.generateImageUrl props
                  (ProductSearchResult.mk 123 None (Some "Shirt") None None 20%float None None
                     (Some "/images/shirt.png") None None None None
                     (Some [AttributeValue.mk (Some 5%Z) (Some "Color")
                              (Some [AttributeSwatch.mk (Some "Navy Blue") None None
                                       (Some ["/images/navy.png"]) (Some true)])])
                     None)
                  (Url.mkURL Url.Https "shop.example" "/Shirt/123.p" None None)
                  (AttributeSwatch.mk (Some "Navy Blue") None None (Some ["/images/navy.png"])
                     (Some true))
                  "Navy Blue"
                  (Sample.swatch "color" "Navy Blue" (Some ["/images/navy.png"]))
                  eq_refl ltac:(discriminate) eq_refl eq_refl eq_refl eq_refl eq_refl eq_refl
                  eq_refl eq_refl eq_refl eq_refl eq_refl)
        as [st0 [st1 [u0 [u1 [A [B [_ [_ [C [D [_ [E F]]]]]]]]]]]]
  end.
  exists st0, st1. split; [exact A|]. split; [exact B|].
  assert (G : Url.getAll "color" (Url.searchParams u0) = ["Navy Blue"]).
  { vm_compute in A. injection A as <-. vm_compute in C. injection C as <-. reflexivity. }
  change (Url.newURL (productPageUrl st0) (Some "https://shop.example/") = Ok u0) in C.
  change (Url.newURL (productPageUrl st1) (Some "https://shop.example/") = Ok u1) in D.
  unfold urlParameter. rewrite C, D. cbn [bind]. rewrite E, G.
  split; [reflexivity|]. split; [reflexivity|].
  exact (F "/images/navy.png" [] _ eq_refl eq_refl).
Defined.

(** * The swatch groups *)

Module SwatchFacts.
Import Text JS.

Lemma Forall2_map_r {A B : Type} (R : A -> B -> Prop) (f : A -> B) (l : list A) :
  (forall x, R x (f x)) -> Forall2 R l (map f l).
Proof. intros H. induction l; constructor; auto. Qed.

Lemma existsb_map {A B : Type} (f : A -> B) (p : B -> bool) (l : list A) :
  existsb p (map f l) = existsb (fun x => p (f x)) l.
Proof. induction l as [|x r IH]; simpl; [reflexivity | now rewrite IH]. Qed.

End SwatchFacts.

Section SwatchProperties.
Import Text Url Fragment JS SwatchFacts.

Variable checkIfShouldDisplayAsSwatch : string -> ICoreContext -> bool.
Variable format : string -> list string -> string.
Variable props : IProductComponentProps.

Local Abbreviation swatch_group := (swatchGroup checkIfShouldDisplayAsSwatch format props)
  (only parsing).
Local Abbreviation swatch_items := (swatchItems checkIfShouldDisplayAsSwatch format props)
  (only parsing).

(** The swatch group of an attribute, before a default is forced. *)
Lemma swatchGroup_cases (item : AttributeValue.t) (group : SwatchGroup) :
  swatch_group item = Some group ->
  let key := match AttributeValue.KeyName item with
             | Some k => toLocaleLowerCase k
             | None => EmptyString
             end in
  let made := map (toSwatchItem format props item key)
                (nullish (AttributeValue.Swatches item) []) in
  checkIfShouldDisplayAsSwatch key (context props) = true /\
  recordId group = AttributeValue.RecordId item /\
  (swatches group = made \/
   (swatches group = mark_first_default made /\
    String.eqb (dimensionToPreSelectInProductCard (config (context props)))
      DimensionTypes.none = false /\
    key = DimensionTypes.color /\
    existsb (fun a => truthy_bool (AttributeSwatch.IsDefault a))
      (nullish (AttributeValue.Swatches item) []) = false)).
Proof.
  intros H key made. unfold swatchGroup in H. fold key in H.
  destruct (checkIfShouldDisplayAsSwatch key (context props)); [|discriminate].
  cbn [negb] in H. injection H as <-. cbn [recordId swatches].
  split; [reflexivity|]. split; [reflexivity|].
  assert (E : match AttributeValue.Swatches item with
              | Some l => map (toSwatchItem format props item key) l
              | None => []
              end = made).
  { subst made. now destruct (AttributeValue.Swatches item). }
  rewrite E.
  destruct (String.eqb _ DimensionTypes.none) eqn:Epre; [now left|].
  change (match made with [] => false | _ :: _ => true end)
    with (hasElements (Some made)).
  destruct (hasElements (Some made)); [|now left].
  destruct (some _ made) eqn:Esome; [now left|].
  destruct (String.eqb_spec key DimensionTypes.color) as [Hc|Hc]; [|now left].
  right. cbn [negb andb]. repeat split; try assumption.
  subst made. unfold some in Esome. rewrite existsb_map in Esome. exact Esome.
Qed.

(** X12.  The attributes of the product have key names made of ASCII
    bytes other than the capital [I], and record identifiers, where they
    have one, that a number holds exactly.  Then the swatch groups of the
    card follow the attributes of the product that are displayed as
    swatches, one group per attribute in the order of the attributes, and
    the swatches of a group follow the swatches of its attribute one by one:
    each takes over the value (empty when absent), the color code, the image
    and the product images, has the lower-cased key name of the attribute
    as its dimension type, and has the identifier
    [<record id>-<dimension type>-<value>].  An attribute without swatches
    gives a group without swatches. *)
Theorem swatch_groups_follow_attributes (product : ProductSearchResult.t) :
  let key item := match AttributeValue.KeyName item with
                  | Some k => toLocaleLowerCase k
                  | None => EmptyString
                  end in
  let covered item :=
    match AttributeValue.KeyName item with Some k => plain_key k | None => true end
    && match AttributeValue.RecordId item with Some r => safe_integer r | None => true end in
  let displayed item := checkIfShouldDisplayAsSwatch (key item) (context props) in
  let follows item (a : AttributeSwatch.t) (s : SwatchItem.t) :=
    SwatchItem.value s = nullish (AttributeSwatch.SwatchValue a) EmptyString /\
    SwatchItem.dimensionType s = key item /\
    SwatchItem.itemId s
    = match AttributeValue.RecordId item with
      | Some r => Z_toString r
      | None => EmptyString
      end ++ "-" ++ key item ++ "-" ++ SwatchItem.value s /\
    SwatchItem.colorHexCode s = AttributeSwatch.SwatchColorHexCode a /\
    SwatchItem.imageUrl s = AttributeSwatch.SwatchImageUrl a /\
    SwatchItem.productImageUrls s = AttributeSwatch.ProductImageUrls a in
  forallb covered (nullish (ProductSearchResult.AttributeValues product) []) = true ->
  Forall2
    (fun item group =>
       recordId group = AttributeValue.RecordId item /\
       Forall2 (follows item) (nullish (AttributeValue.Swatches item) []) (swatches group))
    (filter displayed (nullish (ProductSearchResult.AttributeValues product) []))
    (swatch_items product).
Proof.
  intros key covered displayed follows _. unfold swatchItems.
  destruct (ProductSearchResult.AttributeValues product) as [attributes|];
    [|constructor].
  cbn [option_map validValues nullish].
  induction attributes as [|item rest IH]; [constructor|].
  cbn [map flat_map filter].
  destruct (swatch_group item) as [group|] eqn:E.
  - destruct (swatchGroup_cases item group E) as [Hd [Hr Hs]].
    unfold displayed at 1. unfold key at 1. rewrite Hd.
    cbn [app]. constructor; [|exact IH]. split; [exact Hr|].
    assert (Hm : Forall2 (follows item) (nullish (AttributeValue.Swatches item) [])
                   (map (toSwatchItem format props item (key item))
                      (nullish (AttributeValue.Swatches item) []))).
    { apply Forall2_map_r. intros a. repeat split. }
    destruct Hs as [-> | [-> _]]; [exact Hm|].
    fold (key item). inversion Hm as [|a s la ls Ha Hl Ea Es]; [constructor|].
    cbn [mark_first_default]. constructor; [|exact Hl].
    destruct Ha as [A [B [C [D [F G]]]]]. repeat split; assumption.
  - assert (Hd : displayed item = false).
    { unfold swatchGroup in E. unfold displayed, key.
      destruct (checkIfShouldDisplayAsSwatch _ _); [discriminate | reflexivity]. }
    rewrite Hd. exact IH.
Qed.

(** X13.  Whether a swatch of the card is disabled: never when the stock
    check is not switched on; with the stock check on, as the first entry
    of the availability list whose value is the value of the swatch says,
    and not when there is no such entry or no list.  The dimension of the
    swatch plays no part: swatches of equal value are disabled alike. *)
Theorem swatch_disabled_by_value (item : AttributeValue.t) (group : SwatchGroup)
    (swatch : SwatchItem.t) :
  swatch_group item = Some group ->
  In swatch (swatches group) ->
  (enableStockCheck (config (context props)) <> Some true ->
   truthy_bool (SwatchItem.isDisabled swatch) = false) /\
  (enableStockCheck (config (context props)) = Some true ->
   SwatchItem.isDisabled swatch
   = option_map DimensionAvailability.isDisabled
       (find (fun entry => String.eqb (DimensionAvailability.value entry)
                             (SwatchItem.value swatch))
          (nullish (dimensionAvailabilities props) []))) /\
  (forall item' group' swatch',
     swatch_group item' = Some group' ->
     In swatch' (swatches group') ->
     SwatchItem.value swatch' = SwatchItem.value swatch ->
     SwatchItem.isDisabled swatch' = SwatchItem.isDisabled swatch).
Proof.
  assert (Hflag : forall item group swatch,
            swatch_group item = Some group -> In swatch (swatches group) ->
            SwatchItem.isDisabled swatch
            = match enableStockCheck (config (context props)) with
              | Some true =>
                  match dimensionAvailabilities props with
                  | Some availabilities =>
                      option_map DimensionAvailability.isDisabled
                        (find (fun entry => String.eqb (DimensionAvailability.value entry)
                                              (SwatchItem.value swatch)) availabilities)
                  | None => None
                  end
              | falsy => falsy
              end).
  { clear item group swatch. intros item group swatch Hg Hs.
    destruct (swatchGroup_cases item group Hg) as [_ [_ Hc]].
    assert (Hin : exists s0, In s0 (map (toSwatchItem format props item
                      match AttributeValue.KeyName item with
                      | Some k => toLocaleLowerCase k
                      | None => EmptyString
                      end) (nullish (AttributeValue.Swatches item) []))
                    /\ SwatchItem.value s0 = SwatchItem.value swatch
                    /\ SwatchItem.isDisabled s0 = SwatchItem.isDisabled swatch).
    { destruct Hc as [E | [E _]]; rewrite E in Hs.
      - exists swatch. auto.
      - destruct (map _ _) as [|x r]; [destruct Hs|].
        destruct Hs as [<-|Hs]; [exists x | exists swatch]; simpl; auto. }
    destruct Hin as [s0 [Hs0 [Hv Hd]]]. rewrite <- Hd, <- Hv.
    apply in_map_iff in Hs0 as [a [<- _]]. reflexivity. }
  intros Hg Hs. split; [|split].
  - intros Hoff. rewrite (Hflag _ _ _ Hg Hs).
    destruct (enableStockCheck (config (context props))) as [[|]|]; [congruence | |];
      reflexivity.
  - intros Hon. rewrite (Hflag _ _ _ Hg Hs), Hon.
    now destruct (dimensionAvailabilities props).
  - intros item' group' swatch' Hg' Hs' Hv.
    now rewrite (Hflag _ _ _ Hg Hs), (Hflag _ _ _ Hg' Hs'), Hv.
Qed.

(** X14.  The default flags of the swatches of a group are those of the
    swatches of the attribute whenever pre-selection is off, the dimension
    is not the color, or a swatch of the attribute is marked default; and in
    every case the flags behind the first swatch are those of the
    attribute. *)
Theorem default_flags_kept (item : AttributeValue.t) (group : SwatchGroup) :
  let key := match AttributeValue.KeyName item with
             | Some k => toLocaleLowerCase k
             | None => EmptyString
             end in
  let source := nullish (AttributeValue.Swatches item) [] in
  swatch_group item = Some group ->
  (String.eqb (dimensionToPreSelectInProductCard (config (context props)))
     DimensionTypes.none
   || negb (String.eqb key DimensionTypes.color)
   || existsb (fun a => truthy_bool (AttributeSwatch.IsDefault a)) source = true ->
   map SwatchItem.isDefault (swatches group) = map AttributeSwatch.IsDefault source) /\
  tl (map SwatchItem.isDefault (swatches group)) = tl (map AttributeSwatch.IsDefault source).
Proof.
  intros key source Hg.
  destruct (swatchGroup_cases item group Hg) as [_ [_ Hc]]. fold key in Hc. fold source in Hc.
  assert (Hm : map SwatchItem.isDefault (map (toSwatchItem format props item key) source)
               = map AttributeSwatch.IsDefault source).
  { rewrite map_map. reflexivity. }
  destruct Hc as [E | [E [Hpre [Hkey Hnone]]]]; rewrite E.
  - rewrite Hm. split; reflexivity.
  - split.
    + rewrite Hpre, Hkey, Hnone. discriminate.
    + rewrite <- Hm. now destruct (map (toSwatchItem format props item key) source).
Qed.

End SwatchProperties.

Lemma swatch_groups_follow_attributes_witness :
  exists group s,
    swatchItems Sample.checkIfShouldDisplayAsSwatch Sample.format (Sample.props None None)
      Sample.shirt = [group] /\
    recordId group = Some 5%Z /\
    swatches group = [s] /\
    SwatchItem.value s = "Red" /\
    SwatchItem.dimensionType s = "color" /\
    SwatchItem.itemId s = "5-color-Red".
Proof.
  pose proof (swatch_groups_follow_attributes Sample.checkIfShouldDisplayAsSwatch
                Sample.format (Sample.props None None) Sample.shirt eq_refl) as H.
  cbv zeta in H.
  match type of H with
  | Forall2 _ ?l _ => let l' := eval vm_compute in l in change l with l' in H
  end.
  destruct (swatchItems Sample.checkIfShouldDisplayAsSwatch Sample.format
              (Sample.props None None) Sample.shirt) as [|group rest];
    inversion H as [|item g l l' [Hr Hs] Hrest]; subst.
  inversion Hrest; subst.
  cbn [AttributeValue.Swatches AttributeValue.RecordId AttributeValue.KeyName JS.nullish]
    in Hr, Hs.
  inversion Hs as [|a s la ls [Hv [Hd [Hi _]]] Hnone Ea Es]; subst. inversion Hnone; subst.
  exists group, s. split; [reflexivity|]. split; [exact Hr|]. split; [congruence|].
  split; [exact Hv|]. split; [exact Hd|]. rewrite Hi, Hv. reflexivity.
Defined.

Lemma swatch_disabled_by_value_witness :
  exists group,
    swatchGroup Sample.checkIfShouldDisplayAsSwatch Sample.format
      (mkProps None
         (mkContext Sample.api None (mkAppConfig DimensionTypes.none (Some true) None None))
         None None None None None None None None "product" "card-1" None None None None None
         (Some [DimensionAvailability.mk "M" true (Some 7%Z);
                DimensionAvailability.mk "M" false (Some 8%Z)]) None)
      (AttributeValue.mk (Some 6%Z) (Some "Size")
         (Some [AttributeSwatch.mk (Some "M") None None None None;
                AttributeSwatch.mk (Some "L") None None None None]))
    = Some group /\
    map SwatchItem.isDisabled (swatches group) = [Some true; None].
Proof.
  match goal with |- exists g, ?c = Some g /\ _ => destruct c as [group|] eqn:Hg end;
    [|discriminate Hg].
  exists group. split; [reflexivity|].
  pose proof (fun s Hs =>
    proj1 (proj2 (swatch_disabled_by_value Sample.checkIfShouldDisplayAsSwatch Sample.format
                    _ _ group s Hg Hs)) eq_refl) as A.
  vm_compute in Hg. injection Hg as <-.
  cbn [swatches map].
  rewrite (A _ (or_introl eq_refl)), (A _ (or_intror (or_introl eq_refl))).
  reflexivity.
Defined.

Lemma default_flags_kept_witness :
  exists group,
    swatchGroup Sample.checkIfShouldDisplayAsSwatch Sample.format (Sample.props None None)
      (AttributeValue.mk (Some 6%Z) (Some "Size")
         (Some [AttributeSwatch.mk (Some "M") None None None None;
                AttributeSwatch.mk (Some "L") None None None (Some false)]))
    = Some group /\
    map SwatchItem.isDefault (swatches group) = [None; Some false].
Proof.
  match goal with |- exists g, ?c = Some g /\ _ => destruct c as [group|] eqn:Hg end;
    [|discriminate Hg].
  exists group. split; [reflexivity|].
  refine (proj1 (default_flags_kept Sample.checkIfShouldDisplayAsSwatch Sample.format
                   (Sample.props None None) _ group Hg) _).
  reflexivity.
Defined.

Module DefaultFacts.
Import Text JS.

Lemma find_map {A B : Type} (f : A -> B) (p : B -> bool) (l : list A) :
  List.find p (map f l) = option_map f (List.find (fun x => p (f x)) l).
Proof.
  induction l as [|x r IH]; [reflexivity|]. cbn [map List.find].
  destruct (p (f x)); [reflexivity | exact IH].
Qed.

Lemma find_none_existsb {A : Type} (p : A -> bool) (l : list A) :
  List.find p l = None -> existsb p l = false.
Proof.
  induction l as [|x r IH]; [reflexivity|]. cbn [List.find existsb].
  destruct (p x); [discriminate | exact IH].
Qed.

Lemma find_some_existsb {A : Type} (p : A -> bool) (l : list A) (x : A) :
  List.find p l = Some x -> existsb p l = true.
Proof.
  induction l as [|y r IH]; [discriminate|]. cbn [List.find existsb].
  destruct (p y); [reflexivity | exact IH].
Qed.

Lemma validValues_member {A : Type} (l : list (option A)) (x : A) :
  In (Some x) l -> In x (validValues (Some l)).
Proof.
  intros H. unfold validValues. apply in_flat_map. exists (Some x). split; [exact H | now left].
Qed.

End DefaultFacts.

Section DefaultSwatchProperties.
Import Text Url JS SwatchFacts DefaultFacts.

Variable checkIfShouldDisplayAsSwatch : string -> ICoreContext -> bool.
Variable format : string -> list string -> string.
Variable props : IProductComponentProps.

Local Abbreviation swatch_group := (swatchGroup checkIfShouldDisplayAsSwatch format props)
  (only parsing).
Local Abbreviation swatch_items := (swatchItems checkIfShouldDisplayAsSwatch format props)
  (only parsing).

(** X15.  Under pre-selection, the swatch that the page URL and the image
    of the card start from is the swatch shown as the default one: in the
    swatch group of the first color attribute of the product, the first
    swatch whose default flag is set has the value and the product images
    of the swatch that [getDefaultColorSwatchSelected] returns. *)
Theorem default_swatch_matches_initial_selection (p : ProductSearchResult.t)
    (attributes : list AttributeValue.t) (item : AttributeValue.t) (group : SwatchGroup)
    (chosen : AttributeSwatch.t) :
  ProductSearchResult.AttributeValues p = Some attributes ->
  List.find isColorAttribute attributes = Some item ->
  swatch_group item = Some group ->
  dimensionToPreSelectInProductCard (config (context props)) <> DimensionTypes.none ->
  getDefaultColorSwatchSelected (Some p) = Some chosen ->
  In group (swatch_items p) /\
  exists shown,
    find (fun s => truthy_bool (SwatchItem.isDefault s)) (swatches group) = Some shown /\
    SwatchItem.isDefault shown = Some true /\
    SwatchItem.dimensionType shown = DimensionTypes.color /\
    SwatchItem.value shown = nullish (AttributeSwatch.SwatchValue chosen) EmptyString /\
    SwatchItem.productImageUrls shown = AttributeSwatch.ProductImageUrls chosen.
Proof.
  intros Ha Hitem Hg Hpre Hchosen. split.
  - unfold swatchItems. rewrite Ha. cbn [option_map]. apply validValues_member.
    rewrite <- Hg. apply in_map.
    destruct (find_first _ _ _ Hitem) as [_ [before [after [-> _]]]].
    apply in_or_app. right. now left.
  - destruct (find_first _ _ _ Hitem) as [Hcolor _].
    assert (Hkey : match AttributeValue.KeyName item with
                   | Some k => toLocaleLowerCase k
                   | None => EmptyString
                   end = DimensionTypes.color).
    { unfold isColorAttribute in Hcolor.
      destruct (AttributeValue.KeyName item); [now apply String.eqb_eq | discriminate]. }
    unfold getDefaultColorSwatchSelected, find in Hchosen. rewrite Ha, Hitem in Hchosen.
    destruct (AttributeValue.Swatches item) as [[|first rest]|] eqn:Es; try discriminate.
    destruct (swatchGroup_cases _ _ _ item group Hg) as [_ [_ Hc]].
    rewrite Hkey, Es in Hc. cbn [nullish] in Hc.
    unfold find.
    destruct (List.find isDefaultSwatch (first :: rest)) as [d|] eqn:Ed;
      cbn [nullish] in Hchosen; injection Hchosen as <-.
    + assert (Hex : existsb (fun a => truthy_bool (AttributeSwatch.IsDefault a))
                      (first :: rest) = true) by exact (find_some_existsb _ _ _ Ed).
      destruct Hc as [E | [_ [_ [_ Hnone]]]]; [|congruence].
      rewrite E, find_map.
      change (fun x => truthy_bool
                (SwatchItem.isDefault (toSwatchItem format props item DimensionTypes.color x)))
        with isDefaultSwatch.
      rewrite Ed. cbn [option_map]. eexists. split; [reflexivity|].
      destruct (find_first _ _ _ Ed) as [Hd _]. unfold isDefaultSwatch in Hd.
      cbn [toSwatchItem SwatchItem.isDefault SwatchItem.dimensionType SwatchItem.value
           SwatchItem.productImageUrls].
      split; [|repeat split].
      destruct (AttributeSwatch.IsDefault d) as [[|]|]; try discriminate. reflexivity.
    + assert (Hex : existsb (fun a => truthy_bool (AttributeSwatch.IsDefault a))
                      (first :: rest) = false) by exact (find_none_existsb _ _ Ed).
      assert (E : swatches group
                  = mark_first_default
                      (map (toSwatchItem format props item DimensionTypes.color)
                         (first :: rest))).
      { destruct Hc as [E | [E _]]; [|exact E]. exfalso.
        pose proof Hg as Hg'. unfold swatchGroup in Hg'. rewrite Hkey, Es in Hg'.
        destruct (negb (checkIfShouldDisplayAsSwatch _ _)); [discriminate|].
        destruct (String.eqb_spec (dimensionToPreSelectInProductCard (config (context props)))
                    DimensionTypes.none) as [|_]; [contradiction|].
        unfold some in Hg'. rewrite existsb_map in Hg'.
        change (fun x => truthy_bool
                  (SwatchItem.isDefault
                     (toSwatchItem format props item DimensionTypes.color x)))
          with (fun a => truthy_bool (AttributeSwatch.IsDefault a)) in Hg'.
        rewrite Hex in Hg'. cbn in Hg'. injection Hg' as <-.
        cbn [swatches] in E. cbn [map] in E. injection E as E.
        cbn [existsb] in Hex. apply orb_false_iff in Hex as [Hf _].
        rewrite <- E in Hf. discriminate. }
      rewrite E. cbn [map mark_first_default List.find SwatchItem.with_isDefault
                      SwatchItem.isDefault truthy_bool].
      eexists. split; [reflexivity|]. repeat split.
Qed.

End DefaultSwatchProperties.

Lemma default_swatch_matches_initial_selection_witness :
  let item :=
    AttributeValue.mk (Some 5%Z) (Some "Color")
      (Some [AttributeSwatch.mk (Some "Red") None None (Some ["/images/red.png"]) None;
             AttributeSwatch.mk (Some "Blue") None None (Some ["/images/blue.png"]) None]) in
  let product :=
    ProductSearchResult.mk 123 None (Some "Shirt") None None 20%float None None
      (Some "/images/shirt.png") None None None None (Some [item]) None in
  exists group shown,
    swatchGroup Sample.checkIfShouldDisplayAsSwatch Sample.format
      (Sample.props (Some product) None) item = Some group /\
    JS.find (fun s => JS.truthy_bool (SwatchItem.isDefault s)) (swatches group) = Some shown /\
    SwatchItem.value shown = "Red".
Proof.
  cbv zeta.
  match goal with |- exists g s, ?c = Some g /\ _ => destruct c as [group|] eqn:Hg end;
    [|discriminate Hg].
  match type of Hg with swatchGroup _ _ (Sample.props (Some ?p) None) ?i = _ =>
    destruct (default_swatch_matches_initial_selection Sample.checkIfShouldDisplayAsSwatch
                Sample.format (Sample.props (Some p) None) p [i] i group
                (AttributeSwatch.mk (Some "Red") None None (Some ["/images/red.png"]) None)
                eq_refl eq_refl Hg)
      as [_ [shown [A [_ [_ [B _]]]]]]
  end.
  - discriminate.
  - reflexivity.
  - exists group, shown. split; [reflexivity|]. split; [exact A | exact B].
Defined.

(** * The renderers *)

Section RendererProperties.
Import Text Url JS DictionaryFacts.

Variable Payload : Type.
Variable getProductPageUrlSync : string -> Z -> string.
Variable generateImageUrl : option string -> ApiSettings -> option string.
Variable checkIfShouldDisplayAsSwatch : string -> ICoreContext -> bool.
Variable convertDimensionTypeToProductDimensionType : string -> Z.
Variable format : string -> list string -> string.
Variable toFixed : float -> Z -> string.
Variable numberToString : float -> string.
Variable stringToNumber : string -> float.
Variable formatCurrency : float -> string.
Variable getPayloadObject : string -> option ITelemetryContent -> string -> string -> Payload.
Variable getTelemetryAttributes : option ITelemetryContent -> Payload -> list (string * string).

Variable props : IProductComponentProps.

Local Abbreviation render_rating :=
  (renderRating format toFixed numberToString stringToNumber props) (only parsing).
Local Abbreviation rating_label := (getRatingAriaLabel format toFixed) (only parsing).
Local Abbreviation review_label := (getReviewAriaLabel format numberToString) (only parsing).
Local Abbreviation render_label := (renderLabel format toFixed numberToString) (only parsing).
Local Abbreviation render_quick_view :=
  (renderQuickView convertDimensionTypeToProductDimensionType) (only parsing).
Local Abbreviation initial_state :=
  (initialState getProductPageUrlSync generateImageUrl props) (only parsing).
Local Abbreviation swatch_items := (swatchItems checkIfShouldDisplayAsSwatch format props)
  (only parsing).
Local Abbreviation product_card :=
  (ProductCard Payload getProductPageUrlSync generateImageUrl checkIfShouldDisplayAsSwatch
     convertDimensionTypeToProductDimensionType format toFixed numberToString stringToNumber
     formatCurrency getPayloadObject getTelemetryAttributes props) (only parsing).

(** X16.  The price component is given the adjusted price as the
    customer's price, and as the highest and the lowest variant price
    whenever that variant price is absent, zero or not a number; a variant
    price other than these is handed on.  The four texts, the min-max
    switch and the price resources are handed on as they are. *)
Theorem variant_prices_fall_back_to_adjusted_price (coreContext : ICoreContext)
    (moduleTypeName moduleId : string)
    (basePrice adjustedPrice maxVariantPrice minVariantPrice : option float)
    (savings free original current : option string) :
  exists priceProps,
    renderPrice props coreContext moduleTypeName moduleId basePrice adjustedPrice
      maxVariantPrice minVariantPrice savings free original current
    = Some (PriceComponent priceProps) /\
    ProductPrice.CustomerContextualPrice (PriceProps.price priceProps) = adjustedPrice /\
    (truthy_number maxVariantPrice = false ->
     ProductPrice.MaxVariantPrice (PriceProps.price priceProps) = adjustedPrice) /\
    (truthy_number maxVariantPrice = true ->
     ProductPrice.MaxVariantPrice (PriceProps.price priceProps) = maxVariantPrice) /\
    (truthy_number minVariantPrice = false ->
     ProductPrice.MinVariantPrice (PriceProps.price priceProps) = adjustedPrice) /\
    (truthy_number minVariantPrice = true ->
     ProductPrice.MinVariantPrice (PriceProps.price priceProps) = minVariantPrice) /\
    PriceProps.id priceProps = moduleId /\
    PriceProps.typeName priceProps = moduleTypeName /\
    PriceProps.savingsText priceProps = savings /\
    PriceProps.freePriceText priceProps = free /\
    PriceProps.originalPriceText priceProps = original /\
    PriceProps.currentPriceText priceProps = current /\
    PriceProps.isPriceMinMaxEnabled priceProps = isPriceMinMaxEnabled props /\
    PriceProps.priceResources priceProps = priceResources props.
Proof.
  eexists. split; [reflexivity|]. cbn.
  split; [reflexivity|].
  split; [intros ->; reflexivity|]. split; [intros ->; reflexivity|].
  split; [intros ->; reflexivity|]. split; [intros ->; reflexivity|].
  repeat split.
Qed.

Lemma review_label_nullish (reviewCount : option float) (text : option string) :
  review_label reviewCount (Some (nullish text EmptyString)) = review_label reviewCount text.
Proof.
  unfold getReviewAriaLabel. destruct reviewCount as [n|]; [|reflexivity].
  destruct text as [t|]; [reflexivity|]. cbn [nullish truthy_string].
  now rewrite andb_false_r.
Qed.

(** X17.  The label of the card is the name, a space, the price, a space
    and the rating label, followed by a space and the review label when the
    review label is not empty; absent parts count as empty texts.  So the
    label is never empty, and without rating and review labels it ends in
    the space behind the price. *)
Theorem label_joins_name_price_and_ratings (name price : option string)
    (rating : option float) (ratingAriaLabelText : option string)
    (reviewCount : option float) (ratingCountAriaLabelText : option string) :
  let label :=
    render_label name price rating ratingAriaLabelText reviewCount ratingCountAriaLabelText in
  let start := nullish name EmptyString ++ " " ++ nullish price EmptyString ++ " " in
  let ratings := rating_label rating ratingAriaLabelText in
  let reviews := review_label reviewCount ratingCountAriaLabelText in
  (reviews = EmptyString -> label = start ++ ratings) /\
  (reviews <> EmptyString -> label = start ++ ratings ++ " " ++ reviews) /\
  (truthy_number rating && truthy_string ratingAriaLabelText = false ->
   truthy_number reviewCount && truthy_string ratingCountAriaLabelText = false ->
   label = start) /\
  label <> EmptyString.
Proof.
  intros label start ratings reviews.
  assert (E : label = start ++ ratings
                      ++ match reviews with
                         | String _ _ => " " ++ reviews
                         | EmptyString => EmptyString
                         end).
  { subst label start ratings reviews. unfold renderLabel.
    rewrite review_label_nullish.
    rewrite <- !TextFacts.append_assoc. reflexivity. }
  assert (Hr : truthy_number rating && truthy_string ratingAriaLabelText = false ->
               ratings = EmptyString).
  { subst ratings. unfold getRatingAriaLabel.
    destruct rating as [r|]; [|reflexivity].
    destruct ratingAriaLabelText as [t|]; [|reflexivity].
    cbn [truthy_number]. now intros ->. }
  assert (Hc : truthy_number reviewCount && truthy_string ratingCountAriaLabelText = false ->
               reviews = EmptyString).
  { subst reviews. unfold getReviewAriaLabel.
    destruct reviewCount as [n|]; [|reflexivity].
    destruct ratingCountAriaLabelText as [t|]; [|reflexivity].
    cbn [truthy_number]. now intros ->. }
  split; [|split; [|split]].
  - intros H. rewrite E, H. now rewrite TextFacts.append_nil_r.
  - intros H. rewrite E. destruct reviews; [congruence | reflexivity].
  - intros H1 H2. rewrite E, (Hr H1), (Hc H2). now rewrite TextFacts.append_nil_r.
  - rewrite E. subst start. destruct (nullish name EmptyString); discriminate.
Qed.

(** X18.  The quick view is handed one product dimension, with record
    identifier [0], for each dimension type that has a selected swatch.
    After a call of the swatch callback, whatever its outcome, the dimension
    of the swatch of the call is among them with the value of that swatch;
    the dimensions of the other dimension types are kept, and an earlier
    selection of the same dimension type is replaced.  Without a quick view
    node nothing is rendered. *)
Theorem quick_view_lists_selected_swatches (st : State) (coreContext : ICoreContext)
    (swatchItem : SwatchItem.t) (quickview : JSX) (item : option Z) :
  let st' := state_of (updatePageAndImageUrl generateImageUrl props st coreContext swatchItem) in
  let dimension_of (s : SwatchItem.t) :=
    ProductDimension.mk
      (convertDimensionTypeToProductDimensionType (SwatchItem.dimensionType s)) 0
      (SwatchItem.value s) in
  render_quick_view st' None item = None /\
  exists dimensions,
    render_quick_view st' (Some quickview) item
    = Some (CloneElement quickview item dimensions) /\
    In (dimension_of swatchItem) dimensions /\
    (forall key s,
       In (key, s) (selectedSwatchItems st) -> key <> SwatchItem.dimensionType swatchItem ->
       In (dimension_of s) dimensions) /\
    List.length dimensions
    = (List.length (selectedSwatchItems st)
       + if existsb (fun entry => String.eqb (fst entry) (SwatchItem.dimensionType swatchItem))
              (selectedSwatchItems st)
         then 0 else 1)%nat /\
    Forall (fun d => ProductDimension.DimensionValue_RecordId d = 0%Z) dimensions.
Proof.
  intros st' dimension_of.
  assert (E : selectedSwatchItems st'
              = Dictionary.setValue (SwatchItem.dimensionType swatchItem) swatchItem
                  (selectedSwatchItems st)).
  { subst st'. unfold updatePageAndImageUrl.
    destruct (isNullOrWhitespace _); [reflexivity|].
    destruct (productPageUrlWithSwatch _ _ _ _); [|reflexivity].
    destruct (String.eqb _ _); reflexivity. }
  split; [reflexivity|].
  eexists. split; [reflexivity|]. rewrite E. unfold Dictionary.getValues.
  fold dimension_of. split; [|split; [|split]].
  - apply in_map. apply in_map_iff.
    exists (SwatchItem.dimensionType swatchItem, swatchItem).
    split; [reflexivity | apply setValue_lookup].
  - intros key s Hin Hne. apply in_map. apply in_map_iff.
    exists (key, s). split; [reflexivity | now apply setValue_other].
  - rewrite !length_map. apply setValue_length.
  - apply Forall_forall. intros d Hd. apply in_map_iff in Hd as [s [<- _]]. reflexivity.
Qed.

(** X19.  For an average rating that is a number other than zero the
    rating component is rendered, read-only, with that rating and the rating
    label.  Without a total of ratings it gets no rating count and an empty
    count label; with one, the count is the text of the total, and the count
    label is the review label of the number read back from that text, made
    with the count template of the card. *)
Theorem rating_component_of_rated_product (coreContext : ICoreContext)
    (moduleTypeName moduleId : string) (rating : float) (totalRatings : option float)
    (ariaLabel : option string) :
  truthy_float rating = true ->
  exists ratingProps,
    render_rating coreContext moduleTypeName moduleId (Some rating) totalRatings ariaLabel
    = Some (RatingComponent ratingProps) /\
    RatingProps.avgRating ratingProps = rating /\
    RatingProps.readOnly ratingProps = true /\
    RatingProps.id ratingProps = moduleId /\
    RatingProps.typeName ratingProps = moduleTypeName /\
    RatingProps.ariaLabel ratingProps = rating_label (Some rating) ariaLabel /\
    (totalRatings = None ->
     RatingProps.ratingCount ratingProps = None /\
     RatingProps.ratingCountAriaLabel ratingProps = EmptyString) /\
    (forall total,
       totalRatings = Some total -> numberToString total <> EmptyString ->
       RatingProps.ratingCount ratingProps = Some (numberToString total) /\
       RatingProps.ratingCountAriaLabel ratingProps
       = review_label (Some (stringToNumber (numberToString total)))
           (ratingCountAriaLabel props)).
Proof.
  intros Hr. unfold renderRating. rewrite Hr. cbn [negb].
  eexists. split; [reflexivity|]. cbn.
  repeat (split; [reflexivity|]). split.
  - intros ->. split; [reflexivity|].
    unfold getReviewAriaLabel. now destruct (ratingCountAriaLabel props).
  - intros total -> Hne. destruct (numberToString total); [congruence|]. split; reflexivity.
Qed.

(** X20.  The add-to-cart component is always given the available quantity
    [1], and a product whose product type value is the record identifier of
    the product and whose adjusted price is its price.  The availability
    entry the button goes by is the first one whose master product
    identifier is not zero and is the master product identifier of the
    product; there is none when the card has no availability list or the
    product has no master product identifier or the identifier zero, and
    then the component is given no availability flag. *)
Theorem cart_button_availability_entry (product : ProductSearchResult.t) :
  exists cartProps,
    _renderCartButton props product
    = Node "ms-search-result-container__add-to-cart-container"
        [Some (AddToCartComponent cartProps)] /\
    AddToCartProps.availableQuantity cartProps = 1%Z /\
    SimpleProduct.RecordId (AddToCartProps.product cartProps)
    = ProductSearchResult.RecordId product /\
    SimpleProduct.ProductTypeValue (AddToCartProps.product cartProps)
    = ProductSearchResult.RecordId product /\
    SimpleProduct.Price (AddToCartProps.product cartProps)
    = ProductSearchResult.Price product /\
    SimpleProduct.AdjustedPrice (AddToCartProps.product cartProps)
    = ProductSearchResult.Price product /\
    (forall entry,
       productDimensionAvailabilities props product = Some entry ->
       exists m before after,
         ProductSearchResult.MasterProductId product = Some m /\ m <> 0%Z /\
         DimensionAvailability.masterProductId entry = Some m /\
         dimensionAvailabilities props = Some (before ++ entry :: after)%list /\
         Forall (fun e => DimensionAvailability.masterProductId e <> Some m) before) /\
    (dimensionAvailabilities props = None \/
     ProductSearchResult.MasterProductId product = None \/
     ProductSearchResult.MasterProductId product = Some 0%Z ->
     productDimensionAvailabilities props product = None) /\
    (productDimensionAvailabilities props product = None ->
     AddToCartProps.hasAvailableProducts cartProps = None).
Proof.
  eexists. split; [reflexivity|]. cbn [AddToCartProps.availableQuantity AddToCartProps.product
    AddToCartProps.hasAvailableProducts SimpleProduct.RecordId SimpleProduct.ProductTypeValue
    SimpleProduct.Price SimpleProduct.AdjustedPrice].
  repeat (split; [reflexivity|]). split; [|split].
  - intros entry. unfold productDimensionAvailabilities.
    destruct (dimensionAvailabilities props) as [das|]; [|discriminate].
    unfold find. intros Hf.
    assert (Hgen : forall l, List.find (fun dimensionAvailability =>
                hasElements (Some das)
                && match DimensionAvailability.masterProductId dimensionAvailability with
                   | Some m =>
                       negb (Z.eqb m 0)
                       && match ProductSearchResult.MasterProductId product with
                          | Some pm => Z.eqb m pm
                          | None => false
                          end
                   | None => false
                   end) l = Some entry ->
              exists m before after,
                ProductSearchResult.MasterProductId product = Some m /\ m <> 0%Z /\
                DimensionAvailability.masterProductId entry = Some m /\
                l = (before ++ entry :: after)%list /\
                Forall (fun e => DimensionAvailability.masterProductId e <> Some m) before).
    { induction l as [|e r IH]; [discriminate|]. cbn [List.find].
      destruct (hasElements (Some das) && _) eqn:Ee.
      - intros [= ->]. apply andb_true_iff in Ee as [_ Ee].
        destruct (DimensionAvailability.masterProductId entry) as [m|]; [|discriminate].
        apply andb_true_iff in Ee as [Hz Hm].
        destruct (ProductSearchResult.MasterProductId product) as [pm|]; [|discriminate].
        apply Z.eqb_eq in Hm. subst pm. apply negb_true_iff, Z.eqb_neq in Hz.
        exists m, [], r. repeat split; auto.
      - intros H. destruct (IH H) as [m [before [after [Hp [Hz [He [-> Hb]]]]]]].
        exists m, (e :: before), after. repeat split; auto.
        constructor; [|exact Hb]. intros Hem. rewrite Hem, Hp in Ee.
        rewrite Z.eqb_refl in Ee. apply Z.eqb_neq in Hz. rewrite Hz in Ee.
        cbn [negb andb] in Ee. rewrite andb_true_r in Ee.
        destruct das; [discriminate Hf | discriminate Ee]. }
    destruct (Hgen das Hf) as [m [before [after [A [B [C [D F]]]]]]].
    exists m, before, after. rewrite D. auto.
  - unfold productDimensionAvailabilities. intros [->|[H|H]]; [reflexivity| |];
      (destruct (dimensionAvailabilities props) as [das|]; [|reflexivity]);
      rewrite H; unfold find.
    + induction das as [|e r IH] at 2; [reflexivity|]. cbn [List.find].
      destruct (DimensionAvailability.masterProductId e);
        rewrite ?andb_false_r; exact IH.
    + induction das as [|e r IH] at 2; [reflexivity|]. cbn [List.find].
      destruct (DimensionAvailability.masterProductId e) as [m|].
      * destruct (Z.eqb m 0); cbn [negb andb]; rewrite ?andb_false_r; exact IH.
      * rewrite andb_false_r. exact IH.
  - intros ->. reflexivity.
Qed.

End RendererProperties.

(** * The card as a whole *)

Section CardProperties.
Import Text Url JS.

Variable Payload : Type.
Variable getProductPageUrlSync : string -> Z -> string.
Variable generateImageUrl : option string -> ApiSettings -> option string.
Variable checkIfShouldDisplayAsSwatch : string -> ICoreContext -> bool.
Variable convertDimensionTypeToProductDimensionType : string -> Z.
Variable format : string -> list string -> string.
Variable toFixed : float -> Z -> string.
Variable numberToString : float -> string.
Variable stringToNumber : string -> float.
Variable formatCurrency : float -> string.
Variable getPayloadObject : string -> option ITelemetryContent -> string -> string -> Payload.
Variable getTelemetryAttributes : option ITelemetryContent -> Payload -> list (string * string).

Variable props : IProductComponentProps.

Local Abbreviation initial_state :=
  (initialState getProductPageUrlSync generateImageUrl props) (only parsing).
Local Abbreviation swatch_items := (swatchItems checkIfShouldDisplayAsSwatch format props)
  (only parsing).
Local Abbreviation product_card :=
  (ProductCard Payload getProductPageUrlSync generateImageUrl checkIfShouldDisplayAsSwatch
     convertDimensionTypeToProductDimensionType format toFixed numberToString stringToNumber
     formatCurrency getPayloadObject getTelemetryAttributes props) (only parsing).

(** X21.  What a card with a product shows.  A mounted card renders from
    the state it holds, a new one from the initial state.  The link of the
    card goes to the page URL of the state and its image is made from the
    image URL of the state.  The price, the description and the add-to-cart
    button are always there; the swatches are there when an attribute of
    the product is displayed as swatches, the unit of measure when its
    display is switched on and the product has one, the rating unless
    ratings are hidden or the product has no average rating, the
    availability when the card has an inventory label, and the quick view
    when the card has a quick view button. *)
Theorem card_sections (hooks : option State) (p : ProductSearchResult.t) (st : State)
    (markup : JSX) :
  data_product props = Some p ->
  product_card hooks = Ok (st, Some markup) ->
  match hooks with
  | Some mounted => st = mounted
  | None => initial_state = Ok st
  end /\
  exists label attributes image title dimensions price unit description rating availability
         cart quick,
    markup
    = Fragment
        [ Some (Anchor (productPageUrl st) label "msc-product" attributes
                  [ Some (Tag "div" "msc-product__image" [image]);
                    Some (Tag "h4" "msc-product__title" [title]) ]);
          dimensions;
          Some (Tag "div" "msc-product__details"
                  [price; unit; description; rating; availability]);
          Some cart;
          quick ] /\
    image
    = renderProductPlacementImage (imageSettings props) (gridSettings (context props))
        (productImageUrl st) (ProductSearchResult.PrimaryImageUrl p)
        (ProductSearchResult.Name p) /\
    title = option_map Text (ProductSearchResult.Name p) /\
    price <> None /\
    description <> None /\
    cart = _renderCartButton props p /\
    (dimensions = None <-> swatch_items p = []) /\
    (unit = None <->
     isUnitOfMeasureEnabled props = false
     \/ truthy_string (ProductSearchResult.DefaultUnitOfMeasure p) = false) /\
    (rating = None <->
     truthy_bool (hideRating (config (context props))) = true
     \/ truthy_number (ProductSearchResult.AverageRating p) = false) /\
    (availability = None <-> truthy_string (inventoryLabel props) = false) /\
    (quick = None <-> quickViewButton props = None).
Proof.
  intros Hp. unfold ProductCard.
  destruct initial_state as [init|e] eqn:Einit; cbn [bind]; [|discriminate].
  rewrite Hp. intros [= <- <-]. split.
  - destruct hooks; reflexivity.
  - do 12 eexists. split; [reflexivity|].
    split; [reflexivity|]. split; [reflexivity|].
    split; [discriminate|]. split; [discriminate|]. split; [reflexivity|].
    split; [|split; [|split; [|split]]].
    + unfold renderProductDimensions.
      destruct (swatch_items p); cbn [hasElements negb]; split; intros H;
        try reflexivity; discriminate.
    + destruct (isUnitOfMeasureEnabled props).
      * unfold renderProductUnitOfMeasure.
        destruct (ProductSearchResult.DefaultUnitOfMeasure p) as [[|c r]|];
          cbn [truthy_string]; split; intros H; try reflexivity; try discriminate;
          try (now right); destruct H; discriminate.
      * split; intros H; [now left | reflexivity].
    + destruct (truthy_bool (hideRating (config (context props)))); cbn [negb].
      * split; intros H; [now left | reflexivity].
      * unfold renderRating.
        destruct (ProductSearchResult.AverageRating p) as [r|]; cbn [truthy_number].
        -- destruct (truthy_float r); cbn [negb]; split; intros H;
             try reflexivity; try discriminate; try (now right); destruct H; discriminate.
        -- split; intros H; [now right | reflexivity].
    + unfold renderProductAvailability.
      destruct (inventoryLabel props) as [[|c r]|]; cbn [truthy_string]; split; intros H;
        try reflexivity; discriminate.
    + destruct (quickViewButton props); cbn [renderQuickView]; split; intros H;
        try reflexivity; discriminate.
Qed.

End CardProperties.

Lemma card_sections_witness :
  exists st markup,
    ProductCard string Sample.getProductPageUrlSync Sample.generateImageUrl
      Sample.checkIfShouldDisplayAsSwatch Sample.convertDimensionTypeToProductDimensionType
      Sample.format Sample.toFixed Sample.numberToString Sample.stringToNumber
      Sample.formatCurrency Sample.getPayloadObject Sample.getTelemetryAttributes
      (Sample.props (Some Sample.shirt) None)
      (Some (Sample.state "/Shirt/123.p?color=Blue"))
    = Ok (st, Some markup) /\
    st = Sample.state "/Shirt/123.p?color=Blue".
Proof.
  match goal with |- exists st markup, ?c = _ /\ _ =>
    destruct c as [[st [markup|]]|e] eqn:E; try discriminate E
  end.
  exists st, markup. split; [reflexivity|].
  exact (proj1 (card_sections string Sample.getProductPageUrlSync Sample.generateImageUrl
                  Sample.checkIfShouldDisplayAsSwatch
                  Sample.convertDimensionTypeToProductDimensionType Sample.format
                  Sample.toFixed Sample.numberToString Sample.stringToNumber
                  Sample.formatCurrency Sample.getPayloadObject Sample.getTelemetryAttributes
                  (Sample.props (Some Sample.shirt) None)
                  (Some (Sample.state "/Shirt/123.p?color=Blue")) Sample.shirt st markup
                  eq_refl E)).
Defined.

Lemma variant_prices_fall_back_to_adjusted_price_witness :
  exists priceProps,
    renderPrice (Sample.props None None) Sample.coreContext "product" "card-1"
      (Some 25%float) (Some 20%float) (Some 0%float) None None None None None
    = Some (PriceComponent priceProps) /\
    ProductPrice.MaxVariantPrice (PriceProps.price priceProps) = Some 20%float /\
    ProductPrice.MinVariantPrice (PriceProps.price priceProps) = Some 20%float.
Proof.
  destruct (variant_prices_fall_back_to_adjusted_price (Sample.props None None)
              Sample.coreContext "product" "card-1" (Some 25%float) (Some 20%float)
              (Some 0%float) None None None None None)
    as [priceProps [A [_ [B [_ [C _]]]]]].
  exists priceProps. split; [exact A|]. split; [apply B | apply C]; reflexivity.
Defined.

Lemma rating_component_of_rated_product_witness :
  exists ratingProps,
    renderRating Sample.format Sample.toFixed Sample.numberToString Sample.stringToNumber
      (Sample.props None None) Sample.coreContext "product" "card-1" (Some 4.5%float) None
      (Some "{0} of {1} stars")
    = Some (RatingComponent ratingProps) /\
    RatingProps.ratingCount ratingProps = None /\
    RatingProps.ratingCountAriaLabel ratingProps = EmptyString.
Proof.
  destruct (rating_component_of_rated_product Sample.format Sample.toFixed
              Sample.numberToString Sample.stringToNumber (Sample.props None None)
              Sample.coreContext "product" "card-1" 4.5%float None (Some "{0} of {1} stars")
              eq_refl)
    as [ratingProps [A [_ [_ [_ [_ [_ [B _]]]]]]]].
  exists ratingProps. split; [exact A|]. now apply B.
Defined.
